(** * Multi-Agent Business Insights: the aggregation-and-insight pipeline

    A shallow embedding of [orchestrator.py] (the console variant) and of
    [streamlit_app.py] (the dashboard variant): the loading of the sales
    table, the aggregation (sums, mean, the two grouped tables, the best
    month and product, the margin), the five agents with their prompts
    and the pipeline that chains four of them.

    Numbers.  [pandas.read_csv] types the columns [Revenue] and [Expenses]
    as [int64] or [float64]; their cells and their sums are embedded as
    exact rationals ([Qc]), which is what pandas computes as long as the
    amounts add up without rounding and without overflow: the statements
    that depend on it say so ([exact_amounts], [whole_amounts]).
    [Customers] is an integer column ([Z]).  What is computed from the
    totals, the margin and the mean, is computed in binary64 as numpy
    does it: every operation returns the binary64 number nearest to the
    exact result ([round64]), an infinity or not a number; numpy does
    not raise on a zero divisor, it returns [inf], [-inf] or [nan].

    Effects.  A method of [MultiAgentOrchestrator] is a function from the
    session (the frame [self.data], the requests sent so far, what was
    shown to the user) to an outcome, a value or an exception, and the
    session it leaves.  The completion backend is an arbitrary function
    of the request and of the requests before it, which answers with a
    text or raises.

    Input.  The file is what [read_csv] makes of it: an exception, which
    [load_data] catches, or a frame with the five columns, whose rows
    are taken with their dates parsed and a text for every product (the
    empty text where the cell is missing, for the statements that have
    to exclude it).  The console reads the lines of its standard input,
    and [input] raises [EOFError] when they are used up. *)

From Stdlib Require Import ZArith QArith Qcanon Qabs Qpower List String Ascii.
From Stdlib Require Import Lia Lqa.
From Stdlib Require Import OrdersEx Sorted Permutation.
Import ListNotations.

Local Open Scope string_scope.
Local Open Scope Z_scope.

(** ** Numbers *)

(** A [numpy.float64]: a finite binary64 number, held as the rational
    it is, an infinity or not a number. *)
Inductive float64 : Type :=
| Fin (q : Qc)
| PInf
| NInf
| NaN.

Definition Qc_of_Z (z : Z) : Qc := Q2Qc (inject_Z z).

Definition Qc_eqb (x y : Qc) : bool := Qc_eq_bool x y.

Definition Qc_ltb (x y : Qc) : bool :=
  match (x ?= y)%Qc with Lt => true | _ => false end.

(** [numpy.rint]: the nearest integer, a tie going to the even one. *)
Definition rint (q : Qc) : Z :=
  let n := Qnum (this q) in
  let d := Zpos (Qden (this q)) in
  let fl := n / d in
  match (2 * (n mod d) ?= d) with
  | Lt => fl
  | Gt => fl + 1
  | Eq => if Z.even fl then fl else fl + 1
  end.

(** [2 ** z], for a whole number [z] of either sign. *)
Definition pow2 (z : Z) : Qc := Q2Qc (2 ^ z)%Q.

Definition Qc_abs (q : Qc) : Qc := Q2Qc (Qabs q).

(** The binade of a number other than zero: the [k] with
    [2 ** k <= |q| < 2 ** (k + 1)]. *)
Definition binade (q : Qc) : Z :=
  let k := Z.log2 (Z.abs (Qnum (this q))) - Z.log2 (Zpos (Qden (this q))) in
  if Qc_ltb (Qc_abs q) (pow2 k) then k - 1 else k.

(** The exponent of the last bit of the binary64 numbers next to [q]:
    53 bits of precision, and no exponent below that of the subnormal
    numbers. *)
Definition last_bit (q : Qc) : Z := Z.max (binade q - 52) (-1074).

(** The result of an operation of binary64 whose exact value is [q]:
    the binary64 number nearest to [q], a tie going to the even
    significand, and an infinity when that is beyond the largest finite
    number. *)
Definition round64 (q : Qc) : float64 :=
  if Qc_eqb q 0%Qc then Fin 0%Qc
  else
    let e := last_bit q in
    let r := (Qc_of_Z (rint (q / pow2 e)) * pow2 e)%Qc in
    if Qc_ltb (Qc_abs r) (pow2 1024) then Fin r
    else if Qc_ltb 0%Qc q then PInf else NInf.

(** [x / y] on numpy scalars ([true_divide]), the two totals: a zero
    divisor gives a non-finite value (and a [RuntimeWarning]), never an
    exception; otherwise the quotient is rounded to binary64. *)
Definition true_divide (x y : Qc) : float64 :=
  if Qc_eqb y 0%Qc then
    if Qc_eqb x 0%Qc then NaN
    else if Qc_ltb 0%Qc x then PInf else NInf
  else round64 (x / y)%Qc.

(** [x * c] for a positive finite constant [c], rounded to binary64. *)
Definition fmul_pos (x : float64) (c : Qc) : float64 :=
  match x with
  | Fin q => round64 (q * c)%Qc
  | other => other
  end.

Definition pow10 (decimals : nat) : Qc := Qc_of_Z (10 ^ Z.of_nat decimals).

(** Rounding to a number of decimals as [DataFrame.round] does it on the
    sums of a grouped table: [rint(x * 10**decimals) / 10**decimals],
    here on the exact sums. *)
Definition round_Qc (q : Qc) (decimals : nat) : Qc :=
  (Qc_of_Z (rint (q * pow10 decimals)) / pow10 decimals)%Qc.

(** [round(x, decimals)] on a numpy scalar, which is [numpy.round]: the
    product [x * 10**decimals], [rint] of it and the quotient by
    [10**decimals], the product and the quotient being operations of
    binary64. *)
Definition round_f64 (x : float64) (decimals : nat) : float64 :=
  match x with
  | Fin q =>
      match round64 (q * pow10 decimals)%Qc with
      | Fin scaled => round64 (Qc_of_Z (rint scaled) / pow10 decimals)%Qc
      | other => other
      end
  | other => other
  end.

Definition sum_Qc (l : list Qc) : Qc := fold_right Qcplus 0%Qc l.

Definition sum_Z (l : list Z) : Z := fold_right Z.add 0 l.

(** [Series.mean]: pandas guards the division ([the_sum / count if
    count > 0 else nan]), so an empty column gives [nan]; the quotient
    is a binary64 number. *)
Definition mean_Z (l : list Z) : float64 :=
  match l with
  | [] => NaN
  | _ => round64 (Qc_of_Z (sum_Z l) / Qc_of_Z (Z.of_nat (List.length l)))%Qc
  end.

(** ** Dates *)

Inductive month : Type :=
| Jan | Feb | Mar | Apr | May | Jun | Jul | Aug | Sep | Oct | Nov | Dec.

Record date : Type := mkDate { year : Z; mon : month; day : Z }.

(** [strftime('%B')]: the full month name. *)
Definition strftime_B (d : date) : string :=
  match mon d with
  | Jan => "January" | Feb => "February" | Mar => "March"
  | Apr => "April" | May => "May" | Jun => "June"
  | Jul => "July" | Aug => "August" | Sep => "September"
  | Oct => "October" | Nov => "November" | Dec => "December"
  end.

(** ** The data frame *)

(** A row of the frame that [read_csv] returns for [company_sales.csv]:
    the five columns, with a date that [to_datetime] parses, a text for
    the product and numbers for the amounts. *)
Record CsvRow : Type := mkCsv {
  csv_Date : date;
  csv_Product : string;
  csv_Revenue : Qc;
  csv_Expenses : Qc;
  csv_Customers : Z
}.

(** A row of [self.data] once [load_data] has added the [Profit] column. *)
Record Row : Type := mkRow {
  Date : date;
  Product : string;
  Revenue : Qc;
  Expenses : Qc;
  Customers : Z;
  Profit : Qc
}.

(** [self.data]: the rows and the [Month] column, which is there only
    once it has been assigned. *)
Record DataFrame : Type := mkFrame {
  rows : list Row;
  Month : option (list string)
}.

(** ** Grouping *)

(** [Series.unique]: the distinct values in order of first appearance. *)
Fixpoint unique (l : list string) : list string :=
  match l with
  | [] => []
  | k :: t => k :: filter (fun k' => negb (String.eqb k' k)) (unique t)
  end.

(** The order of Python on [str]: character by character. *)
Definition str_lt (a b : string) : Prop := String_as_OT.lt a b.

Definition str_ltb (a b : string) : bool :=
  match String_as_OT.compare a b with Lt => true | _ => false end.

Fixpoint insert_sorted (k : string) (l : list string) : list string :=
  match l with
  | [] => [k]
  | h :: t => if str_ltb h k then h :: insert_sorted k t else k :: l
  end.

Definition sort_keys (l : list string) : list string :=
  fold_right insert_sorted [] l.

(** [df.groupby(by)]: [sort=True] is the default, so the group keys are
    the distinct values of the key column in ascending order; every group
    keeps its rows in the order of the frame. *)
Definition groupby {A : Type} (by_ : list string) (rs : list A)
  : list (string * list A) :=
  map (fun k =>
         (k, map snd (filter (fun kr => String.eqb (fst kr) k)
                             (combine by_ rs))))
      (sort_keys (unique by_)).

(** [Series.idxmax]: the label of the first row holding the maximum;
    [None] is the [ValueError] of an empty series. *)
Fixpoint idxmax_from (best : string * Qc) (l : list (string * Qc)) : string :=
  match l with
  | [] => fst best
  | kv :: t =>
      if Qc_ltb (snd best) (snd kv) then idxmax_from kv t
      else idxmax_from best t
  end.

Definition idxmax (l : list (string * Qc)) : option string :=
  match l with
  | [] => None
  | kv :: t => Some (idxmax_from kv t)
  end.

(** ** Exceptions, the completion backend and the session *)

(** The exceptions of the program: those pandas raises and whatever the
    completion client raises (network, authentication, unknown model). *)
Inductive exn : Type :=
| TypeError (msg : string)
| KeyError (msg : string)
| ValueError (msg : string)
| EOFError (msg : string)
| APIError (msg : string).

(** [str(e)], what an f-string prints for [{e}]. *)
Definition str_exn (e : exn) : string :=
  match e with
  | TypeError m | KeyError m | ValueError m | EOFError m | APIError m => m
  end.

Record message : Type := mkMessage { role : string; content : string }.

Record request : Type := mkRequest {
  messages : list message;
  model : string;
  temperature : Qc
}.

(** What [client.chat.completions.create(...)] followed by
    [response.choices[0].message.content] comes to: a text, or an
    exception raised on the way. *)
Inductive reply : Type :=
| Completion (text : string)
| Failure (e : exn).

(** The backend is a black box: its reply may depend on the request and
    on every request sent before (most recent first). *)
Definition Groq : Type := list request -> request -> reply.

(** One row of [product_performance]. *)
Record ProductAgg : Type := mkProductAgg {
  pa_Revenue : Qc;
  pa_Expenses : Qc;
  pa_Profit : Qc;
  pa_Customers : Z
}.

(** The dictionary [analysis_data]; [MT] is the type of a row of
    [monthly_trends], and [ai_insights] is absent until the analyst
    stores it. *)
Record AnalysisData (MT : Type) : Type := mkAnalysis {
  total_revenue : Qc;
  total_expenses : Qc;
  total_profit : Qc;
  profit_margin : float64;
  avg_customers : float64;
  best_month : string;
  best_product : string;
  product_performance : list (string * ProductAgg);
  monthly_trends : list (string * MT);
  ai_insights : option string
}.

Arguments mkAnalysis {MT}.
Arguments total_revenue {MT}.
Arguments total_expenses {MT}.
Arguments total_profit {MT}.
Arguments profit_margin {MT}.
Arguments avg_customers {MT}.
Arguments best_month {MT}.
Arguments best_product {MT}.
Arguments product_performance {MT}.
Arguments monthly_trends {MT}.
Arguments ai_insights {MT}.

(** [analysis_data['ai_insights'] = text]. *)
Definition set_ai_insights {MT : Type} (a : AnalysisData MT) (text : string)
  : AnalysisData MT :=
  mkAnalysis (total_revenue a) (total_expenses a) (total_profit a)
             (profit_margin a) (avg_customers a) (best_month a)
             (best_product a) (product_performance a) (monthly_trends a)
             (Some text).

(** What the program takes from its libraries and surroundings without
    defining it: the completion client, the clock, and the rendering of
    numbers and tables into text. *)
Record Platform : Type := mkPlatform {
  client : Groq;
  (** [datetime.now().strftime("%B %d, %Y")] *)
  today : string;
  (** [f"{x:,}"] *)
  fmt_thousands : Qc -> string;
  (** [f"{x}"] for a float *)
  fmt_float : float64 -> string;
  (** [f"{x:.0f}"] *)
  fmt_0f : float64 -> string;
  (** [str(n)] for [len(self.data)] *)
  fmt_len : nat -> string;
  (** [product_performance.to_string()] *)
  table_to_string : list (string * ProductAgg) -> string;
  (** [self.data.to_string()] *)
  frame_to_string : DataFrame -> string
}.

(** What the user gets to see: a line printed on the terminal, or a
    call of the dashboard's widgets. *)
Inductive event : Type :=
| Printed (line : string)
| StError (msg : string)
| StStatus (text : string)
| StProgress (percent : Z)
| StSuccess (msg : string).

(** The object [self] and its surroundings: the loaded frame, the
    requests sent to the backend so far (most recent first) and what was
    shown to the user (oldest first). *)
Record session : Type := mkSession {
  data : option DataFrame;
  sent : list request;
  console : list event
}.

(** ** Computations: state and exceptions *)

Inductive outcome (A : Type) : Type :=
| Return (a : A)
| Raise (e : exn).

Arguments Return {A}.
Arguments Raise {A}.

(** A Python statement sequence: it runs from a session and ends in a
    value or an exception; what it did to the session stays done. *)
Definition M (A : Type) : Type := session -> outcome A * session.

Definition ret {A : Type} (a : A) : M A := fun s => (Return a, s).

Definition raise {A : Type} (e : exn) : M A := fun s => (Raise e, s).

Definition bind {A B : Type} (m : M A) (k : A -> M B) : M B :=
  fun s =>
    match m s with
    | (Return a, s') => k a s'
    | (Raise e, s') => (Raise e, s')
    end.

(** [try: body  except Exception as e: handler(e)] *)
Definition try_except {A : Type} (body : M A) (handler : exn -> M A) : M A :=
  fun s =>
    match body s with
    | (Return a, s') => (Return a, s')
    | (Raise e, s') => handler e s'
    end.

Declare Scope py_scope.
Delimit Scope py_scope with py.

Notation "x <- m ;; k" := (bind m (fun x => k))
  (at level 61, m at next level, right associativity) : py_scope.
Notation "m ;;; k" := (bind m (fun _ => k))
  (at level 61, right associativity) : py_scope.

Local Open Scope py_scope.

(** The session after one more event has been shown. *)
Definition showing (s : session) (ev : event) : session :=
  mkSession (data s) (sent s) (console s ++ [ev]).

(** The session after one more request has been sent. *)
Definition sending (s : session) (req : request) : session :=
  mkSession (data s) (req :: sent s) (console s).

Definition emit (ev : event) : M unit :=
  fun s => (Return tt, showing s ev).

Definition print (line : string) : M unit := emit (Printed line).

(** [self.data[...]]: subscripting [None] is a [TypeError]. *)
Definition self_data : M DataFrame :=
  fun s =>
    match data s with
    | Some df => (Return df, s)
    | None => (Raise (TypeError "'NoneType' object is not subscriptable"), s)
    end.

Definition set_self_data (df : DataFrame) : M unit :=
  fun s => (Return tt, mkSession (Some df) (sent s) (console s)).

(** [df['Month']] of a frame that may lack the column. *)
Definition column_Month (df : DataFrame) : M (list string) :=
  match Month df with
  | Some col => ret col
  | None => raise (KeyError "'Month'")
  end.

(** [series.idxmax()] *)
Definition idxmax_or_raise (l : list (string * Qc)) : M string :=
  match idxmax l with
  | Some k => ret k
  | None => raise (ValueError "attempt to get argmax of an empty sequence")
  end.

(** The arguments of one call: [messages=[{"role": "user", "content":
    prompt}], model=model_id, temperature=0.7]. *)
Definition user_request (model_id : string) (prompt : string) : request :=
  mkRequest [mkMessage "user" prompt] model_id (Q2Qc (7 # 10)).

(** [self.client.chat.completions.create(...)] and then
    [response.choices[0].message.content]; the request is sent whether
    the call succeeds or raises. *)
Definition chat_completion (P : Platform) (model_id : string) (prompt : string)
  : M string :=
  fun s =>
    let req := user_request model_id prompt in
    match client P (sent s) req with
    | Completion text => (Return text, sending s req)
    | Failure e => (Raise e, sending s req)
    end.

(** Running a computation in a proof: unfold the statements. *)
Ltac run_py :=
  unfold bind, ret, raise, self_data, set_self_data, column_Month,
    idxmax_or_raise, emit, print, try_except; simpl.

Definition nl : string := String (ascii_of_nat 10) EmptyString.

(** The lines of a triple-quoted text, joined by newlines. *)
Definition text_block (lines : list string) : string := String.concat nl lines.

(** [df['Profit'] = df['Revenue'] - df['Expenses']], row by row. *)
Definition with_profit (r : CsvRow) : Row :=
  mkRow (csv_Date r) (csv_Product r) (csv_Revenue r) (csv_Expenses r)
        (csv_Customers r) (csv_Revenue r - csv_Expenses r)%Qc.

(** [df['Date'].dt.strftime('%B')] *)
Definition month_labels (rs : list Row) : list string :=
  map (fun r => strftime_B (Date r)) rs.

(** [df.groupby('Product').agg({'Revenue': 'sum', 'Expenses': 'sum',
    'Profit': 'sum', 'Customers': 'sum'}).round(2)]; rounding leaves the
    integer column as it is. *)
Definition product_table (rs : list Row) : list (string * ProductAgg) :=
  map (fun kg =>
         (fst kg,
          mkProductAgg (round_Qc (sum_Qc (map Revenue (snd kg))) 2)
                       (round_Qc (sum_Qc (map Expenses (snd kg))) 2)
                       (round_Qc (sum_Qc (map Profit (snd kg))) 2)
                       (sum_Z (map Customers (snd kg)))))
      (groupby (map Product rs) rs).

(** [table['Revenue']]: a column of a grouped table, with its index. *)
Definition column {T : Type} (f : T -> Qc) (table : list (string * T))
  : list (string * Qc) :=
  map (fun kv => (fst kv, f (snd kv))) table.

(** * The console variant, [orchestrator.py] *)

Module Orchestrator.

(** One row of [monthly_trends]. *)
Record MonthAgg : Type := mkMonthAgg {
  ma_Revenue : Qc;
  ma_Profit : Qc
}.

(** [df.groupby('Month').agg({'Revenue': 'sum', 'Profit': 'sum'}).round(2)] *)
Definition month_table (months : list string) (rs : list Row)
  : list (string * MonthAgg) :=
  map (fun kg =>
         (fst kg,
          mkMonthAgg (round_Qc (sum_Qc (map Revenue (snd kg))) 2)
                     (round_Qc (sum_Qc (map Profit (snd kg))) 2)))
      (groupby months rs).

Definition model_id : string := "llama3-8b-8192".

(** [load_data]; [file] is what [pd.read_csv] makes of
    [company_sales.csv]: the frame it returns, or the exception it
    raises, in which case nothing is assigned to [self.data]. *)
Definition load_data (file : outcome (list CsvRow)) : M unit :=
  try_except
    (match file with
     | Return csv =>
         set_self_data (mkFrame (map with_profit csv) None) ;;;
         print "✅ Sales data loaded successfully"
     | Raise e => raise e
     end)
    (fun e => print ("❌ Error loading data: " ++ str_exn e)).

(** [__init__] *)
Definition init (file : outcome (list CsvRow)) : M unit :=
  (fun s => (Return tt, mkSession None (sent s) (console s))) ;;;
  load_data file.

(** Lines 62 to 97 of [data_analyst_agent]: the calculations, which end
    with the dictionary [analysis_data] and the local [avg_customers]
    that the prompt prints. *)
Definition data_analyst_metrics : M (AnalysisData MonthAgg * float64) :=
  df <- self_data ;;
  let total_revenue := sum_Qc (map Revenue (rows df)) in
  let total_expenses := sum_Qc (map Expenses (rows df)) in
  let total_profit := sum_Qc (map Profit (rows df)) in
  let avg_customers := mean_Z (map Customers (rows df)) in
  let product_performance := product_table (rows df) in
  set_self_data (mkFrame (rows df) (Some (month_labels (rows df)))) ;;;
  df' <- self_data ;;
  months <- column_Month df' ;;
  let monthly_trends := month_table months (rows df') in
  best_month <- idxmax_or_raise (column ma_Revenue monthly_trends) ;;
  best_product <- idxmax_or_raise (column pa_Revenue product_performance) ;;
  ret (mkAnalysis total_revenue total_expenses total_profit
         (round_f64 (fmul_pos (true_divide total_profit total_revenue)
                              (Qc_of_Z 100)) 2)
         (round_f64 avg_customers 0)
         best_month best_product product_performance monthly_trends None,
       avg_customers).

Section Agents.

Variable P : Platform.

Definition analyst_prompt (a : AnalysisData MonthAgg) (avg : float64)
  : string :=
  text_block [
    EmptyString;
    "        As a Data Analyst Agent, analyze this company sales data and provide insights:";
    "        ";
    "        Key Metrics:";
    "        - Total Revenue: $" ++ fmt_thousands P (total_revenue a);
    "        - Total Expenses: $" ++ fmt_thousands P (total_expenses a);
    "        - Total Profit: $" ++ fmt_thousands P (total_profit a);
    "        - Profit Margin: " ++ fmt_float P (profit_margin a) ++ "%";
    "        - Average Customers per Month: " ++ fmt_0f P avg;
    "        ";
    "        Product Performance:";
    "        " ++ table_to_string P (product_performance a);
    "        ";
    "        Best Performing Month: " ++ best_month a;
    "        Best Performing Product: " ++ best_product a;
    "        ";
    "        Provide detailed insights about:";
    "        1. Revenue and profit trends";
    "        2. Product performance comparison";
    "        3. Customer acquisition patterns";
    "        4. Seasonal trends";
    "        5. Areas of concern or opportunity";
    "        ";
    "        Include specific numbers and calculations in your analysis.";
    "        " ].

(** Agent 1.  The text goes into the field [ai_insights] of the
    dictionary that is returned. *)
Definition data_analyst_agent : M (AnalysisData MonthAgg) :=
  locals <- data_analyst_metrics ;;
  let analysis_data := fst locals in
  let prompt := analyst_prompt analysis_data (snd locals) in
  try_except
    (text <- chat_completion P model_id prompt ;;
     ret (set_ai_insights analysis_data text))
    (fun e =>
       ret (set_ai_insights analysis_data
              ("Error generating AI insights: " ++ str_exn e))).

(** [analyst_output['ai_insights']]: a missing key is a [KeyError]. *)
Definition get_ai_insights (a : AnalysisData MonthAgg) : M string :=
  match ai_insights a with
  | Some text => ret text
  | None => raise (KeyError "'ai_insights'")
  end.

Definition summarizer_prompt (a : AnalysisData MonthAgg) (insights : string)
  : string :=
  text_block [
    EmptyString;
    "        As a Summarizer Agent, take this detailed analysis and create 4-5 clear, concise bullet points:";
    "        ";
    "        Analysis Data:";
    "        - Total Revenue: $" ++ fmt_thousands P (total_revenue a);
    "        - Total Profit: $" ++ fmt_thousands P (total_profit a);
    "        - Profit Margin: " ++ fmt_float P (profit_margin a) ++ "%";
    "        - Best Month: " ++ best_month a;
    "        - Best Product: " ++ best_product a;
    "        ";
    "        Detailed Insights:";
    "        " ++ insights;
    "        ";
    "        Create exactly 4-5 bullet points that capture the most important insights.";
    "        Make them simple, clear, and actionable for business decision-making.";
    "        " ].

(** Agent 2. *)
Definition summarizer_agent (analyst_output : AnalysisData MonthAgg)
  : M string :=
  insights <- get_ai_insights analyst_output ;;
  let prompt := summarizer_prompt analyst_output insights in
  try_except
    (chat_completion P model_id prompt)
    (fun e => ret ("Error generating summary: " ++ str_exn e)).

Definition strategy_prompt (summary_output : string) : string :=
  text_block [
    EmptyString;
    "        As a Business Strategy Agent, based on these key insights, recommend practical strategies:";
    "        ";
    "        Key Insights:";
    "        " ++ summary_output;
    "        ";
    "        Provide specific, actionable recommendations for:";
    "        1. Increasing sales revenue";
    "        2. Reducing operational costs";
    "        3. Growing customer base";
    "        4. Improving profit margins";
    "        5. Seasonal optimization";
    "        ";
    "        Make each recommendation practical and implementable with clear next steps.";
    "        " ].

(** Agent 3. *)
Definition business_strategy_agent (summary_output : string) : M string :=
  let prompt := strategy_prompt summary_output in
  try_except
    (chat_completion P model_id prompt)
    (fun e => ret ("Error generating strategy: " ++ str_exn e)).

(** [self.data.head()]: the first five rows. *)
Definition head (df : DataFrame) : DataFrame :=
  mkFrame (firstn 5 (rows df)) (option_map (firstn 5) (Month df)).

(** Agent 4. *)
Definition customer_support_agent (question : string) : M string :=
  df <- self_data ;;
  let data_summary :=
    text_block [
      EmptyString;
      "        Dataset Overview:";
      "        - Time Period: January 2024 - December 2024";
      "        - Products: " ++ String.concat ", " (unique (map Product (rows df)));
      "        - Total Records: " ++ fmt_len P (List.length (rows df));
      "        ";
      "        Sample Data:";
      "        " ++ frame_to_string P (head df);
      "        ";
      "        Key Statistics:";
      "        - Total Revenue: $" ++ fmt_thousands P (sum_Qc (map Revenue (rows df)));
      "        - Total Profit: $" ++ fmt_thousands P (sum_Qc (map Profit (rows df)));
      "        - Average Monthly Customers: " ++ fmt_0f P (mean_Z (map Customers (rows df)));
      "        " ] in
  let prompt :=
    text_block [
      EmptyString;
      "        As a friendly Customer Support Agent, answer this question about our company sales data:";
      "        ";
      "        Question: " ++ question;
      "        ";
      "        Data Context:";
      "        " ++ data_summary;
      "        ";
      "        Full Dataset:";
      "        " ++ frame_to_string P df;
      "        ";
      "        Provide a friendly, accurate, and helpful response. Include specific numbers when relevant.";
      "        If the question can't be answered with the available data, politely explain what information is available.";
      "        " ] in
  try_except
    (chat_completion P model_id prompt)
    (fun e =>
       ret ("I apologize, but I encountered an error processing your question: "
            ++ str_exn e)).

Definition email_prompt (summary_output strategy_output : string) : string :=
  text_block [
    EmptyString;
    "        As an Email Reporter Agent, create a professional email for the company boss summarizing monthly performance:";
    "        ";
    "        Key Insights Summary:";
    "        " ++ summary_output;
    "        ";
    "        Strategic Recommendations:";
    "        " ++ strategy_output;
    "        ";
    "        Create a formal business email with:";
    "        - Professional greeting";
    "        - Executive summary of performance";
    "        - Key insights (3-4 main points)";
    "        - Strategic recommendations (2-3 top priorities)";
    "        - Professional closing";
    "        ";
    "        Date: " ++ today P;
    "        Make it concise but comprehensive, suitable for a busy executive.";
    "        " ].

(** Agent 5. *)
Definition email_reporter_agent (summary_output strategy_output : string)
  : M string :=
  let prompt := email_prompt summary_output strategy_output in
  try_except
    (chat_completion P model_id prompt)
    (fun e => ret ("Error generating email report: " ++ str_exn e)).

(** The dictionary [run_full_analysis] returns. *)
Record results : Type := mkResults {
  analysis : AnalysisData MonthAgg;
  summary : string;
  strategy : string;
  email : string
}.

(** [results['analysis']['ai_insights']], as [display_results] reads it. *)
Definition ai_insights_of (r : results) : option string :=
  ai_insights (analysis r).

Definition run_full_analysis : M results :=
  print (nl ++ "🚀 Starting Multi-Agent Analysis Workflow...") ;;;
  print (nl ++ "📊 Running Data Analyst Agent...") ;;;
  analyst_output <- data_analyst_agent ;;
  print (nl ++ "📝 Running Summarizer Agent...") ;;;
  summary_output <- summarizer_agent analyst_output ;;
  print (nl ++ "💡 Running Business Strategy Agent...") ;;;
  strategy_output <- business_strategy_agent summary_output ;;
  print (nl ++ "📧 Running Email Reporter Agent...") ;;;
  email_output <- email_reporter_agent summary_output strategy_output ;;
  ret (mkResults analyst_output summary_output strategy_output email_output).

Definition customer_support_query (question : string) : M string :=
  print (nl ++ "🎧 Customer Support Agent handling: " ++ question) ;;;
  customer_support_agent question.

End Agents.

(** The session once [data_analyst_agent] has assigned the column
    [Month] to the frame [df]. *)
Definition with_month (s : session) (df : DataFrame) : session :=
  mkSession (Some (mkFrame (rows df) (Some (month_labels (rows df)))))
            (sent s) (console s).

End Orchestrator.

(** * The dashboard variant, [streamlit_app.py] *)

Module StreamlitApp.

(** One row of [monthly_trends]. *)
Record MonthAgg : Type := mkMonthAgg {
  ma_Revenue : Qc;
  ma_Profit : Qc;
  ma_Customers : Z
}.

(** [df.groupby('Month').agg({'Revenue': 'sum', 'Profit': 'sum',
    'Customers': 'sum'}).round(2)] *)
Definition month_table (months : list string) (rs : list Row)
  : list (string * MonthAgg) :=
  map (fun kg =>
         (fst kg,
          mkMonthAgg (round_Qc (sum_Qc (map Revenue (snd kg))) 2)
                     (round_Qc (sum_Qc (map Profit (snd kg))) 2)
                     (sum_Z (map Customers (snd kg)))))
      (groupby months rs).

Definition model_id : string := "llama-3.1-8b-instant".

(** [__init__]: no data is loaded yet. *)
Definition init : M unit :=
  fun s => (Return tt, mkSession None (sent s) (console s)).

(** [load_data]: the [Month] column is derived here, with [Profit];
    [file] is what [pd.read_csv] returns or raises, as in the console
    variant. *)
Definition load_data (file : outcome (list CsvRow)) : M bool :=
  try_except
    (match file with
     | Return csv =>
         let rs := map with_profit csv in
         set_self_data (mkFrame rs (Some (month_labels rs))) ;;;
         ret true
     | Raise e => raise e
     end)
    (fun e => emit (StError ("Error loading data: " ++ str_exn e)) ;;;
              ret false).

(** [get_analysis_data]: [None] when no frame is loaded. *)
Definition get_analysis_data : M (option (AnalysisData MonthAgg)) :=
  fun s =>
    match data s with
    | None => (Return None, s)
    | Some df =>
        (let total_revenue := sum_Qc (map Revenue (rows df)) in
         let total_expenses := sum_Qc (map Expenses (rows df)) in
         let total_profit := sum_Qc (map Profit (rows df)) in
         let avg_customers := mean_Z (map Customers (rows df)) in
         let product_performance := product_table (rows df) in
         months <- column_Month df ;;
         let monthly_trends := month_table months (rows df) in
         best_month <- idxmax_or_raise (column ma_Revenue monthly_trends) ;;
         best_product <-
           idxmax_or_raise (column pa_Revenue product_performance) ;;
         ret (Some
                (mkAnalysis total_revenue total_expenses total_profit
                   (round_f64
                      (fmul_pos (true_divide total_profit total_revenue)
                                (Qc_of_Z 100)) 2)
                   (round_f64 avg_customers 0)
                   best_month best_product product_performance
                   monthly_trends None))) s
    end.

Section Agents.

Variable P : Platform.

(** [f"{analyst_output}"]: the text of the whole dictionary. *)
Variable str_dict : AnalysisData MonthAgg -> string.

Definition analyst_prompt (a : AnalysisData MonthAgg) : string :=
  text_block [
    EmptyString;
    "        As a Data Analyst Agent, analyze this company sales data and provide insights:";
    "        ";
    "        Key Metrics:";
    "        - Total Revenue: $" ++ fmt_thousands P (total_revenue a);
    "        - Total Expenses: $" ++ fmt_thousands P (total_expenses a);
    "        - Total Profit: $" ++ fmt_thousands P (total_profit a);
    "        - Profit Margin: " ++ fmt_float P (profit_margin a) ++ "%";
    "        - Average Customers per Month: " ++ fmt_0f P (avg_customers a);
    "        ";
    "        Product Performance:";
    "        " ++ table_to_string P (product_performance a);
    "        ";
    "        Best Performing Month: " ++ best_month a;
    "        Best Performing Product: " ++ best_product a;
    "        ";
    "        Provide detailed insights about:";
    "        1. Revenue and profit trends";
    "        2. Product performance comparison";
    "        3. Customer acquisition patterns";
    "        4. Seasonal trends";
    "        5. Areas of concern or opportunity";
    "        ";
    "        Include specific numbers and calculations in your analysis.";
    "        " ].

(** Agent 1.  Subscripting [None] (no frame loaded) is a [TypeError]. *)
Definition data_analyst_agent (analysis_data : option (AnalysisData MonthAgg))
  : M (AnalysisData MonthAgg) :=
  match analysis_data with
  | None => raise (TypeError "'NoneType' object is not subscriptable")
  | Some a =>
      let prompt := analyst_prompt a in
      try_except
        (text <- chat_completion P model_id prompt ;;
         ret (set_ai_insights a text))
        (fun e =>
           ret (set_ai_insights a
                  ("Error generating AI insights: " ++ str_exn e)))
  end.

Definition summarizer_prompt
  (analyst_output analysis_data : AnalysisData MonthAgg) : string :=
  text_block [
    EmptyString;
    "        As a Summarizer Agent, take this detailed analysis and create 4-5 clear, concise bullet points:";
    "        ";
    "        Analysis Data:";
    "        - Total Revenue: $" ++ fmt_thousands P (total_revenue analysis_data);
    "        - Total Profit: $" ++ fmt_thousands P (total_profit analysis_data);
    "        - Profit Margin: " ++ fmt_float P (profit_margin analysis_data) ++ "%";
    "        - Best Month: " ++ best_month analysis_data;
    "        - Best Product: " ++ best_product analysis_data;
    "        ";
    "        Detailed Insights:";
    "        " ++ str_dict analyst_output;
    "        ";
    "        Create exactly 4-5 bullet points that capture the most important insights.";
    "        Make them simple, clear, and actionable for business decision-making.";
    "        " ].

(** Agent 2. *)
Definition summarizer_agent
  (analyst_output analysis_data : AnalysisData MonthAgg) : M string :=
  let prompt := summarizer_prompt analyst_output analysis_data in
  try_except
    (chat_completion P model_id prompt)
    (fun e => ret ("Error generating summary: " ++ str_exn e)).

Definition strategy_prompt (summary_output : string) : string :=
  text_block [
    EmptyString;
    "        As a Business Strategy Agent, based on these key insights, recommend practical strategies:";
    "        ";
    "        Key Insights:";
    "        " ++ summary_output;
    "        ";
    "        Provide specific, actionable recommendations for:";
    "        1. Increasing sales revenue";
    "        2. Reducing operational costs";
    "        3. Growing customer base";
    "        4. Improving profit margins";
    "        5. Seasonal optimization";
    "        ";
    "        Make each recommendation practical and implementable with clear next steps.";
    "        " ].

(** Agent 3. *)
Definition business_strategy_agent (summary_output : string) : M string :=
  let prompt := strategy_prompt summary_output in
  try_except
    (chat_completion P model_id prompt)
    (fun e => ret ("Error generating strategy: " ++ str_exn e)).

(** Agent 4. *)
Definition customer_support_agent (question : string) : M string :=
  df <- self_data ;;
  let data_summary :=
    text_block [
      EmptyString;
      "        Dataset Overview:";
      "        - Time Period: January 2024 - December 2024";
      "        - Products: " ++ String.concat ", " (unique (map Product (rows df)));
      "        - Total Records: " ++ fmt_len P (List.length (rows df));
      "        ";
      "        Key Statistics:";
      "        - Total Revenue: $" ++ fmt_thousands P (sum_Qc (map Revenue (rows df)));
      "        - Total Profit: $" ++ fmt_thousands P (sum_Qc (map Profit (rows df)));
      "        - Average Monthly Customers: " ++ fmt_0f P (mean_Z (map Customers (rows df)));
      "        ";
      "        Full Dataset:";
      "        " ++ frame_to_string P df;
      "        " ] in
  let prompt :=
    text_block [
      EmptyString;
      "        As a friendly Customer Support Agent, answer this question about our company sales data:";
      "        ";
      "        Question: " ++ question;
      "        ";
      "        Data Context:";
      "        " ++ data_summary;
      "        ";
      "        Provide a friendly, accurate, and helpful response. Include specific numbers when relevant.";
      "        " ] in
  try_except
    (chat_completion P model_id prompt)
    (fun e => ret ("Error processing question: " ++ str_exn e)).

Definition email_prompt (summary_output strategy_output : string) : string :=
  text_block [
    EmptyString;
    "        Create a professional email for the company boss summarizing monthly performance:";
    "        ";
    "        Key Insights Summary:";
    "        " ++ summary_output;
    "        ";
    "        Strategic Recommendations:";
    "        " ++ strategy_output;
    "        ";
    "        Create a formal business email with:";
    "        - Professional greeting to the boss";
    "        - Executive summary of performance";
    "        - Key insights (3-4 main points)";
    "        - Strategic recommendations (2-3 top priorities)";
    "        - Professional closing";
    "        ";
    "        Date: " ++ today P;
    "        Make it concise but comprehensive, suitable for a busy executive.";
    "        " ].

(** Agent 5. *)
Definition email_reporter_agent (summary_output strategy_output : string)
  : M string :=
  let prompt := email_prompt summary_output strategy_output in
  try_except
    (chat_completion P model_id prompt)
    (fun e => ret ("Error generating email: " ++ str_exn e)).

(** What the page holds when the four agents have run. *)
Record results : Type := mkResults {
  analysis : AnalysisData MonthAgg;
  summary : string;
  strategy : string;
  email : string
}.

(** The text the analyst stored in its dictionary. *)
Definition ai_insights_of (r : results) : option string :=
  ai_insights (analysis r).

(** [main], page "Full AI Analysis", from the click on the button to
    the message of success.  [data_analyst_agent] stores the text in the
    dictionary it is given and returns that same dictionary, so the two
    arguments of [summarizer_agent] are one object, the dictionary with
    the text. *)
Definition full_analysis : M results :=
  analysis_data <- get_analysis_data ;;
  emit (StProgress 0) ;;;
  emit (StStatus "📊 Data Analyst Agent working...") ;;;
  emit (StProgress 20) ;;;
  analyst_output <- data_analyst_agent analysis_data ;;
  emit (StStatus "📝 Summarizer Agent working...") ;;;
  emit (StProgress 40) ;;;
  summary_output <- summarizer_agent analyst_output analyst_output ;;
  emit (StStatus "💡 Business Strategy Agent working...") ;;;
  emit (StProgress 60) ;;;
  strategy_output <- business_strategy_agent summary_output ;;
  emit (StStatus "📧 Email Reporter Agent working...") ;;;
  emit (StProgress 80) ;;;
  email_output <- email_reporter_agent summary_output strategy_output ;;
  emit (StProgress 100) ;;;
  emit (StStatus "✅ Analysis Complete!") ;;;
  emit (StSuccess "🎉 Multi-Agent Analysis Complete!") ;;;
  ret (mkResults analyst_output summary_output strategy_output email_output).

End Agents.

End StreamlitApp.

(** * The console variant, continued: [display_results] and [main] *)

Module OrchestratorMain.

(** [text * n] *)
Fixpoint repeat_string (text : string) (n : nat) : string :=
  match n with
  | O => EmptyString
  | S n' => text ++ repeat_string text n'
  end.

(** [user_input.startswith(prefix)] *)
Definition startswith (prefix text : string) : bool :=
  String.prefix prefix text.

(** [text[n:]] *)
Definition slice_from (n : nat) (text : string) : string :=
  substring n (String.length text - n) text.

(** How [main] ends when it returns: the loop was left through [break],
    or an exception was caught and printed. *)
Inductive ending : Type := Exited.

Section Console.

Variable P : Platform.

(** [line.strip().lower()], the methods of Python's [str]. *)
Variable strip_lower : string -> string.

Definition display_results (r : Orchestrator.results) : M unit :=
  print (nl ++ repeat_string "=" 80) ;;;
  print "📊 MULTI-AGENT ANALYSIS RESULTS" ;;;
  print (repeat_string "=" 80) ;;;
  print (nl ++ "📈 DATA ANALYSIS INSIGHTS:") ;;;
  print (repeat_string "-" 50) ;;;
  match ai_insights (Orchestrator.analysis r) with
  | Some text => print text
  | None => ret tt
  end ;;;
  print (nl ++ "💰 Key Metrics:") ;;;
  print ("• Total Revenue: $"
         ++ fmt_thousands P (total_revenue (Orchestrator.analysis r))) ;;;
  print ("• Total Profit: $"
         ++ fmt_thousands P (total_profit (Orchestrator.analysis r))) ;;;
  print ("• Profit Margin: "
         ++ fmt_float P (profit_margin (Orchestrator.analysis r)) ++ "%") ;;;
  print ("• Best Month: " ++ best_month (Orchestrator.analysis r)) ;;;
  print ("• Best Product: " ++ best_product (Orchestrator.analysis r)) ;;;
  print (nl ++ "📝 EXECUTIVE SUMMARY:") ;;;
  print (repeat_string "-" 50) ;;;
  print (Orchestrator.summary r) ;;;
  print (nl ++ "💡 BUSINESS STRATEGY RECOMMENDATIONS:") ;;;
  print (repeat_string "-" 50) ;;;
  print (Orchestrator.strategy r) ;;;
  print (nl ++ "📧 EMAIL REPORT:") ;;;
  print (repeat_string "-" 50) ;;;
  print (Orchestrator.email r).

(** The [while True] of [main], run on the lines of the standard input.
    [input] writes its prompt, then takes the next line; when no line is
    left it raises [EOFError]. *)
Fixpoint command_loop (inputs : list string) : M ending :=
  print (nl ++ "💬 Enter command: ") ;;;
  match inputs with
  | [] => raise (EOFError "EOF when reading a line")
  | line :: rest =>
      let user_input := strip_lower line in
      if String.eqb user_input "quit" then
        print "👋 Goodbye!" ;;;
        ret Exited
      else if String.eqb user_input "analyze" then
        results <- Orchestrator.run_full_analysis P ;;
        display_results results ;;;
        command_loop rest
      else if startswith "ask " user_input then
        let question := slice_from 4 user_input in
        answer <- Orchestrator.customer_support_query P question ;;
        print (nl ++ "🎧 Customer Support Response:") ;;;
        print (repeat_string "-" 50) ;;;
        print answer ;;;
        command_loop rest
      else
        print "❌ Invalid command. Use 'analyze', 'ask [question]', or 'quit'" ;;;
        command_loop rest
  end.

(** [main]: an exception that leaves the loop is caught here, and the
    program ends. *)
Definition main (file : outcome (list CsvRow)) (inputs : list string)
  : M ending :=
  try_except
    (Orchestrator.init file ;;;
     print "🤖 Multi-Agent AI System Initialized" ;;;
     print "Available commands:" ;;;
     print "1. 'analyze' - Run full analysis workflow" ;;;
     print "2. 'ask [question]' - Customer support query" ;;;
     print "3. 'quit' - Exit system" ;;;
     command_loop inputs)
    (fun e => print ("❌ System Error: " ++ str_exn e) ;;; ret Exited).

End Console.

End OrchestratorMain.

(** * The script [test_groq_models.py] *)

Module TestGroqModels.









End TestGroqModels.

(** * Data for the examples *)

(** A session in which nothing has happened yet. *)
Definition fresh : session := mkSession None [] [].

(** Two records: a phone sale in January, a laptop sale in February. *)
Definition phone_laptop : list CsvRow :=
  [ mkCsv (mkDate 2024 Jan 1) "Phone" (Qc_of_Z 1000) (Qc_of_Z 400) 10;
    mkCsv (mkDate 2024 Feb 1) "Laptop" (Qc_of_Z 2000) (Qc_of_Z 500) 5 ].

(** Two records with the same revenue: the phone comes first. *)
Definition phone_laptop_tie : list CsvRow :=
  [ mkCsv (mkDate 2024 Jan 1) "Phone" (Qc_of_Z 1000) (Qc_of_Z 400) 10;
    mkCsv (mkDate 2024 Feb 1) "Laptop" (Qc_of_Z 1000) (Qc_of_Z 500) 5 ].

(** One record without revenue. *)
Definition no_revenue : list CsvRow :=
  [ mkCsv (mkDate 2024 Jan 1) "Phone" (Qc_of_Z 0) (Qc_of_Z 400) 10 ].

(** One record with a revenue of 160 and expenses of 137. *)
Definition sale_160_137 : list CsvRow :=
  [ mkCsv (mkDate 2024 Jan 1) "Phone" (Qc_of_Z 160) (Qc_of_Z 137) 10 ].

(** Two records whose revenues differ by less than half a hundredth:
    257/256 for the phone in January, 513/512 for the laptop in
    February. *)
Definition close_sums : list CsvRow :=
  [ mkCsv (mkDate 2024 Jan 1) "Phone" (Q2Qc (257 # 256)) (Q2Qc (1 # 2)) 10;
    mkCsv (mkDate 2024 Feb 1) "Laptop" (Q2Qc (513 # 512)) (Q2Qc (1 # 2)) 5 ].

(** * Notions used in the statements *)

(** What a caller gets from an agent that sent [req] after [history]:
    the generated text, or the agent's message about the error. *)
Definition soft_text (P : Platform) (history : list request) (req : request)
           (prefix : string) : string :=
  match client P history req with
  | Completion text => text
  | Failure e => prefix ++ str_exn e
  end.

(** The four stages of the pipeline. *)
Inductive stage : Type := Analyst | Summarizer | Strategist | Emailer.

(** The stage that a line of the console or a status of the dashboard
    announces. *)
Definition announced (ev : event) : option stage :=
  match ev with
  | Printed line =>
      if String.eqb line (nl ++ "📊 Running Data Analyst Agent...")
      then Some Analyst
      else if String.eqb line (nl ++ "📝 Running Summarizer Agent...")
      then Some Summarizer
      else if String.eqb line (nl ++ "💡 Running Business Strategy Agent...")
      then Some Strategist
      else if String.eqb line (nl ++ "📧 Running Email Reporter Agent...")
      then Some Emailer
      else None
  | StStatus text =>
      if String.eqb text "📊 Data Analyst Agent working..."
      then Some Analyst
      else if String.eqb text "📝 Summarizer Agent working..."
      then Some Summarizer
      else if String.eqb text "💡 Business Strategy Agent working..."
      then Some Strategist
      else if String.eqb text "📧 Email Reporter Agent working..."
      then Some Emailer
      else None
  | _ => None
  end.

(** The stages announced by a log, in order. *)
Definition stages_visited (log : list event) : list stage :=
  flat_map (fun ev => match announced ev with
                      | Some st => [st]
                      | None => []
                      end) log.

(** A dictionary that holds nothing but the text of the analyst. *)
Definition only_insights {MT : Type} (text : string) : AnalysisData MT :=
  mkAnalysis 0%Qc 0%Qc 0%Qc NaN NaN EmptyString EmptyString [] [] (Some text).

(** A backend that is down: every call raises. *)
Definition backend_down : Platform :=
  mkPlatform (fun _ _ => Failure (APIError "Connection error."))
             "November 03, 2026"
             (fun _ => EmptyString) (fun _ => EmptyString) (fun _ => EmptyString) (fun _ => EmptyString)
             (fun _ => EmptyString) (fun _ => EmptyString).

(** A session with the two records loaded, as each variant loads them. *)
Definition cli_loaded : session :=
  mkSession (Some (mkFrame (map with_profit phone_laptop) None)) [] [].

Definition dash_loaded : session :=
  mkSession (Some (mkFrame (map with_profit phone_laptop)
                           (Some (month_labels (map with_profit phone_laptop)))))
            [] [].

(** The value a column holds for a key ([0] when the key is absent). *)
Definition value_at (k : string) (col : list (string * Qc)) : Qc :=
  match find (fun kv => String.eqb (fst kv) k) col with
  | Some kv => snd kv
  | None => 0%Qc
  end.

(** The tie-break by first appearance: the maximum is looked for with
    the keys taken in the order in which the data set first shows them. *)
Definition first_seen_argmax (by_ : list string) (col : list (string * Qc))
  : option string :=
  idxmax (map (fun k => (k, value_at k col)) (unique by_)).

(** [best] holds the maximum of the column, and among the keys that hold
    it [best] is the least in the order of strings. *)
Definition least_argmax (col : list (string * Qc)) (best : string) : Prop :=
  exists vbest,
    In (best, vbest) col /\
    forall k v, In (k, v) col ->
                (v <= vbest)%Qc /\ (v = vbest -> k = best \/ str_lt best k).

(** The requests that the lines typed are due to send: four for every
    [analyze] and one for every [ask], up to the first [quit]. *)
Fixpoint requests_due (strip_lower : string -> string) (inputs : list string)
  : nat :=
  match inputs with
  | [] => 0
  | line :: rest =>
      if String.eqb (strip_lower line) "quit" then 0
      else if String.eqb (strip_lower line) "analyze"
      then 4 + requests_due strip_lower rest
      else if OrchestratorMain.startswith "ask " (strip_lower line)
      then 1 + requests_due strip_lower rest
      else requests_due strip_lower rest
  end.

(** [text] holds [part] somewhere inside. *)
Definition contains (text part : string) : Prop :=
  exists before after, text = before ++ part ++ after.

(** A number with at most two decimals. *)
Definition two_decimals (q : Qc) : Prop :=
  exists z : Z, q = (Qc_of_Z z / pow10 2)%Qc.

(** A computation that leaves the loaded frame as it found it, whether
    it returns or raises. *)
Definition keeps_frame {A : Type} (m : M A) : Prop :=
  forall s, data (snd (m s)) = data s.


(** No cell of a column of texts is missing.  [read_csv] gives NaN for
    an empty cell, where the rows of this development hold a text: the
    empty text stands for the missing cell. *)
Definition present (labels : list string) : Prop :=
  Forall (fun label => label <> EmptyString) labels.

(** A multiple of [1 / 2 ** bits]. *)
Definition on_grid (bits : Z) (q : Qc) : bool :=
  (2 ^ bits) mod Zpos (Qden (this q)) =? 0.

(** The absolute values of the revenues and of the expenses, added up. *)
Definition magnitude (csv : list CsvRow) : Qc :=
  sum_Qc (map (fun r => (Qc_abs (csv_Revenue r) + Qc_abs (csv_Expenses r))%Qc)
              csv).

(** Amounts on a grid of [1 / 2 ** bits] whose absolute values add up to
    less than [2 ** 36]: every sum of such amounts, in any order, is a
    binary64 number and an [int64] number when the amounts are whole,
    so that pandas adds them without rounding and without overflow, and
    [100] times a sum is a binary64 number too. *)
Definition amounts_on_grid (bits : Z) (csv : list CsvRow) : Prop :=
  forallb (fun r => on_grid bits (csv_Revenue r)
                    && on_grid bits (csv_Expenses r))%bool csv = true /\
  Qc_ltb (magnitude csv) (pow2 36) = true.

(** Amounts that are multiples of 1/1024. *)
Definition exact_amounts (csv : list CsvRow) : Prop := amounts_on_grid 10 csv.

(** Amounts that are whole numbers. *)
Definition whole_amounts (csv : list CsvRow) : Prop := amounts_on_grid 0 csv.

(** Numbers of customers that add up, in absolute value, to less than
    [2 ** 53]: their sums are exact in [int64] and in binary64. *)
Definition exact_counts (csv : list CsvRow) : Prop :=
  sum_Z (map (fun r => Z.abs (csv_Customers r)) csv) < 2 ^ 53.

(** The name of the month of a record. *)
Definition month_of (r : CsvRow) : string := strftime_B (csv_Date r).

(** The revenue of a key: the sum of the revenue of the records that
    bear it, rounded to two decimals. *)
Definition revenue_of (key : CsvRow -> string) (k : string)
           (csv : list CsvRow) : Qc :=
  round_Qc
    (sum_Qc (map csv_Revenue (filter (fun r => String.eqb (key r) k) csv))) 2.

(** [best] is a key of the records, no key has a greater revenue, and
    among the keys of that revenue [best] is the least in the order of
    strings. *)
Definition best_key (key : CsvRow -> string) (csv : list CsvRow)
           (best : string) : Prop :=
  In best (map key csv) /\
  forall k, In k (map key csv) ->
            (revenue_of key k csv <= revenue_of key best csv)%Qc /\
            (revenue_of key k csv = revenue_of key best csv ->
             k = best \/ str_lt best k).

(** * Properties *)

(** ** Keys: first appearance and ascending order *)

Lemma str_ltb_true (a b : string) : str_ltb a b = true <-> str_lt a b.
Proof.
  unfold str_ltb, str_lt, String_as_OT.lt.
  destruct (String_as_OT.compare a b); split; congruence.
Qed.

Lemma str_ltb_false (a b : string) :
  str_ltb a b = false -> a = b \/ str_lt b a.
Proof.
  unfold str_ltb, str_lt.
  destruct (String_as_OT.compare_spec a b) as [Heq | Hlt | Hgt];
    intros H; try discriminate; auto.
Qed.

Lemma str_lt_irrefl (a : string) : ~ str_lt a a.
Proof. apply (StrictOrder_Irreflexive (R := String_as_OT.lt)). Qed.

Lemma str_lt_trans (a b c : string) : str_lt a b -> str_lt b c -> str_lt a c.
Proof. apply (StrictOrder_Transitive (R := String_as_OT.lt)). Qed.

Lemma in_unique (l : list string) (k : string) : In k (unique l) <-> In k l.
Proof.
  induction l as [| h t IH]; simpl; [tauto |].
  rewrite filter_In, IH.
  destruct (String.eqb_spec k h) as [-> | Hne]; simpl; split; intros H.
  - now left.
  - now left.
  - destruct H as [H | [H _]]; [now left | now right].
  - destruct H as [H | H]; [now left | right; split; auto].
Qed.

Lemma NoDup_filter {A : Type} (f : A -> bool) (l : list A) :
  NoDup l -> NoDup (filter f l).
Proof.
  induction 1 as [| x l Hx Hl IH]; simpl; [constructor |].
  destruct (f x); auto.
  constructor; auto.
  rewrite filter_In; tauto.
Qed.

Lemma NoDup_unique (l : list string) : NoDup (unique l).
Proof.
  induction l as [| h t IH]; simpl; constructor.
  - rewrite filter_In, String.eqb_refl; simpl.
    intros [_ H]; discriminate.
  - now apply NoDup_filter.
Qed.

Lemma in_insert_sorted (k x : string) (l : list string) :
  In x (insert_sorted k l) <-> x = k \/ In x l.
Proof.
  induction l as [| h t IH]; simpl.
  - split; intros [H | H]; auto; contradiction.
  - destruct (str_ltb h k); simpl; rewrite ?IH; intuition congruence.
Qed.

Lemma in_sort_keys (l : list string) (x : string) :
  In x (sort_keys l) <-> In x l.
Proof.
  induction l as [| h t IH]; simpl; [tauto |].
  rewrite in_insert_sorted, IH; intuition congruence.
Qed.

Lemma insert_sorted_strictly (k : string) (l : list string) :
  StronglySorted str_lt l -> ~ In k l ->
  StronglySorted str_lt (insert_sorted k l).
Proof.
  induction 1 as [| h t Hsorted IH Hall]; intros Hnotin; simpl.
  - repeat constructor.
  - destruct (str_ltb h k) eqn:Hcmp.
    + constructor.
      * apply IH. intros Hin. apply Hnotin. now right.
      * apply Forall_forall. intros x Hx.
        apply in_insert_sorted in Hx as [-> | Hx].
        -- now apply str_ltb_true.
        -- rewrite Forall_forall in Hall. now apply Hall.
    + assert (Hkh : str_lt k h).
      { apply str_ltb_false in Hcmp as [-> | Hlt]; auto.
        exfalso. apply Hnotin. now left. }
      constructor.
      * now constructor.
      * constructor; auto.
        rewrite Forall_forall in Hall |- *.
        intros x Hx. eapply str_lt_trans; eauto.
  Qed.

Lemma sort_keys_strictly (l : list string) :
  NoDup l -> StronglySorted str_lt (sort_keys l).
Proof.
  induction 1 as [| h t Hnotin Hnodup IH]; simpl.
  - constructor.
  - apply insert_sorted_strictly; auto.
    now rewrite in_sort_keys.
Qed.

Lemma sort_keys_nonempty (l : list string) : l <> [] -> sort_keys l <> [].
Proof.
  destruct l as [| h t]; [congruence |]. intros _ Hnil.
  assert (Hin : In h (sort_keys (h :: t))) by (apply in_sort_keys; now left).
  rewrite Hnil in Hin. contradiction.
Qed.

Lemma groupby_keys {A : Type} (by_ : list string) (rs : list A) :
  map fst (groupby by_ rs) = sort_keys (unique by_).
Proof.
  unfold groupby. rewrite map_map. simpl. apply map_id.
Qed.

Lemma groupby_nonempty {A : Type} (by_ : list string) (rs : list A) :
  by_ <> [] -> groupby by_ rs <> [].
Proof.
  intros Hby Hnil.
  assert (Hkeys : sort_keys (unique by_) = [])
    by (rewrite <- (groupby_keys by_ rs), Hnil; reflexivity).
  destruct by_ as [| h t]; [congruence |].
  revert Hkeys. apply sort_keys_nonempty. simpl. discriminate.
Qed.

(** The keys of a grouped table, whatever is aggregated. *)
Lemma product_table_keys (rs : list Row) :
  map fst (product_table rs) = sort_keys (unique (map Product rs)).
Proof.
  unfold product_table. rewrite map_map. simpl. apply groupby_keys.
Qed.

Lemma column_keys {T : Type} (f : T -> Qc) (table : list (string * T)) :
  map fst (column f table) = map fst table.
Proof. unfold column. rewrite map_map. reflexivity. Qed.

(** ** The maximum and where it is found *)

Lemma Qc_ltb_true (x y : Qc) : Qc_ltb x y = true -> (x < y)%Qc.
Proof.
  unfold Qc_ltb. intros H. apply (proj2 (Qclt_alt x y)).
  destruct (x ?= y)%Qc; congruence.
Qed.

Lemma Qc_ltb_false (x y : Qc) : Qc_ltb x y = false -> (y <= x)%Qc.
Proof.
  unfold Qc_ltb. intros H. apply Qcnot_lt_le. intros Hlt.
  pose proof (proj1 (Qclt_alt x y) Hlt) as Hcmp.
  rewrite Hcmp in H. discriminate.
Qed.

Lemma Qc_eqb_true (x y : Qc) : Qc_eqb x y = true -> x = y.
Proof. apply Qc_eq_bool_correct. Qed.

Lemma Qc_eqb_false (x y : Qc) : Qc_eqb x y = false -> x <> y.
Proof.
  unfold Qc_eqb, Qc_eq_bool. destruct (Qc_eq_dec x y); congruence.
Qed.

Lemma Qc_eqb_refl (x : Qc) : Qc_eqb x x = true.
Proof.
  unfold Qc_eqb, Qc_eq_bool. destruct (Qc_eq_dec x x); congruence.
Qed.

(** The scan of [idxmax_from]: [before] was passed over before the
    running best was met, [since] after it. *)
Lemma idxmax_from_scan (l before since : list (string * Qc))
      (best : string * Qc) :
  Forall (fun kv => (snd kv < snd best)%Qc) before ->
  Forall (fun kv => (snd kv <= snd best)%Qc) since ->
  exists l1 v l2,
    (before ++ best :: since ++ l = l1 ++ (idxmax_from best l, v) :: l2)%list /\
    Forall (fun kv => (snd kv < v)%Qc) l1 /\
    Forall (fun kv => (snd kv <= v)%Qc) l2.
Proof.
  revert before since best.
  induction l as [| kv t IH]; intros before since best Hbefore Hsince; simpl.
  - exists before, (snd best), since.
    rewrite app_nil_r. destruct best; auto.
  - destruct (Qc_ltb (snd best) (snd kv)) eqn:Hcmp.
    + apply Qc_ltb_true in Hcmp.
      destruct (IH (before ++ best :: since)%list [] kv) as (l1 & v & l2 & E & H1 & H2).
      * apply Forall_app; split; [| constructor; auto].
        -- eapply Forall_impl; [| exact Hbefore].
           intros a Ha. exact (Qclt_trans _ _ _ Ha Hcmp).
        -- eapply Forall_impl; [| exact Hsince].
           intros a Ha. exact (Qcle_lt_trans _ _ _ Ha Hcmp).
      * constructor.
      * exists l1, v, l2. split; auto.
        rewrite <- E. simpl. now rewrite <- app_assoc.
    + apply Qc_ltb_false in Hcmp.
      destruct (IH before (since ++ [kv])%list best) as (l1 & v & l2 & E & H1 & H2);
        auto.
      * apply Forall_app; split; auto.
      * exists l1, v, l2. split; auto.
        rewrite <- E. now rewrite <- app_assoc.
Qed.

(** [idxmax] of a series that is not empty: the label of a row holding
    the maximum, every row before it holding less. *)
Lemma idxmax_first_max (l : list (string * Qc)) :
  l <> [] ->
  exists k l1 v l2,
    idxmax l = Some k /\
    l = (l1 ++ (k, v) :: l2)%list /\
    Forall (fun kv => (snd kv < v)%Qc) l1 /\
    Forall (fun kv => (snd kv <= v)%Qc) l2.
Proof.
  destruct l as [| kv t]; [congruence |]. intros _.
  destruct (idxmax_from_scan t [] [] kv) as (l1 & v & l2 & E & H1 & H2);
    try constructor.
  exists (idxmax_from kv t), l1, v, l2. simpl in E. auto.
Qed.

Lemma idxmax_empty : idxmax [] = None.
Proof. reflexivity. Qed.

Lemma idxmax_some (l : list (string * Qc)) :
  l <> [] -> exists k, idxmax l = Some k.
Proof.
  destruct l as [| kv t]; [congruence |]. intros _. simpl. eauto.
Qed.

Lemma map_nonempty {A B : Type} (f : A -> B) (l : list A) :
  l <> [] -> map f l <> [].
Proof. destruct l; simpl; congruence. Qed.

Lemma product_table_nonempty (rs : list Row) :
  rs <> [] -> column pa_Revenue (product_table rs) <> [].
Proof.
  intros H. unfold column, product_table.
  do 2 apply map_nonempty. apply groupby_nonempty. now apply map_nonempty.
Qed.

(** ** What the calculations return *)

Module OrchestratorFacts.
Import Orchestrator.

Lemma cli_month_table_nonempty (rs : list Row) :
  rs <> [] -> column ma_Revenue (month_table (month_labels rs) rs) <> [].
Proof.
  intros H. unfold column, month_table.
  do 2 apply map_nonempty. apply groupby_nonempty.
  unfold month_labels. now apply map_nonempty.
Qed.

Lemma cli_month_table_keys (months : list string) (rs : list Row) :
  map fst (month_table months rs) = sort_keys (unique months).
Proof.
  unfold month_table. rewrite map_map. simpl. apply groupby_keys.
Qed.

(** On a frame with a row the calculations return, and every entry of
    the dictionary is what its line of the source computes. *)
Lemma metrics_loaded (s : session) (df : DataFrame) :
  data s = Some df -> rows df <> [] ->
  exists a,
    data_analyst_metrics s
    = (Return (a, mean_Z (map Customers (rows df))), with_month s df) /\
    total_revenue a = sum_Qc (map Revenue (rows df)) /\
    total_expenses a = sum_Qc (map Expenses (rows df)) /\
    total_profit a = sum_Qc (map Profit (rows df)) /\
    profit_margin a
    = round_f64 (fmul_pos (true_divide (sum_Qc (map Profit (rows df)))
                                       (sum_Qc (map Revenue (rows df))))
                          (Qc_of_Z 100)) 2 /\
    avg_customers a = round_f64 (mean_Z (map Customers (rows df))) 0 /\
    product_performance a = product_table (rows df) /\
    monthly_trends a = month_table (month_labels (rows df)) (rows df) /\
    idxmax (column ma_Revenue (monthly_trends a)) = Some (best_month a) /\
    idxmax (column pa_Revenue (product_performance a))
    = Some (best_product a) /\
    ai_insights a = None.
Proof.
  intros Hdata Hrows.
  destruct (idxmax_some _ (cli_month_table_nonempty _ Hrows)) as [bm Hbm].
  destruct (idxmax_some _ (product_table_nonempty _ Hrows)) as [bp Hbp].
  unfold data_analyst_metrics. run_py.
  rewrite Hdata. simpl. rewrite Hbm, Hbp. simpl.
  eexists. split; [reflexivity |]. simpl. repeat split; auto.
Qed.

(** On a frame without rows the calculations end in the [ValueError] of
    the first [idxmax], with the [Month] column already assigned. *)
Lemma metrics_empty (s : session) (df : DataFrame) :
  data s = Some df -> rows df = [] ->
  data_analyst_metrics s
  = (Raise (ValueError "attempt to get argmax of an empty sequence"),
     with_month s df).
Proof.
  intros Hdata Hrows. unfold data_analyst_metrics, with_month. run_py.
  rewrite Hdata. simpl. rewrite Hrows. reflexivity.
Qed.

Lemma metrics_unloaded (s : session) :
  data s = None ->
  data_analyst_metrics s
  = (Raise (TypeError "'NoneType' object is not subscriptable"), s).
Proof.
  intros Hdata. unfold data_analyst_metrics. run_py. now rewrite Hdata.
Qed.

End OrchestratorFacts.

Module StreamlitFacts.
Import StreamlitApp.

Lemma dash_month_table_nonempty (rs : list Row) :
  rs <> [] -> column ma_Revenue (month_table (month_labels rs) rs) <> [].
Proof.
  intros H. unfold column, month_table.
  do 2 apply map_nonempty. apply groupby_nonempty.
  unfold month_labels. now apply map_nonempty.
Qed.

Lemma dash_month_table_keys (months : list string) (rs : list Row) :
  map fst (month_table months rs) = sort_keys (unique months).
Proof.
  unfold month_table. rewrite map_map. simpl. apply groupby_keys.
Qed.

(** On a loaded frame with a row [get_analysis_data] returns a
    dictionary, leaves the session as it was, and every entry is what
    its line of the source computes. *)
Lemma analysis_loaded (s : session) (df : DataFrame) :
  data s = Some df -> rows df <> [] ->
  Month df = Some (month_labels (rows df)) ->
  exists a,
    get_analysis_data s = (Return (Some a), s) /\
    total_revenue a = sum_Qc (map Revenue (rows df)) /\
    total_expenses a = sum_Qc (map Expenses (rows df)) /\
    total_profit a = sum_Qc (map Profit (rows df)) /\
    profit_margin a
    = round_f64 (fmul_pos (true_divide (sum_Qc (map Profit (rows df)))
                                       (sum_Qc (map Revenue (rows df))))
                          (Qc_of_Z 100)) 2 /\
    avg_customers a = round_f64 (mean_Z (map Customers (rows df))) 0 /\
    product_performance a = product_table (rows df) /\
    monthly_trends a = month_table (month_labels (rows df)) (rows df) /\
    idxmax (column ma_Revenue (monthly_trends a)) = Some (best_month a) /\
    idxmax (column pa_Revenue (product_performance a))
    = Some (best_product a) /\
    ai_insights a = None.
Proof.
  intros Hdata Hrows Hmonth.
  destruct (idxmax_some _ (dash_month_table_nonempty _ Hrows)) as [bm Hbm].
  destruct (idxmax_some _ (product_table_nonempty _ Hrows)) as [bp Hbp].
  unfold get_analysis_data. rewrite Hdata. run_py.
  rewrite Hmonth. simpl. rewrite Hbm, Hbp. simpl.
  eexists. split; [reflexivity |]. simpl. repeat split; auto.
Qed.

Lemma analysis_empty (s : session) (df : DataFrame) :
  data s = Some df -> rows df = [] -> Month df = Some [] ->
  get_analysis_data s
  = (Raise (ValueError "attempt to get argmax of an empty sequence"), s).
Proof.
  intros Hdata Hrows Hmonth. unfold get_analysis_data.
  rewrite Hdata. run_py. rewrite Hmonth, Hrows. reflexivity.
Qed.

(** [get_analysis_data] never touches the session. *)
Lemma get_analysis_data_frame (s : session) :
  snd (get_analysis_data s) = s.
Proof.
  unfold get_analysis_data. destruct (data s) as [df |]; [| reflexivity].
  run_py. destruct (Month df) as [months |]; simpl; [| reflexivity].
  destruct (idxmax _); simpl; [| reflexivity].
  destruct (idxmax _); reflexivity.
Qed.

End StreamlitFacts.

(** ** Totals *)

Lemma sum_profit (csv : list CsvRow) :
  sum_Qc (map Profit (map with_profit csv))
  = (sum_Qc (map Revenue (map with_profit csv))
     - sum_Qc (map Expenses (map with_profit csv)))%Qc.
Proof.
  induction csv as [| r t IH]; simpl.
  - ring.
  - rewrite IH. ring.
Qed.

Lemma profit_at_load (csv : list CsvRow) :
  Forall (fun r => Profit r = (Revenue r - Expenses r)%Qc)
         (map with_profit csv).
Proof.
  apply Forall_forall. intros r Hr.
  apply in_map_iff in Hr as (c & <- & _). reflexivity.
Qed.

Lemma cli_load_ok (csv : list CsvRow) (s : session) :
  Orchestrator.load_data (Return csv) s
  = (Return tt,
     mkSession (Some (mkFrame (map with_profit csv) None)) (sent s)
               (console s ++ [Printed "✅ Sales data loaded successfully"])).
Proof. reflexivity. Qed.

Lemma dash_load_ok (csv : list CsvRow) (s : session) :
  StreamlitApp.load_data (Return csv) s
  = (Return true,
     mkSession (Some (mkFrame (map with_profit csv)
                              (Some (month_labels (map with_profit csv)))))
               (sent s) (console s)).
Proof. reflexivity. Qed.

(** C3.  For every data set with a record, loaded by [load_data] (which
    derives the profit of each record as revenue minus expenses), the
    total profit of the aggregate summary is its total revenue minus its
    total expenses; this holds for the console variant and for the
    dashboard variant. *)
Theorem total_profit_is_revenue_minus_expenses
        (csv : list CsvRow) (s : session) :
  csv <> [] ->
  (exists a avg s' df,
      (Orchestrator.load_data (Return csv) ;;;
       Orchestrator.data_analyst_metrics) s = (Return (a, avg), s') /\
      data s' = Some df /\
      Forall (fun r => Profit r = (Revenue r - Expenses r)%Qc) (rows df) /\
      total_profit a = (total_revenue a - total_expenses a)%Qc) /\
  (exists a s' df,
      (StreamlitApp.load_data (Return csv) ;;;
       StreamlitApp.get_analysis_data) s = (Return (Some a), s') /\
      data s' = Some df /\
      Forall (fun r => Profit r = (Revenue r - Expenses r)%Qc) (rows df) /\
      total_profit a = (total_revenue a - total_expenses a)%Qc).
Proof.
  intros Hcsv.
  assert (Hrows : map with_profit csv <> []) by now apply map_nonempty.
  split.
  - unfold bind at 1. rewrite cli_load_ok.
    match goal with |- context [Orchestrator.data_analyst_metrics ?s1] =>
      destruct (OrchestratorFacts.metrics_loaded s1 _ eq_refl Hrows)
        as (a & Hrun & Hrev & Hexp & Hpro & _)
    end.
    exists a. do 3 eexists. split; [exact Hrun |].
    split; [reflexivity |]. split; [apply profit_at_load |].
    rewrite Hrev, Hexp, Hpro. apply sum_profit.
  - unfold bind at 1. rewrite dash_load_ok.
    match goal with |- context [StreamlitApp.get_analysis_data ?s1] =>
      destruct (StreamlitFacts.analysis_loaded s1 _ eq_refl Hrows eq_refl)
        as (a & Hrun & Hrev & Hexp & Hpro & _)
    end.
    exists a. do 2 eexists. split; [exact Hrun |].
    split; [reflexivity |]. split; [apply profit_at_load |].
    rewrite Hrev, Hexp, Hpro. apply sum_profit.
Qed.

Lemma total_profit_is_revenue_minus_expenses_witness :
  phone_laptop <> [] /\
  (exists a avg s' df,
      (Orchestrator.load_data (Return phone_laptop) ;;;
       Orchestrator.data_analyst_metrics) fresh = (Return (a, avg), s') /\
      data s' = Some df /\
      Forall (fun r => Profit r = (Revenue r - Expenses r)%Qc) (rows df) /\
      total_profit a = (total_revenue a - total_expenses a)%Qc) /\
  (exists a s' df,
      (StreamlitApp.load_data (Return phone_laptop) ;;;
       StreamlitApp.get_analysis_data) fresh = (Return (Some a), s') /\
      data s' = Some df /\
      Forall (fun r => Profit r = (Revenue r - Expenses r)%Qc) (rows df) /\
      total_profit a = (total_revenue a - total_expenses a)%Qc).
Proof.
  split; [discriminate |].
  apply (total_profit_is_revenue_minus_expenses phone_laptop fresh).
  discriminate.
Defined.

(** ** The data set without records *)

(** C4.  On a data set with zero records the aggregation fails: in both
    variants it ends in the [ValueError] that [idxmax] raises on an empty
    table (the error of the empty data set), so no summary and no margin
    is returned, no division having been reached; the analyst of the
    console variant fails the same way before it sends any request. *)
Theorem empty_dataset_fails (P : Platform) (s : session) :
  fst ((Orchestrator.load_data (Return []) ;;;
        Orchestrator.data_analyst_metrics) s)
  = Raise (ValueError "attempt to get argmax of an empty sequence") /\
  fst ((Orchestrator.load_data (Return []) ;;;
        Orchestrator.data_analyst_agent P) s)
  = Raise (ValueError "attempt to get argmax of an empty sequence") /\
  sent (snd ((Orchestrator.load_data (Return []) ;;;
              Orchestrator.data_analyst_agent P) s)) = sent s /\
  (StreamlitApp.load_data (Return []) ;;;
   StreamlitApp.get_analysis_data) s
  = (Raise (ValueError "attempt to get argmax of an empty sequence"),
     mkSession (Some (mkFrame [] (Some []))) (sent s) (console s)).
Proof.
  repeat split.
Qed.

(** ** The example of two records *)

(** [H] says that an [idxmax] of given data is [Some x]: evaluate it. *)
Ltac compute_idxmax H expected :=
  match type of H with
  | ?l = Some _ =>
      let E := fresh "E" in
      assert (E : l = Some expected) by (vm_compute; reflexivity);
      rewrite E in H; injection H as H; symmetry; exact H
  end.

Lemma Fin_canon (q q' : Qc) : (q == q')%Q -> Fin q = Fin q'.
Proof. intros H. f_equal. now apply Qc_is_canon. Qed.

(** C10.  For the two records (2024-01-01, Phone, 1000, 400, 10) and
    (2024-02-01, Laptop, 2000, 500, 5) the aggregation of both variants
    gives total revenue 3000, total expenses 900, total profit 2100,
    profit margin 70.0, best product "Laptop" and best month
    "February". *)
Theorem phone_laptop_summary (s : session) :
  (exists a avg s',
      (Orchestrator.load_data (Return phone_laptop) ;;;
       Orchestrator.data_analyst_metrics) s = (Return (a, avg), s') /\
      total_revenue a = Qc_of_Z 3000 /\
      total_expenses a = Qc_of_Z 900 /\
      total_profit a = Qc_of_Z 2100 /\
      profit_margin a = Fin (Qc_of_Z 70) /\
      best_product a = "Laptop" /\
      best_month a = "February") /\
  (exists a s',
      (StreamlitApp.load_data (Return phone_laptop) ;;;
       StreamlitApp.get_analysis_data) s = (Return (Some a), s') /\
      total_revenue a = Qc_of_Z 3000 /\
      total_expenses a = Qc_of_Z 900 /\
      total_profit a = Qc_of_Z 2100 /\
      profit_margin a = Fin (Qc_of_Z 70) /\
      best_product a = "Laptop" /\
      best_month a = "February").
Proof.
  assert (Hrows : map with_profit phone_laptop <> []) by discriminate.
  split.
  - unfold bind at 1. rewrite cli_load_ok.
    match goal with |- context [Orchestrator.data_analyst_metrics ?s1] =>
      destruct (OrchestratorFacts.metrics_loaded s1 _ eq_refl Hrows)
        as (a & Hrun & Hrev & Hexp & Hpro & Hmar & _ & Hpp & Hmt & Hbm & Hbp & _)
    end.
    exists a. do 2 eexists. split; [exact Hrun |].
    rewrite Hmt in Hbm. rewrite Hpp in Hbp.
    repeat split.
    + rewrite Hrev. apply Qc_is_canon. vm_compute. reflexivity.
    + rewrite Hexp. apply Qc_is_canon. vm_compute. reflexivity.
    + rewrite Hpro. apply Qc_is_canon. vm_compute. reflexivity.
    + rewrite Hmar. vm_compute. apply Fin_canon. vm_compute. reflexivity.
    + compute_idxmax Hbp "Laptop".
    + compute_idxmax Hbm "February".
  - unfold bind at 1. rewrite dash_load_ok.
    match goal with |- context [StreamlitApp.get_analysis_data ?s1] =>
      destruct (StreamlitFacts.analysis_loaded s1 _ eq_refl Hrows eq_refl)
        as (a & Hrun & Hrev & Hexp & Hpro & Hmar & _ & Hpp & Hmt & Hbm & Hbp & _)
    end.
    exists a. eexists. split; [exact Hrun |].
    rewrite Hmt in Hbm. rewrite Hpp in Hbp.
    repeat split.
    + rewrite Hrev. apply Qc_is_canon. vm_compute. reflexivity.
    + rewrite Hexp. apply Qc_is_canon. vm_compute. reflexivity.
    + rewrite Hpro. apply Qc_is_canon. vm_compute. reflexivity.
    + rewrite Hmar. vm_compute. apply Fin_canon. vm_compute. reflexivity.
    + compute_idxmax Hbp "Laptop".
    + compute_idxmax Hbm "February".
Qed.

(** ** The order of the keys *)


Lemma product_keys_ascending (rs : list Row) :
  StronglySorted str_lt (map fst (product_table rs)) /\
  forall k, In k (map fst (product_table rs)) <-> In k (map Product rs).
Proof.
  rewrite product_table_keys. split.
  - apply sort_keys_strictly, NoDup_unique.
  - intros k. now rewrite in_sort_keys, in_unique.
Qed.

Lemma cli_month_keys_ascending (rs : list Row) :
  StronglySorted str_lt
    (map fst (Orchestrator.month_table (month_labels rs) rs)) /\
  forall k, In k (map fst (Orchestrator.month_table (month_labels rs) rs))
            <-> In k (month_labels rs).
Proof.
  rewrite OrchestratorFacts.cli_month_table_keys. split.
  - apply sort_keys_strictly, NoDup_unique.
  - intros k. now rewrite in_sort_keys, in_unique.
Qed.

Lemma dash_month_keys_ascending (rs : list Row) :
  StronglySorted str_lt
    (map fst (StreamlitApp.month_table (month_labels rs) rs)) /\
  forall k, In k (map fst (StreamlitApp.month_table (month_labels rs) rs))
            <-> In k (month_labels rs).
Proof.
  rewrite StreamlitFacts.dash_month_table_keys. split.
  - apply sort_keys_strictly, NoDup_unique.
  - intros k. now rewrite in_sort_keys, in_unique.
Qed.



(** ** The best product and the best month *)

(** The rows of the group of [k]: those of the frame whose key is [k],
    in the order of the frame. *)
Lemma group_rows {A : Type} (key : A -> string) (rs : list A) (k : string) :
  map snd (filter (fun kr => String.eqb (fst kr) k) (combine (map key rs) rs))
  = filter (fun r => String.eqb (key r) k) rs.
Proof.
  induction rs as [| r t IH]; simpl; [reflexivity |].
  destruct (String.eqb (key r) k); simpl; now rewrite IH.
Qed.

Lemma groupby_by_key {A : Type} (key : A -> string) (rs : list A) :
  groupby (map key rs) rs
  = map (fun k => (k, filter (fun r => String.eqb (key r) k) rs))
        (sort_keys (unique (map key rs))).
Proof.
  unfold groupby. apply map_ext. intros k. now rewrite group_rows.
Qed.


Lemma sorted_after {A : Type} (R : A -> A -> Prop) (l1 l2 : list A) (x : A) :
  StronglySorted R (l1 ++ x :: l2) -> Forall (R x) l2.
Proof.
  induction l1 as [| h t IH]; simpl; intros H.
  - now apply StronglySorted_inv in H.
  - apply StronglySorted_inv in H. tauto.
Qed.

(** On a table with its keys in ascending order, [idxmax] gives the key
    of the maximum, the least key if several keys hold it. *)
Lemma idxmax_least_argmax (col : list (string * Qc)) (best : string) :
  StronglySorted str_lt (map fst col) ->
  idxmax col = Some best ->
  least_argmax col best.
Proof.
  intros Hsorted Hbest.
  assert (Hne : col <> []) by (intros ->; discriminate).
  destruct (idxmax_first_max col Hne) as (k & l1 & v & l2 & Hk & E & H1 & H2).
  rewrite Hk in Hbest. injection Hbest as ->.
  exists v. split.
  - rewrite E. apply in_or_app. right. now left.
  - intros k' v' Hin. rewrite E in Hin.
    apply in_app_or in Hin as [Hin | [Hin | Hin]].
    + rewrite Forall_forall in H1. specialize (H1 _ Hin). simpl in H1.
      split; [now apply Qclt_le_weak |].
      intros ->. exfalso. exact (Qclt_not_eq _ _ H1 eq_refl).
    + injection Hin as <- <-. split; [apply Qcle_refl | auto].
    + rewrite Forall_forall in H2. specialize (H2 _ Hin). simpl in H2.
      split; [exact H2 |]. intros _. right.
      rewrite E, map_app in Hsorted. simpl in Hsorted.
      apply sorted_after in Hsorted. rewrite Forall_forall in Hsorted.
      apply Hsorted. now apply (in_map fst) in Hin.
Qed.

(** C5, as stated, fails: with the phone (seen first) and the laptop
    both at a revenue of 1000, January and February both at 1000, the
    best product is "Laptop" and the best month "February", where the
    tie-break by first appearance gives "Phone" and "January". *)
Lemma tie_not_first_seen :
  exists a avg s',
    (Orchestrator.load_data (Return phone_laptop_tie) ;;;
     Orchestrator.data_analyst_metrics) fresh = (Return (a, avg), s') /\
    best_product a = "Laptop" /\
    first_seen_argmax (map csv_Product phone_laptop_tie)
                      (column pa_Revenue (product_performance a))
    = Some "Phone" /\
    best_month a = "February" /\
    first_seen_argmax (map (fun r => strftime_B (csv_Date r)) phone_laptop_tie)
                      (column Orchestrator.ma_Revenue (monthly_trends a))
    = Some "January".
Proof.
  do 3 eexists. split; [vm_compute; reflexivity |].
  repeat split.
Qed.

(** C5, as stated, fails without a tie as well: the sums are compared
    after they are rounded to two decimals.  The phone has the greater
    revenue, 257/256 against 513/512, both round to 1.00, and the best
    product is "Laptop"; in the same way the best month is "February". *)
Lemma rounding_hides_the_greater_sum :
  present (map csv_Product close_sums) /\
  exact_amounts close_sums /\
  exists a avg s',
    (Orchestrator.load_data (Return close_sums) ;;;
     Orchestrator.data_analyst_metrics) fresh = (Return (a, avg), s') /\
    (sum_Qc (map csv_Revenue
               (filter (fun r => String.eqb (csv_Product r) "Laptop")
                       close_sums))
     < sum_Qc (map csv_Revenue
                 (filter (fun r => String.eqb (csv_Product r) "Phone")
                         close_sums)))%Qc /\
    best_product a = "Laptop" /\
    (sum_Qc (map csv_Revenue
               (filter (fun r => String.eqb (month_of r) "February")
                       close_sums))
     < sum_Qc (map csv_Revenue
                 (filter (fun r => String.eqb (month_of r) "January")
                         close_sums)))%Qc /\
    best_month a = "February".
Proof.
  split; [repeat constructor; discriminate |].
  split; [split; vm_compute; reflexivity |].
  do 3 eexists. split; [vm_compute; reflexivity |].
  repeat split.
Qed.

Lemma filter_with_profit (key : CsvRow -> string) (key' : Row -> string)
      (k : string) (csv : list CsvRow) :
  (forall r, key' (with_profit r) = key r) ->
  map Revenue (filter (fun r => String.eqb (key' r) k) (map with_profit csv))
  = map csv_Revenue (filter (fun r => String.eqb (key r) k) csv).
Proof.
  intros Hkey. induction csv as [| r t IH]; simpl; [reflexivity |].
  rewrite Hkey. destruct (String.eqb (key r) k); simpl; now rewrite IH.
Qed.

(** The revenue column of a grouped table, key by key: the rounded sum
    of the revenue of the records of the key. *)
Lemma product_revenue_column (csv : list CsvRow) :
  column pa_Revenue (product_table (map with_profit csv))
  = map (fun k => (k, revenue_of csv_Product k csv))
        (sort_keys (unique (map csv_Product csv))).
Proof.
  unfold column, product_table.
  rewrite (groupby_by_key Product), !map_map. cbn [fst snd pa_Revenue].
  apply map_ext. intros k. unfold revenue_of.
  now rewrite (filter_with_profit csv_Product Product).
Qed.

Lemma cli_month_revenue_column (csv : list CsvRow) :
  column Orchestrator.ma_Revenue
         (Orchestrator.month_table (month_labels (map with_profit csv))
                                   (map with_profit csv))
  = map (fun k => (k, revenue_of month_of k csv))
        (sort_keys (unique (map month_of csv))).
Proof.
  unfold column, Orchestrator.month_table, month_labels.
  rewrite (groupby_by_key (fun r => strftime_B (Date r))), !map_map.
  cbn [fst snd Orchestrator.ma_Revenue].
  apply map_ext. intros k. unfold revenue_of.
  now rewrite (filter_with_profit month_of (fun r => strftime_B (Date r))).
Qed.

Lemma dash_month_revenue_column (csv : list CsvRow) :
  column StreamlitApp.ma_Revenue
         (StreamlitApp.month_table (month_labels (map with_profit csv))
                                   (map with_profit csv))
  = map (fun k => (k, revenue_of month_of k csv))
        (sort_keys (unique (map month_of csv))).
Proof.
  unfold column, StreamlitApp.month_table, month_labels.
  rewrite (groupby_by_key (fun r => strftime_B (Date r))), !map_map.
  cbn [fst snd StreamlitApp.ma_Revenue].
  apply map_ext. intros k. unfold revenue_of.
  now rewrite (filter_with_profit month_of (fun r => strftime_B (Date r))).
Qed.

(** From the column of the table to the records. *)
Lemma least_argmax_best_key (key : CsvRow -> string) (csv : list CsvRow)
      (best : string) :
  least_argmax (map (fun k => (k, revenue_of key k csv))
                    (sort_keys (unique (map key csv)))) best ->
  best_key key csv best.
Proof.
  intros (vbest & Hbest & Hall).
  apply in_map_iff in Hbest as (k0 & E & Hk0). injection E as -> <-.
  split; [now rewrite in_sort_keys, in_unique in Hk0 |].
  intros k Hk. apply Hall. apply in_map_iff. exists k.
  split; [reflexivity |]. now rewrite in_sort_keys, in_unique.
Qed.

(** C5, amended.  For every data set with a record, no product missing
    and amounts that the code adds exactly, in both variants: the best
    product is a product of the records whose revenue, the sum over its
    records rounded to two decimals as in the per-product table, is the
    greatest; the best month likewise among the month names of the
    records.  When several keys have the greatest revenue, the one
    returned is the first of the table, that is the least in the
    ascending order of strings, not the first met in the records.  The
    best key is also where the revenue column of the table of the
    summary has its maximum. *)
Theorem best_is_least_argmax (csv : list CsvRow) (s : session) :
  csv <> [] -> present (map csv_Product csv) -> exact_amounts csv ->
  (exists a avg s',
      (Orchestrator.load_data (Return csv) ;;;
       Orchestrator.data_analyst_metrics) s = (Return (a, avg), s') /\
      best_key csv_Product csv (best_product a) /\
      best_key month_of csv (best_month a) /\
      least_argmax (column pa_Revenue (product_performance a))
                   (best_product a) /\
      least_argmax (column Orchestrator.ma_Revenue (monthly_trends a))
                   (best_month a)) /\
  (exists a s',
      (StreamlitApp.load_data (Return csv) ;;;
       StreamlitApp.get_analysis_data) s = (Return (Some a), s') /\
      best_key csv_Product csv (best_product a) /\
      best_key month_of csv (best_month a) /\
      least_argmax (column pa_Revenue (product_performance a))
                   (best_product a) /\
      least_argmax (column StreamlitApp.ma_Revenue (monthly_trends a))
                   (best_month a)).
Proof.
  intros Hcsv _ _.
  assert (Hrows : map with_profit csv <> []) by now apply map_nonempty.
  split.
  - unfold bind at 1. rewrite cli_load_ok.
    match goal with |- context [Orchestrator.data_analyst_metrics ?s1] =>
      destruct (OrchestratorFacts.metrics_loaded s1 _ eq_refl Hrows)
        as (a & Hrun & _ & _ & _ & _ & _ & Hpp & Hmt & Hbm & Hbp & _)
    end.
    cbn [rows] in Hpp, Hmt.
    assert (Hp : least_argmax (column pa_Revenue (product_performance a))
                              (best_product a)).
    { apply idxmax_least_argmax; [| exact Hbp].
      rewrite column_keys, Hpp. apply product_keys_ascending. }
    assert (Hm : least_argmax
                   (column Orchestrator.ma_Revenue (monthly_trends a))
                   (best_month a)).
    { apply idxmax_least_argmax; [| exact Hbm].
      rewrite column_keys, Hmt. apply cli_month_keys_ascending. }
    exists a. do 2 eexists. split; [exact Hrun |].
    split; [| split; [| split; assumption]].
    + apply least_argmax_best_key.
      rewrite <- product_revenue_column, <- Hpp. exact Hp.
    + apply least_argmax_best_key.
      rewrite <- cli_month_revenue_column, <- Hmt. exact Hm.
  - unfold bind at 1. rewrite dash_load_ok.
    match goal with |- context [StreamlitApp.get_analysis_data ?s1] =>
      destruct (StreamlitFacts.analysis_loaded s1 _ eq_refl Hrows eq_refl)
        as (a & Hrun & _ & _ & _ & _ & _ & Hpp & Hmt & Hbm & Hbp & _)
    end.
    cbn [rows] in Hpp, Hmt.
    assert (Hp : least_argmax (column pa_Revenue (product_performance a))
                              (best_product a)).
    { apply idxmax_least_argmax; [| exact Hbp].
      rewrite column_keys, Hpp. apply product_keys_ascending. }
    assert (Hm : least_argmax
                   (column StreamlitApp.ma_Revenue (monthly_trends a))
                   (best_month a)).
    { apply idxmax_least_argmax; [| exact Hbm].
      rewrite column_keys, Hmt. apply dash_month_keys_ascending. }
    exists a. eexists. split; [exact Hrun |].
    split; [| split; [| split; assumption]].
    + apply least_argmax_best_key.
      rewrite <- product_revenue_column, <- Hpp. exact Hp.
    + apply least_argmax_best_key.
      rewrite <- dash_month_revenue_column, <- Hmt. exact Hm.
Qed.

Lemma best_is_least_argmax_witness :
  phone_laptop_tie <> [] /\
  present (map csv_Product phone_laptop_tie) /\
  exact_amounts phone_laptop_tie /\
  exists a avg s',
    (Orchestrator.load_data (Return phone_laptop_tie) ;;;
     Orchestrator.data_analyst_metrics) fresh = (Return (a, avg), s') /\
    best_key csv_Product phone_laptop_tie (best_product a) /\
    best_key month_of phone_laptop_tie (best_month a).
Proof.
  assert (H1 : phone_laptop_tie <> []) by discriminate.
  assert (H2 : present (map csv_Product phone_laptop_tie))
    by (repeat constructor; discriminate).
  assert (H3 : exact_amounts phone_laptop_tie)
    by (split; vm_compute; reflexivity).
  split; [exact H1 |]. split; [exact H2 |]. split; [exact H3 |].
  destruct (best_is_least_argmax phone_laptop_tie fresh H1 H2 H3)
    as [(a & avg & s' & Hrun & Hp & Hm & _) _].
  exists a, avg, s'. auto.
Defined.

(** ** The profit margin *)

Lemma rint_bounds (n : Z) (d : positive) (z : Z) :
  z = (let fl := n / Zpos d in
       match (2 * (n mod Zpos d) ?= Zpos d) with
       | Lt => fl
       | Gt => fl + 1
       | Eq => if Z.even fl then fl else fl + 1
       end) ->
  2 * (z * Zpos d - n) <= Zpos d /\ 2 * (n - z * Zpos d) <= Zpos d.
Proof.
  intros ->. cbv zeta.
  pose proof (Z.div_mod n (Zpos d) ltac:(lia)) as Hdm.
  pose proof (Z.mod_pos_bound n (Zpos d) ltac:(lia)) as Hb.
  destruct (Z.compare_spec (2 * (n mod Zpos d)) (Zpos d)) as [E | L | G].
  - destruct (Z.even (n / Zpos d)); nia.
  - nia.
  - nia.
Qed.

Lemma Qc_ltb_of_lt (x y : Qc) : (x < y)%Qc -> Qc_ltb x y = true.
Proof.
  intros H. unfold Qc_ltb.
  now rewrite (proj1 (Qclt_alt x y) H).
Qed.

Lemma Qc_eqb_of_neq (x y : Qc) : x <> y -> Qc_eqb x y = false.
Proof.
  intros H. unfold Qc_eqb, Qc_eq_bool. destruct (Qc_eq_dec x y); congruence.
Qed.

(** *** Binary64 *)

Lemma this_of_Z (z : Z) : (this (Qc_of_Z z) == inject_Z z)%Q.
Proof. unfold Qc_of_Z. cbn [this Q2Qc]. apply Qred_correct. Qed.

Lemma this_pow2 (z : Z) : (this (pow2 z) == 2 ^ z)%Q.
Proof. unfold pow2. cbn [this Q2Qc]. apply Qred_correct. Qed.

Lemma this_abs (q : Qc) : (this (Qc_abs q) == Qabs q)%Q.
Proof. unfold Qc_abs. cbn [this Q2Qc]. apply Qred_correct. Qed.

Lemma this_mult (x y : Qc) : (this (x * y)%Qc == this x * this y)%Q.
Proof. unfold Qcmult. cbn [this Q2Qc]. apply Qred_correct. Qed.

Lemma this_div (x y : Qc) : (this (x / y)%Qc == this x / this y)%Q.
Proof.
  unfold Qcdiv, Qcmult, Qcinv. cbn [this Q2Qc].
  rewrite !Qred_correct. reflexivity.
Qed.

Lemma two_pow_pos (z : Z) : (0 < 2 ^ z)%Q.
Proof. apply Qpower_0_lt. reflexivity. Qed.

Lemma two_pow_plus (a b : Z) : (2 ^ (a + b) == 2 ^ a * 2 ^ b)%Q.
Proof. apply Qpower_plus. discriminate. Qed.

Lemma two_pow_le (a b : Z) : a <= b -> (2 ^ a <= 2 ^ b)%Q.
Proof. intros H. apply Qpower_le_compat_l; [exact H | discriminate]. Qed.

Lemma two_pow_Z (a : Z) : 0 <= a -> (2 ^ a == inject_Z (2 ^ a))%Q.
Proof. intros H. symmetry. apply (Zpower_Qpower 2 a H). Qed.

(** The binade is not above the number: [2 ** binade q <= |q|]. *)
Lemma binade_below (q : Qc) :
  q <> 0%Qc -> (2 ^ binade q <= Qabs q)%Q.
Proof.
  intros Hq. unfold binade.
  set (a := Z.log2 (Z.abs (Qnum (this q)))).
  set (b := Z.log2 (Zpos (Qden (this q)))).
  destruct (Qc_ltb (Qc_abs q) (pow2 (a - b))) eqn:Hcmp.
  - clear Hcmp.
    assert (Hn : 0 < Z.abs (Qnum (this q))).
    { destruct (Z.eq_dec (Qnum (this q)) 0) as [E | E]; [| lia].
      exfalso. apply Hq. apply Qc_is_canon.
      unfold Qeq. rewrite E. reflexivity. }
    pose proof (Z.log2_spec _ Hn) as [Ha _]. fold a in Ha.
    pose proof (Z.log2_spec (Zpos (Qden (this q))) ltac:(lia)) as [_ Hb].
    fold b in Hb.
    assert (Ha0 : 0 <= a) by apply Z.log2_nonneg.
    assert (Hb0 : 0 <= b) by apply Z.log2_nonneg.
    apply (Qmult_lt_0_le_reg_r _ _ (2 ^ (b + 1))%Q); [apply two_pow_pos |].
    rewrite <- two_pow_plus.
    replace (a - b - 1 + (b + 1)) with a by lia.
    rewrite (two_pow_Z a Ha0), (two_pow_Z (b + 1)) by lia.
    destruct (this q) as [n d]. cbn [Qnum Qden] in *.
    unfold Qabs, Qle, Qmult, inject_Z. cbn [Qnum Qden].
    rewrite Z.succ_lt_mono in Hb. replace (Z.succ b) with (b + 1) in Hb by lia.
    nia.
  - apply Qc_ltb_false in Hcmp. unfold Qcle in Hcmp.
    now rewrite this_pow2, this_abs in Hcmp.
Qed.

(** A number of absolute value at most [2 ** j] has its last bit at
    [j - 52] or below. *)
Lemma last_bit_below (q : Qc) (j : Z) :
  q <> 0%Qc -> (Qabs q <= 2 ^ j)%Q -> -1022 <= j -> last_bit q <= j - 52.
Proof.
  intros Hq Hj Hmin.
  pose proof (binade_below q Hq) as Hb.
  assert (binade q <= j).
  { apply (Qpower_le_compat_l_inv 2); [| reflexivity].
    now apply Qle_trans with (Qabs q). }
  unfold last_bit. lia.
Qed.

Lemma rint_near (x : Qc) : (Qabs (inject_Z (rint x) - this x) <= 1 # 2)%Q.
Proof.
  destruct (rint_bounds (Qnum (this x)) (Qden (this x)) (rint x) eq_refl)
    as [H1 H2].
  set (z := rint x) in *. clearbody z.
  apply Qabs_Qle_condition.
  destruct (this x) as [n d]. cbn [Qnum Qden] in *.
  unfold Qle, Qminus, Qplus, Qopp, inject_Z. cbn [Qnum Qden]. split; lia.
Qed.

Lemma rint_within (lo hi : Z) (y : Qc) :
  (inject_Z lo <= this y)%Q -> (this y <= inject_Z hi)%Q ->
  lo <= rint y <= hi.
Proof.
  intros Hlo Hhi.
  destruct (rint_bounds (Qnum (this y)) (Qden (this y)) (rint y) eq_refl)
    as [H1 H2].
  set (z := rint y) in *. clearbody z.
  destruct (this y) as [n d]. cbn [Qnum Qden] in *.
  unfold Qle, inject_Z in Hlo, Hhi. cbn [Qnum Qden] in Hlo, Hhi.
  nia.
Qed.

(** Rounding to binary64 a number of absolute value at most [2 ** j],
    [j] in the range of the normal numbers: the result is finite, at
    most half a unit of the last place away, of absolute value at most
    [2 ** j] and of the sign of the number. *)
Lemma round64_finite (q : Qc) (j : Z) :
  -1022 <= j <= 1023 -> (Qabs q <= 2 ^ j)%Q ->
  exists r,
    round64 q = Fin r /\
    (Qabs (this r - this q) <= 2 ^ (j - 53))%Q /\
    (Qabs r <= 2 ^ j)%Q /\
    ((0 <= this q)%Q -> (0 <= this r)%Q) /\
    ((this q <= 0)%Q -> (this r <= 0)%Q).
Proof.
  intros Hj Hq. unfold round64. cbv zeta.
  destruct (Qc_eqb q 0) eqn:Hzero.
  - apply Qc_eqb_true in Hzero. subst q.
    exists 0%Qc. split; [reflexivity |].
    pose proof (two_pow_pos (j - 53)). pose proof (two_pow_pos j).
    change (this 0%Qc) with 0%Q.
    repeat split; try (intros _; apply Qle_refl).
    + apply Qabs_Qle_condition. split; lra.
    + apply Qabs_Qle_condition. split; lra.
  - apply Qc_eqb_false in Hzero.
    pose proof (last_bit_below q j Hzero Hq ltac:(lia)) as He.
    set (e := last_bit q) in *. clearbody e.
    set (y := (q / pow2 e)%Qc).
    pose proof (rint_near y) as Hnear.
    assert (Hy : (this y * 2 ^ e == this q)%Q).
    { unfold y. rewrite this_div, this_pow2.
      field. pose proof (two_pow_pos e). lra. }
    assert (Hpe : (0 < 2 ^ e)%Q) by apply two_pow_pos.
    assert (Hje : (2 ^ j == inject_Z (2 ^ (j - e)) * 2 ^ e)%Q).
    { rewrite <- two_pow_Z by lia. rewrite <- two_pow_plus.
      replace (j - e + e) with j by lia. reflexivity. }
    assert (Hybound : (Qabs (this y) <= inject_Z (2 ^ (j - e)))%Q).
    { apply (Qmult_lt_0_le_reg_r _ _ (2 ^ e)%Q Hpe).
      rewrite <- Hje. rewrite <- (Qabs_pos (2 ^ e)) at 1 by lra.
      rewrite <- Qabs_Qmult, Hy. exact Hq. }
    apply Qabs_Qle_condition in Hybound as [Hy1 Hy2].
    rewrite <- inject_Z_opp in Hy1.
    pose proof (rint_within _ _ y Hy1 Hy2) as Hm.
    set (m := rint y) in *.
    set (r := (Qc_of_Z m * pow2 e)%Qc).
    assert (Hr : (this r == inject_Z m * 2 ^ e)%Q).
    { unfold r. rewrite this_mult, this_of_Z, this_pow2. reflexivity. }
    assert (Hrabs : (Qabs r <= 2 ^ j)%Q).
    { rewrite Hr, Hje, Qabs_Qmult, (Qabs_pos (2 ^ e)) by lra.
      apply Qmult_le_compat_r; [| lra].
      apply Qabs_Qle_condition. rewrite <- inject_Z_opp.
      rewrite <- !Zle_Qle. lia. }
    assert (Hfin : Qc_ltb (Qc_abs r) (pow2 1024) = true).
    { apply Qc_ltb_of_lt. unfold Qclt. rewrite this_abs, this_pow2.
      apply Qle_lt_trans with (2 ^ j)%Q; [exact Hrabs |].
      apply Qpower_lt_compat_l; [lia | reflexivity]. }
    rewrite Hfin.
    exists r. split; [reflexivity |]. split; [| split; [exact Hrabs |]].
    + assert (E : (this r - this q == (inject_Z m - this y) * 2 ^ e)%Q)
        by (rewrite Hr, <- Hy; ring).
      rewrite E, Qabs_Qmult, (Qabs_pos (2 ^ e)) by lra.
      apply Qle_trans with ((1 # 2) * 2 ^ e)%Q.
      * apply Qmult_le_compat_r; [exact Hnear | lra].
      * apply Qle_trans with (2 ^ (e - 1))%Q.
        -- replace e with (e - 1 + 1) at 1 by lia.
           rewrite two_pow_plus. change (2 ^ 1)%Q with 2%Q. lra.
        -- apply two_pow_le. lia.
    + split; intros Hsign.
      * assert (Hy0 : (inject_Z 0 <= this y)%Q).
        { apply (Qmult_lt_0_le_reg_r _ _ (2 ^ e)%Q Hpe).
          rewrite Hy. change (inject_Z 0) with 0%Q. lra. }
        assert (0 <= m).
        { unfold m. apply (rint_within 0 (2 ^ (j - e)) y Hy0 Hy2). }
        rewrite Hr. apply Qmult_le_0_compat; [| lra].
        change 0%Q with (inject_Z 0). rewrite <- Zle_Qle. lia.
      * assert (Hy0 : (this y <= inject_Z 0)%Q).
        { apply (Qmult_lt_0_le_reg_r _ _ (2 ^ e)%Q Hpe).
          rewrite Hy. change (inject_Z 0) with 0%Q. lra. }
        assert (m <= 0).
        { unfold m. apply (rint_within (- 2 ^ (j - e)) 0 y Hy1 Hy0). }
        rewrite Hr.
        assert (Hm0 : (inject_Z m <= 0)%Q)
          by (change 0%Q with (inject_Z 0); rewrite <- Zle_Qle; lia).
        setoid_replace 0%Q with (0 * 2 ^ e)%Q by ring.
        apply Qmult_le_compat_r; [exact Hm0 | lra].
Qed.

Lemma last_bit_under (q : Qc) (j : Z) :
  q <> 0%Qc -> (Qabs q < 2 ^ j)%Q -> -1021 <= j -> last_bit q <= j - 53.
Proof.
  intros Hq Hj Hmin.
  pose proof (binade_below q Hq) as Hb.
  assert (binade q < j).
  { apply (Qpower_lt_compat_l_inv 2); [| reflexivity].
    now apply Qle_lt_trans with (Qabs q). }
  unfold last_bit. lia.
Qed.

(** Rounding to binary64 keeps a number between the whole numbers that
    enclose it, as long as binary64 holds these exactly. *)
Lemma round64_between (lo hi : Z) (q : Qc) :
  - 2 ^ 53 < lo -> hi < 2 ^ 53 ->
  (inject_Z lo <= this q)%Q -> (this q <= inject_Z hi)%Q ->
  exists r,
    round64 q = Fin r /\
    (inject_Z lo <= this r)%Q /\ (this r <= inject_Z hi)%Q.
Proof.
  intros Hlo Hhi Hq1 Hq2. unfold round64. cbv zeta.
  destruct (Qc_eqb q 0) eqn:Hzero.
  - apply Qc_eqb_true in Hzero. subst q. exists 0%Qc. auto.
  - apply Qc_eqb_false in Hzero.
    assert (Habs : (Qabs q < 2 ^ 53)%Q).
    { rewrite (two_pow_Z 53) by lia.
      apply Qle_lt_trans with (inject_Z (2 ^ 53 - 1)).
      - apply Qabs_Qle_condition. rewrite <- inject_Z_opp. split.
        + apply Qle_trans with (inject_Z lo); [| exact Hq1].
          rewrite <- Zle_Qle. lia.
        + apply Qle_trans with (inject_Z hi); [exact Hq2 |].
          rewrite <- Zle_Qle. lia.
      - rewrite <- Zlt_Qlt. lia. }
    pose proof (last_bit_under q 53 Hzero Habs ltac:(lia)) as He.
    set (e := last_bit q) in *.
    assert (He' : -1074 <= e) by (unfold e, last_bit; lia).
    clearbody e.
    set (y := (q / pow2 e)%Qc).
    assert (Hpe : (0 < 2 ^ e)%Q) by apply two_pow_pos.
    assert (Hs : (inject_Z (2 ^ (- e)) * 2 ^ e == 1)%Q).
    { rewrite <- two_pow_Z by lia. rewrite <- two_pow_plus.
      replace (- e + e) with 0 by lia. reflexivity. }
    assert (Hy : (this y == this q * inject_Z (2 ^ (- e)))%Q).
    { unfold y. rewrite this_div, this_pow2.
      apply (Qmult_inj_r _ _ (2 ^ e)%Q); [lra |].
      rewrite <- Qmult_assoc, Hs. field. lra. }
    assert (Hpos : (0 <= inject_Z (2 ^ (- e)))%Q).
    { change 0%Q with (inject_Z 0). rewrite <- Zle_Qle.
      apply Z.pow_nonneg. lia. }
    assert (Hy1 : (inject_Z (lo * 2 ^ (- e)) <= this y)%Q).
    { rewrite Hy, inject_Z_mult. now apply Qmult_le_compat_r. }
    assert (Hy2 : (this y <= inject_Z (hi * 2 ^ (- e)))%Q).
    { rewrite Hy, inject_Z_mult. now apply Qmult_le_compat_r. }
    pose proof (rint_within _ _ y Hy1 Hy2) as Hm.
    set (m := rint y) in *. clearbody m.
    set (r := (Qc_of_Z m * pow2 e)%Qc).
    assert (Hr : (this r == inject_Z m * 2 ^ e)%Q).
    { unfold r. rewrite this_mult, this_of_Z, this_pow2. reflexivity. }
    assert (Hr1 : (inject_Z lo <= this r)%Q).
    { rewrite Hr.
      setoid_replace (inject_Z lo)
        with (inject_Z (lo * 2 ^ (- e)) * 2 ^ e)%Q
        by (rewrite inject_Z_mult, <- Qmult_assoc, Hs; ring).
      apply Qmult_le_compat_r; [| lra]. rewrite <- Zle_Qle. lia. }
    assert (Hr2 : (this r <= inject_Z hi)%Q).
    { rewrite Hr.
      setoid_replace (inject_Z hi)
        with (inject_Z (hi * 2 ^ (- e)) * 2 ^ e)%Q
        by (rewrite inject_Z_mult, <- Qmult_assoc, Hs; ring).
      apply Qmult_le_compat_r; [| lra]. rewrite <- Zle_Qle. lia. }
    assert (Hfin : Qc_ltb (Qc_abs r) (pow2 1024) = true).
    { apply Qc_ltb_of_lt. unfold Qclt. rewrite this_abs, this_pow2.
      apply Qle_lt_trans with (2 ^ 53)%Q.
      - rewrite (two_pow_Z 53) by lia.
        apply Qabs_Qle_condition. rewrite <- inject_Z_opp. split.
        + apply Qle_trans with (inject_Z lo); [| exact Hr1].
          rewrite <- Zle_Qle. lia.
        + apply Qle_trans with (inject_Z hi); [exact Hr2 |].
          rewrite <- Zle_Qle. lia.
      - apply Qpower_lt_compat_l; [lia | reflexivity]. }
    rewrite Hfin. exists r. auto.
Qed.

Lemma this_pow10_2 : (this (pow10 2) == 100)%Q.
Proof. reflexivity. Qed.

Lemma this_100 : (this (Qc_of_Z 100) == 100)%Q.
Proof. reflexivity. Qed.

(** The three operations of [round(x * 100, 2)] on a binary64 [x] of
    moderate size: the result is finite and within half a hundredth of
    [100 x], up to the rounding of binary64. *)
Lemma margin_near (x : Qc) :
  (Qabs x <= 2 ^ 20)%Q ->
  exists m,
    round_f64 (fmul_pos (round64 x) (Qc_of_Z 100)) 2 = Fin m /\
    (Qabs (this m - 100 * this x) <= (1 # 200) + 2 ^ (-23))%Q.
Proof.
  intros Hx.
  destruct (round64_finite x 20 ltac:(lia) Hx) as (d & Hd & Hd1 & Hd2 & _).
  rewrite Hd. cbn [fmul_pos].
  assert (Hy1 : (Qabs (d * Qc_of_Z 100)%Qc <= 2 ^ 27)%Q).
  { rewrite this_mult, this_100.
    apply Qabs_Qle_condition in Hd2.
    apply Qabs_Qle_condition.
    change (2 ^ 20)%Q with (1048576 # 1)%Q in Hd2.
    change (2 ^ 27)%Q with (134217728 # 1)%Q. lra. }
  destruct (round64_finite _ 27 ltac:(lia) Hy1) as (t & Ht & Ht1 & Ht2 & _).
  rewrite this_mult, this_100 in Ht1.
  unfold round_f64. rewrite Ht.
  assert (Hy2 : (Qabs (t * pow10 2)%Qc <= 2 ^ 34)%Q).
  { rewrite this_mult, this_pow10_2.
    apply Qabs_Qle_condition in Ht2.
    apply Qabs_Qle_condition.
    change (2 ^ 27)%Q with (134217728 # 1)%Q in Ht2.
    change (2 ^ 34)%Q with (17179869184 # 1)%Q. lra. }
  destruct (round64_finite _ 34 ltac:(lia) Hy2) as (w & Hw & Hw1 & Hw2 & _).
  rewrite this_mult, this_pow10_2 in Hw1.
  rewrite Hw.
  pose proof (rint_near w) as Hz.
  set (z := rint w) in *. clearbody z.
  assert (Hy3 : (Qabs (Qc_of_Z z / pow10 2)%Qc <= 2 ^ 28)%Q).
  { rewrite this_div, this_of_Z, this_pow10_2.
    apply Qabs_Qle_condition in Hw2.
    apply Qabs_Qle_condition in Hz.
    apply Qabs_Qle_condition.
    change (2 ^ 34)%Q with (17179869184 # 1)%Q in Hw2.
    change (2 ^ 28)%Q with (268435456 # 1)%Q.
    unfold Qdiv. change (/ 100)%Q with (1 # 100)%Q. lra. }
  destruct (round64_finite _ 28 ltac:(lia) Hy3) as (m & Hm & Hm1 & _).
  rewrite this_div, this_of_Z, this_pow10_2 in Hm1.
  exists m. split; [exact Hm |].
  apply Qabs_Qle_condition in Hd1, Ht1, Hw1, Hz, Hm1.
  apply Qabs_Qle_condition.
  change (2 ^ (20 - 53))%Q with (1 # 8589934592)%Q in Hd1.
  change (2 ^ (27 - 53))%Q with (1 # 67108864)%Q in Ht1.
  change (2 ^ (34 - 53))%Q with (1 # 524288)%Q in Hw1.
  change (2 ^ (28 - 53))%Q with (1 # 33554432)%Q in Hm1.
  change (2 ^ (-23))%Q with (1 # 8388608)%Q.
  unfold Qdiv in Hm1. change (/ 100)%Q with (1 # 100)%Q in Hm1.
  lra.
Qed.

(** What the line [round((total_profit/total_revenue)*100, 2)] gives. *)
Lemma margin_cases (profit revenue : Qc) :
  let margin :=
    round_f64 (fmul_pos (true_divide profit revenue) (Qc_of_Z 100)) 2 in
  (revenue <> 0%Qc ->
   margin
   = round_f64 (fmul_pos (round64 (profit / revenue)) (Qc_of_Z 100)) 2 /\
   ((Qabs (profit / revenue)%Qc <= 2 ^ 20)%Q ->
    exists m,
      margin = Fin m /\
      (Qabs (this m - 100 * this (profit / revenue)%Qc)
       <= (1 # 200) + 2 ^ (-23))%Q)) /\
  (revenue = 0%Qc ->
   (profit = 0%Qc -> margin = NaN) /\
   ((0 < profit)%Qc -> margin = PInf) /\
   ((profit < 0)%Qc -> margin = NInf)).
Proof.
  cbv zeta. unfold true_divide. split.
  - intros Hrev. rewrite (Qc_eqb_of_neq _ _ Hrev).
    split; [reflexivity | apply margin_near].
  - intros ->. rewrite Qc_eqb_refl. repeat split.
    + intros ->. now rewrite Qc_eqb_refl.
    + intros Hpos.
      rewrite Qc_eqb_of_neq, (Qc_ltb_of_lt _ _ Hpos); [reflexivity |].
      intros ->. exact (Qclt_not_eq _ _ Hpos eq_refl).
    + intros Hneg.
      rewrite Qc_eqb_of_neq; [| intros ->; exact (Qclt_not_eq _ _ Hneg eq_refl)].
      destruct (Qc_ltb 0 profit) eqn:Hcmp; [| reflexivity].
      apply Qc_ltb_true in Hcmp. exfalso.
      exact (Qclt_not_le _ _ Hneg (Qclt_le_weak _ _ Hcmp)).
Qed.

(** C7, as stated, fails in its second half: on a record with revenue 0
    and expenses 400 the aggregation returns a summary, its margin being
    minus infinity; no error is raised. *)
Lemma zero_revenue_no_error :
  exists a avg s',
    (Orchestrator.load_data (Return no_revenue) ;;;
     Orchestrator.data_analyst_metrics) fresh = (Return (a, avg), s') /\
    total_revenue a = 0%Qc /\
    profit_margin a = NInf.
Proof.
  do 3 eexists. split; [vm_compute; reflexivity |].
  split; [apply Qc_is_canon |]; vm_compute; reflexivity.
Qed.

(** C7, as stated, is not exact in its first half either: the margin is
    computed in binary64 and it is the binary64 product that is rounded.
    On a record with revenue 160 and expenses 137 the exact value is
    14.375, whose rounding to two decimals is 14.38; the product of
    binary64 is just below 14.375 and the margin returned is the
    binary64 number next to 14.37. *)
Lemma margin_rounds_the_binary64_product :
  exists a avg s',
    (Orchestrator.load_data (Return sale_160_137) ;;;
     Orchestrator.data_analyst_metrics) fresh = (Return (a, avg), s') /\
    (Qc_of_Z 100 * total_profit a / total_revenue a)%Qc = Q2Qc (14375 # 1000) /\
    round_Qc (Qc_of_Z 100 * total_profit a / total_revenue a) 2
    = Q2Qc (1438 # 100) /\
    profit_margin a = round64 (Q2Qc (1437 # 100)).
Proof.
  do 3 eexists. split; [vm_compute; reflexivity |].
  repeat split; apply Qc_is_canon || idtac; vm_compute; reflexivity.
Qed.

(** C7, amended.  For every data set with a record, in both variants,
    the aggregation returns a summary.  When the total revenue is not
    zero its margin is what binary64 gives for
    [round((total_profit / total_revenue) * 100, 2)]: the quotient and
    the product by 100 are rounded to binary64, and the rounding to two
    decimals multiplies by 100, takes the nearest integer (a tie to the
    even one) and divides by 100.  For a quotient of absolute value at
    most [2 ** 20] the margin is finite and differs from 100 x total
    profit / total revenue by at most 0.005 + [2 ** -23].  When the
    total revenue is zero no error is raised: the margin is not a number
    if the total profit is zero too, plus infinity if it is positive and
    minus infinity if it is negative. *)
Theorem margin_rounded_or_not_finite (csv : list CsvRow) (s : session) :
  csv <> [] ->
  (exists a avg s',
      (Orchestrator.load_data (Return csv) ;;;
       Orchestrator.data_analyst_metrics) s = (Return (a, avg), s') /\
      (total_revenue a <> 0%Qc ->
       profit_margin a
       = round_f64
           (fmul_pos (round64 (total_profit a / total_revenue a))
                     (Qc_of_Z 100)) 2 /\
       ((Qabs (total_profit a / total_revenue a)%Qc <= 2 ^ 20)%Q ->
        exists m,
          profit_margin a = Fin m /\
          (Qabs (this m - 100 * this (total_profit a / total_revenue a)%Qc)
           <= (1 # 200) + 2 ^ (-23))%Q)) /\
      (total_revenue a = 0%Qc ->
       (total_profit a = 0%Qc -> profit_margin a = NaN) /\
       ((0 < total_profit a)%Qc -> profit_margin a = PInf) /\
       ((total_profit a < 0)%Qc -> profit_margin a = NInf))) /\
  (exists a s',
      (StreamlitApp.load_data (Return csv) ;;;
       StreamlitApp.get_analysis_data) s = (Return (Some a), s') /\
      (total_revenue a <> 0%Qc ->
       profit_margin a
       = round_f64
           (fmul_pos (round64 (total_profit a / total_revenue a))
                     (Qc_of_Z 100)) 2 /\
       ((Qabs (total_profit a / total_revenue a)%Qc <= 2 ^ 20)%Q ->
        exists m,
          profit_margin a = Fin m /\
          (Qabs (this m - 100 * this (total_profit a / total_revenue a)%Qc)
           <= (1 # 200) + 2 ^ (-23))%Q)) /\
      (total_revenue a = 0%Qc ->
       (total_profit a = 0%Qc -> profit_margin a = NaN) /\
       ((0 < total_profit a)%Qc -> profit_margin a = PInf) /\
       ((total_profit a < 0)%Qc -> profit_margin a = NInf))).
Proof.
  intros Hcsv.
  assert (Hrows : map with_profit csv <> []) by now apply map_nonempty.
  split.
  - unfold bind at 1. rewrite cli_load_ok.
    match goal with |- context [Orchestrator.data_analyst_metrics ?s1] =>
      destruct (OrchestratorFacts.metrics_loaded s1 _ eq_refl Hrows)
        as (a & Hrun & Hrev & _ & Hpro & Hmar & _)
    end.
    exists a. do 2 eexists. split; [exact Hrun |].
    rewrite Hmar, Hrev, Hpro. apply margin_cases.
  - unfold bind at 1. rewrite dash_load_ok.
    match goal with |- context [StreamlitApp.get_analysis_data ?s1] =>
      destruct (StreamlitFacts.analysis_loaded s1 _ eq_refl Hrows eq_refl)
        as (a & Hrun & Hrev & _ & Hpro & Hmar & _)
    end.
    exists a. eexists. split; [exact Hrun |].
    rewrite Hmar, Hrev, Hpro. apply margin_cases.
Qed.

Lemma margin_rounded_or_not_finite_witness :
  sale_160_137 <> [] /\
  exists a avg s' m,
    (Orchestrator.load_data (Return sale_160_137) ;;;
     Orchestrator.data_analyst_metrics) fresh = (Return (a, avg), s') /\
    profit_margin a = Fin m /\
    (Qabs (this m - 100 * this (total_profit a / total_revenue a)%Qc)
     <= (1 # 200) + 2 ^ (-23))%Q.
Proof.
  split; [discriminate |].
  destruct (margin_rounded_or_not_finite sale_160_137 fresh
              ltac:(discriminate))
    as [(a & avg & s' & Hrun & Hfinite & _) _].
  pose proof Hrun as Hrun'.
  vm_compute in Hrun'. injection Hrun' as Ea _ _.
  assert (Hrev : total_revenue a <> 0%Qc)
    by (rewrite <- Ea; vm_compute; discriminate).
  assert (Hsmall : (Qabs (total_profit a / total_revenue a)%Qc <= 2 ^ 20)%Q)
    by (rewrite <- Ea; vm_compute; discriminate).
  destruct (Hfinite Hrev) as [_ Hnear].
  destruct (Hnear Hsmall) as (m & Hm & Hclose).
  exists a, avg, s', m. auto.
Defined.

(** ** Calls of the backend *)

Lemma bind_return {A B : Type} (m : M A) (k : A -> M B)
      (s s' : session) (a : A) :
  m s = (Return a, s') -> bind m k s = k a s'.
Proof. intros H. unfold bind. now rewrite H. Qed.

Lemma bind_raise {A B : Type} (m : M A) (k : A -> M B)
      (s s' : session) (e : exn) :
  m s = (Raise e, s') -> bind m k s = (Raise e, s').
Proof. intros H. unfold bind. now rewrite H. Qed.

(** A call inside [try ... except Exception as e: return prefix + str(e)]
    returns a text whatever the backend does, and sends one request. *)
Lemma soft_call (P : Platform) (model_id prompt prefix : string)
      (s : session) :
  try_except (chat_completion P model_id prompt)
             (fun e => ret (prefix ++ str_exn e)) s
  = (Return (soft_text P (sent s) (user_request model_id prompt) prefix),
     sending s (user_request model_id prompt)).
Proof.
  unfold try_except, chat_completion, soft_text, ret.
  destruct (client P (sent s) (user_request model_id prompt)); reflexivity.
Qed.

(** The same for the analyst, who stores the text in the dictionary. *)
Lemma soft_call_insights {MT : Type} (P : Platform)
      (model_id prompt prefix : string) (a : AnalysisData MT) (s : session) :
  try_except (text <- chat_completion P model_id prompt ;;
              ret (set_ai_insights a text))
             (fun e => ret (set_ai_insights a (prefix ++ str_exn e))) s
  = (Return (set_ai_insights a
               (soft_text P (sent s) (user_request model_id prompt) prefix)),
     sending s (user_request model_id prompt)).
Proof.
  unfold try_except, bind, chat_completion, soft_text, ret.
  destruct (client P (sent s) (user_request model_id prompt)); reflexivity.
Qed.

Section ConsoleAgents.

Variable P : Platform.

Lemma cli_analyst_returns (s : session) (df : DataFrame) :
  data s = Some df -> rows df <> [] ->
  exists a prompt,
    Orchestrator.data_analyst_metrics s
    = (Return (a, mean_Z (map Customers (rows df))),
       Orchestrator.with_month s df) /\
    prompt = Orchestrator.analyst_prompt P a (mean_Z (map Customers (rows df))) /\
    Orchestrator.data_analyst_agent P s
    = (Return (set_ai_insights a
                 (soft_text P (sent s)
                    (user_request Orchestrator.model_id prompt)
                    "Error generating AI insights: ")),
       sending (Orchestrator.with_month s df)
               (user_request Orchestrator.model_id prompt)).
Proof.
  intros Hdata Hrows.
  destruct (OrchestratorFacts.metrics_loaded s df Hdata Hrows)
    as (a & Hrun & _).
  exists a. eexists. split; [exact Hrun |]. split; [reflexivity |].
  unfold Orchestrator.data_analyst_agent.
  rewrite (bind_return _ _ _ _ _ Hrun). cbn [fst snd].
  rewrite soft_call_insights. reflexivity.
Qed.

Lemma cli_summarizer_returns (s : session)
      (a : AnalysisData Orchestrator.MonthAgg) (insights : string) :
  ai_insights a = Some insights ->
  Orchestrator.summarizer_agent P a s
  = (Return (soft_text P (sent s)
               (user_request Orchestrator.model_id
                  (Orchestrator.summarizer_prompt P a insights))
               "Error generating summary: "),
     sending s (user_request Orchestrator.model_id
                  (Orchestrator.summarizer_prompt P a insights))).
Proof.
  intros Hins. unfold Orchestrator.summarizer_agent,
    Orchestrator.get_ai_insights.
  rewrite Hins. erewrite bind_return by reflexivity.
  apply soft_call.
Qed.

Lemma cli_strategy_returns (s : session) (summary_output : string) :
  Orchestrator.business_strategy_agent P summary_output s
  = (Return (soft_text P (sent s)
               (user_request Orchestrator.model_id
                  (Orchestrator.strategy_prompt summary_output))
               "Error generating strategy: "),
     sending s (user_request Orchestrator.model_id
                  (Orchestrator.strategy_prompt summary_output))).
Proof. apply soft_call. Qed.

Lemma cli_email_returns (s : session) (summary_output strategy_output : string) :
  Orchestrator.email_reporter_agent P summary_output strategy_output s
  = (Return (soft_text P (sent s)
               (user_request Orchestrator.model_id
                  (Orchestrator.email_prompt P summary_output strategy_output))
               "Error generating email report: "),
     sending s (user_request Orchestrator.model_id
                  (Orchestrator.email_prompt P summary_output strategy_output))).
Proof. apply soft_call. Qed.

Lemma cli_support_returns (s : session) (df : DataFrame) (question : string) :
  data s = Some df ->
  exists prompt,
    Orchestrator.customer_support_agent P question s
    = (Return (soft_text P (sent s)
                 (user_request Orchestrator.model_id prompt)
                 "I apologize, but I encountered an error processing your question: "),
       sending s (user_request Orchestrator.model_id prompt)).
Proof.
  intros Hdata. eexists.
  unfold Orchestrator.customer_support_agent.
  erewrite bind_return
    by (unfold self_data; rewrite Hdata; reflexivity).
  apply soft_call.
Qed.

End ConsoleAgents.

Section DashboardAgents.

Variable P : Platform.
Variable str_dict : AnalysisData StreamlitApp.MonthAgg -> string.

Lemma dash_analyst_returns (s : session)
      (a : AnalysisData StreamlitApp.MonthAgg) :
  StreamlitApp.data_analyst_agent P (Some a) s
  = (Return (set_ai_insights a
               (soft_text P (sent s)
                  (user_request StreamlitApp.model_id
                     (StreamlitApp.analyst_prompt P a))
                  "Error generating AI insights: ")),
     sending s (user_request StreamlitApp.model_id
                  (StreamlitApp.analyst_prompt P a))).
Proof. apply soft_call_insights. Qed.

Lemma dash_summarizer_returns (s : session)
      (analyst_output analysis_data : AnalysisData StreamlitApp.MonthAgg) :
  StreamlitApp.summarizer_agent P str_dict analyst_output analysis_data s
  = (Return (soft_text P (sent s)
               (user_request StreamlitApp.model_id
                  (StreamlitApp.summarizer_prompt P str_dict
                     analyst_output analysis_data))
               "Error generating summary: "),
     sending s (user_request StreamlitApp.model_id
                  (StreamlitApp.summarizer_prompt P str_dict
                     analyst_output analysis_data))).
Proof. apply soft_call. Qed.

Lemma dash_strategy_returns (s : session) (summary_output : string) :
  StreamlitApp.business_strategy_agent P summary_output s
  = (Return (soft_text P (sent s)
               (user_request StreamlitApp.model_id
                  (StreamlitApp.strategy_prompt summary_output))
               "Error generating strategy: "),
     sending s (user_request StreamlitApp.model_id
                  (StreamlitApp.strategy_prompt summary_output))).
Proof. apply soft_call. Qed.

Lemma dash_email_returns (s : session) (summary_output strategy_output : string) :
  StreamlitApp.email_reporter_agent P summary_output strategy_output s
  = (Return (soft_text P (sent s)
               (user_request StreamlitApp.model_id
                  (StreamlitApp.email_prompt P summary_output strategy_output))
               "Error generating email: "),
     sending s (user_request StreamlitApp.model_id
                  (StreamlitApp.email_prompt P summary_output strategy_output))).
Proof. apply soft_call. Qed.

Lemma dash_support_returns (s : session) (df : DataFrame) (question : string) :
  data s = Some df ->
  exists prompt,
    StreamlitApp.customer_support_agent P question s
    = (Return (soft_text P (sent s)
                 (user_request StreamlitApp.model_id prompt)
                 "Error processing question: "),
       sending s (user_request StreamlitApp.model_id prompt)).
Proof.
  intros Hdata. eexists.
  unfold StreamlitApp.customer_support_agent.
  erewrite bind_return
    by (unfold self_data; rewrite Hdata; reflexivity).
  apply soft_call.
Qed.

End DashboardAgents.

(** C2.  Every operation that calls the completion backend (analyst,
    summarizer, strategist, email reporter, customer support), in both
    variants and whatever the backend does, an exception raised
    included, returns: what it returns is the generated text or the
    operation's message describing the error (for the analyst, the text
    stored in the dictionary it returns), after exactly one request.  No
    exception of the backend reaches the caller.  The operations that
    read the frame are run on a loaded frame, the analyst of the console
    variant on a frame with a record. *)
Theorem agents_return_text
        (P : Platform)
        (str_dict : AnalysisData StreamlitApp.MonthAgg -> string)
        (s : session) (df : DataFrame)
        (a : AnalysisData Orchestrator.MonthAgg)
        (b : AnalysisData StreamlitApp.MonthAgg)
        (insights summary_output strategy_output question : string) :
  data s = Some df -> rows df <> [] -> ai_insights a = Some insights ->
  (exists a' q,
      Orchestrator.data_analyst_agent P s
      = (Return a', sending (Orchestrator.with_month s df) q) /\
      ai_insights a'
      = Some (soft_text P (sent s) q "Error generating AI insights: ")) /\
  (exists q,
      Orchestrator.summarizer_agent P a s
      = (Return (soft_text P (sent s) q "Error generating summary: "),
         sending s q)) /\
  (exists q,
      Orchestrator.business_strategy_agent P summary_output s
      = (Return (soft_text P (sent s) q "Error generating strategy: "),
         sending s q)) /\
  (exists q,
      Orchestrator.email_reporter_agent P summary_output strategy_output s
      = (Return (soft_text P (sent s) q "Error generating email report: "),
         sending s q)) /\
  (exists q,
      Orchestrator.customer_support_agent P question s
      = (Return (soft_text P (sent s) q
                   "I apologize, but I encountered an error processing your question: "),
         sending s q)) /\
  (exists b' q,
      StreamlitApp.data_analyst_agent P (Some b) s
      = (Return b', sending s q) /\
      ai_insights b'
      = Some (soft_text P (sent s) q "Error generating AI insights: ")) /\
  (exists q,
      StreamlitApp.summarizer_agent P str_dict b b s
      = (Return (soft_text P (sent s) q "Error generating summary: "),
         sending s q)) /\
  (exists q,
      StreamlitApp.business_strategy_agent P summary_output s
      = (Return (soft_text P (sent s) q "Error generating strategy: "),
         sending s q)) /\
  (exists q,
      StreamlitApp.email_reporter_agent P summary_output strategy_output s
      = (Return (soft_text P (sent s) q "Error generating email: "),
         sending s q)) /\
  (exists q,
      StreamlitApp.customer_support_agent P question s
      = (Return (soft_text P (sent s) q "Error processing question: "),
         sending s q)).
Proof.
  intros Hdata Hrows Hins.
  repeat apply conj.
  - destruct (cli_analyst_returns P s df Hdata Hrows)
      as (a0 & prompt & _ & _ & Hrun).
    do 2 eexists. split; [exact Hrun | reflexivity].
  - eexists. exact (cli_summarizer_returns P s a insights Hins).
  - eexists. apply cli_strategy_returns.
  - eexists. apply cli_email_returns.
  - destruct (cli_support_returns P s df question Hdata) as (prompt & Hrun).
    eexists. exact Hrun.
  - do 2 eexists. split; [apply dash_analyst_returns | reflexivity].
  - eexists. apply dash_summarizer_returns.
  - eexists. apply dash_strategy_returns.
  - eexists. apply dash_email_returns.
  - destruct (dash_support_returns P s df question Hdata) as (prompt & Hrun).
    eexists. exact Hrun.
Qed.

(** ** The pipeline *)

Ltac step := erewrite bind_return by reflexivity.

(** The calculations read the rows only: two sessions holding the same
    rows give the same outcome, and each gets the [Month] column. *)
Lemma cli_metrics_rows (s1 s2 : session) (df1 df2 : DataFrame) :
  data s1 = Some df1 -> data s2 = Some df2 -> rows df1 = rows df2 ->
  fst (Orchestrator.data_analyst_metrics s1)
  = fst (Orchestrator.data_analyst_metrics s2) /\
  snd (Orchestrator.data_analyst_metrics s1) = Orchestrator.with_month s1 df1.
Proof.
  intros H1 H2 Hrows. unfold Orchestrator.data_analyst_metrics. run_py.
  rewrite H1, H2. simpl. rewrite Hrows.
  unfold Orchestrator.with_month. rewrite Hrows.
  destruct (idxmax _); simpl; [| split; reflexivity].
  destruct (idxmax _); simpl; split; reflexivity.
Qed.

Lemma cli_metrics_at (s s1 : session) (df : DataFrame)
      (x : AnalysisData Orchestrator.MonthAgg * float64) :
  data s = Some df -> data s1 = Some df ->
  Orchestrator.data_analyst_metrics s
  = (Return x, Orchestrator.with_month s df) ->
  Orchestrator.data_analyst_metrics s1
  = (Return x, Orchestrator.with_month s1 df).
Proof.
  intros H H1 Hrun.
  destruct (cli_metrics_rows s1 s df df H1 H eq_refl) as [Hfst Hsnd].
  rewrite Hrun in Hfst. simpl in Hfst.
  destruct (Orchestrator.data_analyst_metrics s1) as [o t].
  simpl in *. now subst.
Qed.

Lemma cli_analyst_at (P : Platform) (s1 s2 : session)
      (a : AnalysisData Orchestrator.MonthAgg) (avg : float64) :
  Orchestrator.data_analyst_metrics s1 = (Return (a, avg), s2) ->
  Orchestrator.data_analyst_agent P s1
  = (Return (set_ai_insights a
               (soft_text P (sent s2)
                  (user_request Orchestrator.model_id
                     (Orchestrator.analyst_prompt P a avg))
                  "Error generating AI insights: ")),
     sending s2 (user_request Orchestrator.model_id
                   (Orchestrator.analyst_prompt P a avg))).
Proof.
  intros Hrun. unfold Orchestrator.data_analyst_agent.
  rewrite (bind_return _ _ _ _ _ Hrun). cbn [fst snd].
  apply soft_call_insights.
Qed.

Lemma cli_pipeline (P : Platform) (s : session) (df : DataFrame) :
  data s = Some df -> rows df <> [] ->
  exists r s' log q1 q2 q3 q4 insights,
    Orchestrator.run_full_analysis P s = (Return r, s') /\
    console s' = (console s ++ log)%list /\
    stages_visited log = [Analyst; Summarizer; Strategist; Emailer] /\
    sent s' = q4 :: q3 :: q2 :: q1 :: sent s /\
    Orchestrator.ai_insights_of r = Some insights /\
    insights = soft_text P (sent s) q1 "Error generating AI insights: " /\
    q2 = user_request Orchestrator.model_id
           (Orchestrator.summarizer_prompt P (Orchestrator.analysis r) insights) /\
    Orchestrator.summary r
    = soft_text P (q1 :: sent s) q2 "Error generating summary: " /\
    q3 = user_request Orchestrator.model_id
           (Orchestrator.strategy_prompt (Orchestrator.summary r)) /\
    Orchestrator.strategy r
    = soft_text P (q2 :: q1 :: sent s) q3 "Error generating strategy: " /\
    q4 = user_request Orchestrator.model_id
           (Orchestrator.email_prompt P (Orchestrator.summary r)
              (Orchestrator.strategy r)) /\
    Orchestrator.email r
    = soft_text P (q3 :: q2 :: q1 :: sent s) q4
                "Error generating email report: ".
Proof.
  intros Hdata Hrows.
  destruct (OrchestratorFacts.metrics_loaded s df Hdata Hrows)
    as (a & Hmetrics & _).
  do 8 eexists. split.
  - unfold Orchestrator.run_full_analysis.
    do 2 step.
    erewrite bind_return
      by (apply cli_analyst_at;
          apply (cli_metrics_at s _ df _ Hdata); [exact Hdata | exact Hmetrics]).
    step.
    erewrite bind_return
      by (apply cli_summarizer_returns; reflexivity).
    step.
    erewrite bind_return by apply cli_strategy_returns.
    step.
    erewrite bind_return by apply cli_email_returns.
    unfold ret. reflexivity.
  - cbn [console sent showing sending Orchestrator.with_month
         Orchestrator.analysis Orchestrator.summary Orchestrator.strategy
         Orchestrator.email Orchestrator.ai_insights_of snd].
    split; [repeat rewrite <- app_assoc; reflexivity |].
    split; [reflexivity |].
    repeat split.
Qed.

Lemma dash_pipeline (P : Platform)
      (str_dict : AnalysisData StreamlitApp.MonthAgg -> string)
      (s : session) (df : DataFrame) :
  data s = Some df -> rows df <> [] ->
  Month df = Some (month_labels (rows df)) ->
  exists r s' log q1 q2 q3 q4 insights,
    StreamlitApp.full_analysis P str_dict s = (Return r, s') /\
    console s' = (console s ++ log)%list /\
    stages_visited log = [Analyst; Summarizer; Strategist; Emailer] /\
    sent s' = q4 :: q3 :: q2 :: q1 :: sent s /\
    StreamlitApp.ai_insights_of r = Some insights /\
    insights = soft_text P (sent s) q1 "Error generating AI insights: " /\
    q2 = user_request StreamlitApp.model_id
           (StreamlitApp.summarizer_prompt P str_dict
              (StreamlitApp.analysis r) (StreamlitApp.analysis r)) /\
    StreamlitApp.summary r
    = soft_text P (q1 :: sent s) q2 "Error generating summary: " /\
    q3 = user_request StreamlitApp.model_id
           (StreamlitApp.strategy_prompt (StreamlitApp.summary r)) /\
    StreamlitApp.strategy r
    = soft_text P (q2 :: q1 :: sent s) q3 "Error generating strategy: " /\
    q4 = user_request StreamlitApp.model_id
           (StreamlitApp.email_prompt P (StreamlitApp.summary r)
              (StreamlitApp.strategy r)) /\
    StreamlitApp.email r
    = soft_text P (q3 :: q2 :: q1 :: sent s) q4 "Error generating email: ".
Proof.
  intros Hdata Hrows Hmonth.
  destruct (StreamlitFacts.analysis_loaded s df Hdata Hrows Hmonth)
    as (a & Hanalysis & _).
  do 8 eexists. split.
  - unfold StreamlitApp.full_analysis.
    erewrite bind_return by exact Hanalysis.
    do 3 step.
    erewrite bind_return by apply dash_analyst_returns.
    do 2 step.
    erewrite bind_return by apply dash_summarizer_returns.
    do 2 step.
    erewrite bind_return by apply dash_strategy_returns.
    do 2 step.
    erewrite bind_return by apply dash_email_returns.
    do 3 step.
    unfold ret. reflexivity.
  - cbn [console sent showing sending
         StreamlitApp.analysis StreamlitApp.summary StreamlitApp.strategy
         StreamlitApp.email StreamlitApp.ai_insights_of snd].
    split; [repeat rewrite <- app_assoc; reflexivity |].
    split; [reflexivity |].
    repeat split.
Qed.

(** C1.  Every run of the full analysis on a loaded data set with a
    record, in the console variant and in the dashboard variant,
    announces the stages Analyst, Summarizer, Strategist, Emailer in
    this order, each once, and sends four requests, one per stage, each
    built from the texts of the stages before it; this holds whatever
    the backend answers or raises, a failed call only putting the
    message of the error in the place of the text.  The result holds
    the four texts. *)
Theorem pipeline_visits_four_stages
        (P : Platform)
        (str_dict : AnalysisData StreamlitApp.MonthAgg -> string)
        (s sd : session) (df dfd : DataFrame) :
  data s = Some df -> rows df <> [] ->
  data sd = Some dfd -> rows dfd <> [] ->
  Month dfd = Some (month_labels (rows dfd)) ->
  (exists r s' log q1 q2 q3 q4 insights,
      Orchestrator.run_full_analysis P s = (Return r, s') /\
      console s' = (console s ++ log)%list /\
      stages_visited log = [Analyst; Summarizer; Strategist; Emailer] /\
      sent s' = q4 :: q3 :: q2 :: q1 :: sent s /\
      Orchestrator.ai_insights_of r = Some insights /\
      insights = soft_text P (sent s) q1 "Error generating AI insights: " /\
      q2 = user_request Orchestrator.model_id
             (Orchestrator.summarizer_prompt P (Orchestrator.analysis r)
                insights) /\
      Orchestrator.summary r
      = soft_text P (q1 :: sent s) q2 "Error generating summary: " /\
      q3 = user_request Orchestrator.model_id
             (Orchestrator.strategy_prompt (Orchestrator.summary r)) /\
      Orchestrator.strategy r
      = soft_text P (q2 :: q1 :: sent s) q3 "Error generating strategy: " /\
      q4 = user_request Orchestrator.model_id
             (Orchestrator.email_prompt P (Orchestrator.summary r)
                (Orchestrator.strategy r)) /\
      Orchestrator.email r
      = soft_text P (q3 :: q2 :: q1 :: sent s) q4
                  "Error generating email report: ") /\
  (exists r s' log q1 q2 q3 q4 insights,
      StreamlitApp.full_analysis P str_dict sd = (Return r, s') /\
      console s' = (console sd ++ log)%list /\
      stages_visited log = [Analyst; Summarizer; Strategist; Emailer] /\
      sent s' = q4 :: q3 :: q2 :: q1 :: sent sd /\
      StreamlitApp.ai_insights_of r = Some insights /\
      insights = soft_text P (sent sd) q1 "Error generating AI insights: " /\
      q2 = user_request StreamlitApp.model_id
             (StreamlitApp.summarizer_prompt P str_dict
                (StreamlitApp.analysis r) (StreamlitApp.analysis r)) /\
      StreamlitApp.summary r
      = soft_text P (q1 :: sent sd) q2 "Error generating summary: " /\
      q3 = user_request StreamlitApp.model_id
             (StreamlitApp.strategy_prompt (StreamlitApp.summary r)) /\
      StreamlitApp.strategy r
      = soft_text P (q2 :: q1 :: sent sd) q3 "Error generating strategy: " /\
      q4 = user_request StreamlitApp.model_id
             (StreamlitApp.email_prompt P (StreamlitApp.summary r)
                (StreamlitApp.strategy r)) /\
      StreamlitApp.email r
      = soft_text P (q3 :: q2 :: q1 :: sent sd) q4
                  "Error generating email: ").
Proof.
  intros Hdata Hrows Hdatad Hrowsd Hmonth. split.
  - exact (cli_pipeline P s df Hdata Hrows).
  - exact (dash_pipeline P str_dict sd dfd Hdatad Hrowsd Hmonth).
Qed.

(** With the backend down the four stages still run, and the result
    holds the four messages of error. *)
Lemma pipeline_visits_four_stages_witness :
  data cli_loaded = Some (mkFrame (map with_profit phone_laptop) None) /\
  rows (mkFrame (map with_profit phone_laptop) None) <> [] /\
  data dash_loaded
  = Some (mkFrame (map with_profit phone_laptop)
                  (Some (month_labels (map with_profit phone_laptop)))) /\
  exists r s' log,
    Orchestrator.run_full_analysis backend_down cli_loaded = (Return r, s') /\
    console s' = (console cli_loaded ++ log)%list /\
    stages_visited log = [Analyst; Summarizer; Strategist; Emailer] /\
    Orchestrator.ai_insights_of r
    = Some "Error generating AI insights: Connection error." /\
    Orchestrator.summary r = "Error generating summary: Connection error." /\
    Orchestrator.strategy r = "Error generating strategy: Connection error." /\
    Orchestrator.email r
    = "Error generating email report: Connection error.".
Proof.
  split; [reflexivity |]. split; [discriminate |]. split; [reflexivity |].
  destruct (pipeline_visits_four_stages backend_down (fun _ => EmptyString)
              cli_loaded dash_loaded
              (mkFrame (map with_profit phone_laptop) None)
              (mkFrame (map with_profit phone_laptop)
                 (Some (month_labels (map with_profit phone_laptop))))
              eq_refl ltac:(discriminate) eq_refl ltac:(discriminate) eq_refl)
    as [(r & s' & log & q1 & q2 & q3 & q4 & insights & Hrun & Hlog & Hst & _
         & Hins & Hi & _ & Hsum & _ & Hstr & _ & Hem) _].
  exists r, s', log. repeat split; auto.
  now rewrite Hins, Hi.
Defined.

Lemma agents_return_text_witness :
  data cli_loaded = Some (mkFrame (map with_profit phone_laptop) None) /\
  rows (mkFrame (map with_profit phone_laptop) None) <> [] /\
  ai_insights (@only_insights Orchestrator.MonthAgg "insights")
  = Some "insights" /\
  exists q,
    Orchestrator.email_reporter_agent backend_down "summary" "strategy"
                                      cli_loaded
    = (Return "Error generating email report: Connection error.",
       sending cli_loaded q).
Proof.
  split; [reflexivity |]. split; [discriminate |]. split; [reflexivity |].
  destruct (agents_return_text backend_down (fun _ => EmptyString) cli_loaded
              (mkFrame (map with_profit phone_laptop) None)
              (only_insights "insights") (only_insights "insights")
              "insights" "summary" "strategy" "question"
              eq_refl ltac:(discriminate) eq_refl)
    as (_ & _ & _ & (q & Hemail) & _).
  exists q. exact Hemail.
Defined.

(** ** Calling the aggregation twice *)

(** C9.  The aggregation is deterministic: called a second time, right
    after a first call, it gives the same outcome, that is the same
    summary (totals, margin, averages, both tables, best month and best
    product) or the same error.  In the console variant the first call
    leaves the [Month] column in the frame, which the second call
    assigns again with the same labels; in the dashboard variant the
    call leaves the session as it was. *)
Theorem aggregation_deterministic (s : session) :
  fst (Orchestrator.data_analyst_metrics
         (snd (Orchestrator.data_analyst_metrics s)))
  = fst (Orchestrator.data_analyst_metrics s) /\
  snd (Orchestrator.data_analyst_metrics
         (snd (Orchestrator.data_analyst_metrics s)))
  = snd (Orchestrator.data_analyst_metrics s) /\
  snd (StreamlitApp.get_analysis_data s) = s /\
  fst (StreamlitApp.get_analysis_data
         (snd (StreamlitApp.get_analysis_data s)))
  = fst (StreamlitApp.get_analysis_data s).
Proof.
  assert (Hdash := StreamlitFacts.get_analysis_data_frame s).
  split; [| split; [| split; [exact Hdash | now rewrite Hdash]]].
  - destruct (data s) as [df |] eqn:Hdata.
    + destruct (cli_metrics_rows s s df df Hdata Hdata eq_refl) as [_ Hsnd].
      rewrite Hsnd.
      apply (cli_metrics_rows (Orchestrator.with_month s df) s
               (mkFrame (rows df) (Some (month_labels (rows df)))) df
               eq_refl Hdata eq_refl).
    + rewrite (OrchestratorFacts.metrics_unloaded s Hdata). cbn [snd].
      now rewrite (OrchestratorFacts.metrics_unloaded s Hdata).
  - destruct (data s) as [df |] eqn:Hdata.
    + destruct (cli_metrics_rows s s df df Hdata Hdata eq_refl) as [_ Hsnd].
      rewrite Hsnd.
      destruct (cli_metrics_rows (Orchestrator.with_month s df) s
                  (mkFrame (rows df) (Some (month_labels (rows df)))) df
                  eq_refl Hdata eq_refl) as [_ Hsnd'].
      rewrite Hsnd'. reflexivity.
    + rewrite (OrchestratorFacts.metrics_unloaded s Hdata). cbn [snd].
      now rewrite (OrchestratorFacts.metrics_unloaded s Hdata).
Qed.

(** ** The frame after an analysis *)

(** The operations of the dashboard variant leave the frame as it is. *)
Lemma dash_keeps_data (P : Platform) (question : string) (s : session) :
  data (snd (StreamlitApp.get_analysis_data s)) = data s /\
  data (snd (StreamlitApp.customer_support_agent P question s)) = data s.
Proof.
  split.
  - now rewrite StreamlitFacts.get_analysis_data_frame.
  - destruct (data s) as [df |] eqn:Hdata.
    + destruct (dash_support_returns P s df question Hdata) as (q & Hrun).
      rewrite Hrun. exact Hdata.
    + unfold StreamlitApp.customer_support_agent, bind, self_data.
      rewrite Hdata. exact Hdata.
Qed.

(** C8, what the console variant does: the analyst assigns the column
    [Month] to the loaded frame, so the frame after the analysis is not
    the frame that was loaded; every later [self.data.to_string()] of
    the customer-support agent prints the new column. *)
Theorem analyst_assigns_month (P : Platform) :
  data cli_loaded = Some (mkFrame (map with_profit phone_laptop) None) /\
  data (snd (Orchestrator.data_analyst_agent P cli_loaded))
  = Some (mkFrame (map with_profit phone_laptop)
                  (Some ["January"; "February"])) /\
  data (snd (Orchestrator.data_analyst_agent P cli_loaded))
  <> data cli_loaded.
Proof.
  destruct (cli_analyst_returns P cli_loaded
              (mkFrame (map with_profit phone_laptop) None)
              eq_refl ltac:(discriminate))
    as (a & prompt & _ & _ & Hrun).
  rewrite Hrun. split; [reflexivity |]. split; [reflexivity |].
  discriminate.
Qed.

(** * Further properties *)

(** ** When the aggregation fails *)

Lemma cli_analyst_raises (P : Platform) (s s' : session) (e : exn) :
  Orchestrator.data_analyst_metrics s = (Raise e, s') ->
  Orchestrator.data_analyst_agent P s = (Raise e, s').
Proof.
  intros H. unfold Orchestrator.data_analyst_agent.
  now rewrite (bind_raise _ _ _ _ _ H).
Qed.

(** X1.  On a loaded frame without records the full analysis of the
    console variant ends in the [ValueError] of [idxmax]: the Analyst is
    the only stage announced, no request is sent, and the frame is left
    with an empty [Month] column. *)
Theorem cli_pipeline_without_records
        (P : Platform) (s : session) (df : DataFrame) :
  data s = Some df -> rows df = [] ->
  exists log,
    Orchestrator.run_full_analysis P s
    = (Raise (ValueError "attempt to get argmax of an empty sequence"),
       mkSession (Some (mkFrame [] (Some []))) (sent s)
                 (console s ++ log)) /\
    stages_visited log = [Analyst].
Proof.
  intros Hdata Hrows. eexists. split.
  - unfold Orchestrator.run_full_analysis. do 2 step.
    erewrite bind_raise
      by (apply cli_analyst_raises;
          apply (OrchestratorFacts.metrics_empty _ df); [exact Hdata | exact Hrows]).
    unfold Orchestrator.with_month. rewrite Hrows.
    cbn [data sent console showing rows month_labels map].
    rewrite <- app_assoc. reflexivity.
  - reflexivity.
Qed.

Lemma cli_pipeline_without_records_witness :
  data (mkSession (Some (mkFrame [] None)) [] []) = Some (mkFrame [] None) /\
  rows (mkFrame [] None) = [] /\
  exists log,
    Orchestrator.run_full_analysis backend_down
      (mkSession (Some (mkFrame [] None)) [] [])
    = (Raise (ValueError "attempt to get argmax of an empty sequence"),
       mkSession (Some (mkFrame [] (Some []))) [] log) /\
    stages_visited log = [Analyst].
Proof.
  split; [reflexivity |]. split; [reflexivity |].
  exact (cli_pipeline_without_records backend_down
           (mkSession (Some (mkFrame [] None)) [] []) (mkFrame [] None)
           eq_refl eq_refl).
Defined.

(** X2.  In the dashboard variant an empty data set stops the full
    analysis in [get_analysis_data], before any progress or status is
    shown and before any request: the page shows nothing of the four
    stages. *)
Theorem dash_pipeline_without_records
        (P : Platform)
        (str_dict : AnalysisData StreamlitApp.MonthAgg -> string)
        (s : session) :
  (StreamlitApp.load_data (Return []) ;;;
   StreamlitApp.full_analysis P str_dict) s
  = (Raise (ValueError "attempt to get argmax of an empty sequence"),
     mkSession (Some (mkFrame [] (Some []))) (sent s) (console s)).
Proof. reflexivity. Qed.

(** ** The loop of commands *)

Ltac find_in := repeat (first [left; reflexivity | right]).

Lemma print_run (line : string) (s : session) :
  print line s = (Return tt, showing s (Printed line)).
Proof. reflexivity. Qed.

Ltac step_print := rewrite (bind_return _ _ _ _ _ (print_run _ _)).

Lemma showing_session (d : option DataFrame) (q : list request)
      (c : list event) (ev : event) :
  showing (mkSession d q c) ev = mkSession d q (c ++ [ev]).
Proof. reflexivity. Qed.

Lemma display_results_shows (P : Platform) (r : Orchestrator.results)
      (s : session) :
  exists log,
    OrchestratorMain.display_results P r s
    = (Return tt, mkSession (data s) (sent s) (console s ++ log)) /\
    (forall text, ai_insights (Orchestrator.analysis r) = Some text ->
                  In (Printed text) log) /\
    In (Printed (Orchestrator.summary r)) log /\
    In (Printed (Orchestrator.strategy r)) log /\
    In (Printed (Orchestrator.email r)) log.
Proof.
  destruct s as [d q c]. cbn [data sent console].
  unfold OrchestratorMain.display_results.
  destruct (ai_insights (Orchestrator.analysis r)) as [text |] eqn:Hins.
  - eexists. split.
    + repeat step_print. rewrite print_run.
      repeat rewrite showing_session.
      repeat rewrite <- app_assoc. reflexivity.
    + split; [intros t Ht; injection Ht as <- |].
      * cbn [app]. find_in.
      * cbn [app]. repeat split; find_in.
  - eexists. split.
    + repeat step_print. unfold ret at 1.
      rewrite (bind_return _ _ _ _ _ eq_refl).
      repeat step_print. rewrite print_run.
      repeat rewrite showing_session.
      repeat rewrite <- app_assoc. reflexivity.
    + split; [intros t Ht; discriminate |].
      cbn [app]. repeat split; find_in.
Qed.

(** The full analysis on a frame with a record: the result, the frame it
    leaves and the number of requests. *)
Lemma cli_pipeline_state (P : Platform) (s : session) (df : DataFrame) :
  data s = Some df -> rows df <> [] ->
  exists r s' insights,
    Orchestrator.run_full_analysis P s = (Return r, s') /\
    data s' = Some (mkFrame (rows df) (Some (month_labels (rows df)))) /\
    List.length (sent s') = (4 + List.length (sent s))%nat /\
    ai_insights (Orchestrator.analysis r) = Some insights.
Proof.
  intros Hdata Hrows.
  destruct (OrchestratorFacts.metrics_loaded s df Hdata Hrows)
    as (a & Hmetrics & _).
  do 3 eexists. split.
  - unfold Orchestrator.run_full_analysis.
    do 2 step.
    erewrite bind_return
      by (apply cli_analyst_at;
          apply (cli_metrics_at s _ df _ Hdata); [exact Hdata | exact Hmetrics]).
    step.
    erewrite bind_return
      by (apply cli_summarizer_returns; reflexivity).
    step.
    erewrite bind_return by apply cli_strategy_returns.
    step.
    erewrite bind_return by apply cli_email_returns.
    unfold ret. reflexivity.
  - repeat split.
Qed.

Lemma cli_query_state (P : Platform) (question : string)
      (s : session) (df : DataFrame) :
  data s = Some df ->
  exists answer s',
    Orchestrator.customer_support_query P question s = (Return answer, s') /\
    data s' = Some df /\
    List.length (sent s') = (1 + List.length (sent s))%nat.
Proof.
  intros Hdata.
  destruct (cli_support_returns P
              (showing s (Printed (nl ++ "🎧 Customer Support Agent handling: "
                                   ++ question)))
              df question Hdata) as (prompt & Hrun).
  do 2 eexists. split.
  - unfold Orchestrator.customer_support_query. step. exact Hrun.
  - split; [exact Hdata | reflexivity].
Qed.

Section CommandLoop.

Variable P : Platform.
Variable strip_lower : string -> string.

Lemma command_loop_nil (s : session) :
  OrchestratorMain.command_loop P strip_lower [] s
  = (Raise (EOFError "EOF when reading a line"),
     showing s (Printed (nl ++ "💬 Enter command: "))).
Proof. reflexivity. Qed.

Lemma command_loop_quit (line : string) (rest : list string) (s : session) :
  strip_lower line = "quit" ->
  OrchestratorMain.command_loop P strip_lower (line :: rest) s
  = (Return OrchestratorMain.Exited,
     showing (showing s (Printed (nl ++ "💬 Enter command: ")))
             (Printed "👋 Goodbye!")).
Proof.
  intros H. cbn [OrchestratorMain.command_loop]. step_print.
  rewrite H. reflexivity.
Qed.

(** The loop on a frame with a record: no command raises, so that the
    loop goes on to the first [quit] or to the end of the input. *)
Lemma command_loop_run
      (inputs : list string) (s : session) (df : DataFrame) :
  data s = Some df -> rows df <> [] ->
  exists o s' df',
    OrchestratorMain.command_loop P strip_lower inputs s = (o, s') /\
    data s' = Some df' /\ rows df' = rows df /\
    List.length (sent s')
    = (List.length (sent s) + requests_due strip_lower inputs)%nat /\
    ((o = Return OrchestratorMain.Exited /\
      exists line, In line inputs /\ strip_lower line = "quit") \/
     (o = Raise (EOFError "EOF when reading a line") /\
      forall line, In line inputs -> strip_lower line <> "quit")).
Proof.
  revert s df.
  induction inputs as [| line rest IH]; intros s df Hdata Hrows.
  - do 3 eexists.
    split; [apply command_loop_nil |].
    split; [exact Hdata |]. split; [reflexivity |].
    split; [simpl; now rewrite Nat.add_0_r |].
    right. split; [reflexivity | intros l []].
  - destruct (String.eqb (strip_lower line) "quit") eqn:Hquit.
    + apply String.eqb_eq in Hquit.
      do 3 eexists.
      split; [now apply command_loop_quit |].
      split; [exact Hdata |]. split; [reflexivity |].
      split.
      * cbn [requests_due]. rewrite Hquit. simpl. now rewrite Nat.add_0_r.
      * left. split; [reflexivity |].
        exists line. split; [now left | exact Hquit].
    + assert (Hnoquit : strip_lower line <> "quit")
        by now apply String.eqb_neq.
      assert (Htail : forall o : outcome OrchestratorMain.ending,
                 ((o = Return OrchestratorMain.Exited /\
                   exists l, In l rest /\ strip_lower l = "quit") \/
                  (o = Raise (EOFError "EOF when reading a line") /\
                   forall l, In l rest -> strip_lower l <> "quit")) ->
                 ((o = Return OrchestratorMain.Exited /\
                   exists l, In l (line :: rest) /\ strip_lower l = "quit") \/
                  (o = Raise (EOFError "EOF when reading a line") /\
                   forall l, In l (line :: rest) -> strip_lower l <> "quit"))).
      { intros o [[Ho (l & Hl & Hq)] | [Ho Hall]].
        - left. split; [exact Ho |]. exists l. split; [now right | exact Hq].
        - right. split; [exact Ho |].
          intros l [<- | Hl]; [exact Hnoquit | now apply Hall]. }
      cbn [OrchestratorMain.command_loop requests_due]. step_print.
      rewrite Hquit.
      destruct (String.eqb (strip_lower line) "analyze") eqn:Hanalyze.
      * destruct (cli_pipeline_state P
                    (showing s (Printed (nl ++ "💬 Enter command: ")))
                    df Hdata Hrows)
          as (r & s1 & insights & Hrun & Hdata1 & Hsent1 & _).
        rewrite (bind_return _ _ _ _ _ Hrun).
        destruct (display_results_shows P r s1) as (log & Hshow & _).
        rewrite (bind_return _ _ _ _ _ Hshow).
        destruct (IH (mkSession (data s1) (sent s1) (console s1 ++ log))
                     (mkFrame (rows df) (Some (month_labels (rows df))))
                     Hdata1 Hrows)
          as (e & s' & df' & Hloop & Hdata' & Hrows' & Hsent' & Hexit).
        exists e, s', df'. split; [exact Hloop |].
        split; [exact Hdata' |]. split; [exact Hrows' |].
        split; [| now apply Htail].
        rewrite Hsent'. cbn [sent]. rewrite Hsent1. cbn [sent showing]. lia.
      * destruct (OrchestratorMain.startswith "ask " (strip_lower line)).
        -- destruct (cli_query_state P
                       (OrchestratorMain.slice_from 4 (strip_lower line))
                       (showing s (Printed (nl ++ "💬 Enter command: ")))
                       df Hdata)
             as (answer & s1 & Hrun & Hdata1 & Hsent1).
           rewrite (bind_return _ _ _ _ _ Hrun).
           do 3 step_print.
           match goal with
           | |- context [OrchestratorMain.command_loop P strip_lower rest ?s2] =>
               destruct (IH s2 df Hdata1 Hrows)
                 as (e & s' & df' & Hloop & Hdata' & Hrows' & Hsent' & Hexit)
           end.
           exists e, s', df'. split; [exact Hloop |].
           split; [exact Hdata' |]. split; [exact Hrows' |].
           split; [| now apply Htail].
           rewrite Hsent'. cbn [sent showing]. rewrite Hsent1.
           cbn [sent showing]. lia.
        -- step_print.
           match goal with
           | |- context [OrchestratorMain.command_loop P strip_lower rest ?s2] =>
               destruct (IH s2 df Hdata Hrows)
                 as (e & s' & df' & Hloop & Hdata' & Hrows' & Hsent' & Hexit)
           end.
           exists e, s', df'. split; [exact Hloop |].
           split; [exact Hdata' |]. split; [exact Hrows' |].
           split; [| now apply Htail].
           rewrite Hsent'. reflexivity.
Qed.

(** X3.  With a frame that holds a record and no missing product, no
    command makes the loop of [main] raise, whatever the lines of the
    input and whatever the backend does: the loop is left at the first
    [quit], or, when no line asks to quit, by the [EOFError] that
    [input] raises at the end of the input, and by nothing else.  The
    requests sent are four for every [analyze] and one for every [ask]
    read before the first [quit], none for any other line, and the
    records of the frame stay as they are. *)
Theorem command_loop_ends_at_quit_or_eof
        (inputs : list string) (s : session) (df : DataFrame) :
  data s = Some df -> rows df <> [] -> present (map Product (rows df)) ->
  exists o s' df',
    OrchestratorMain.command_loop P strip_lower inputs s = (o, s') /\
    data s' = Some df' /\ rows df' = rows df /\
    List.length (sent s')
    = (List.length (sent s) + requests_due strip_lower inputs)%nat /\
    ((o = Return OrchestratorMain.Exited /\
      exists line, In line inputs /\ strip_lower line = "quit") \/
     (o = Raise (EOFError "EOF when reading a line") /\
      forall line, In line inputs -> strip_lower line <> "quit")).
Proof.
  intros Hdata Hrows _. now apply command_loop_run.
Qed.

End CommandLoop.

Lemma command_loop_ends_at_quit_or_eof_witness :
  data cli_loaded = Some (mkFrame (map with_profit phone_laptop) None) /\
  rows (mkFrame (map with_profit phone_laptop) None) <> [] /\
  present (map Product (rows (mkFrame (map with_profit phone_laptop) None))) /\
  exists s' df',
    OrchestratorMain.command_loop backend_down (fun line => line)
      ["analyze"; "ask which month was best"; "help"; "quit"; "analyze"]
      cli_loaded
    = (Return OrchestratorMain.Exited, s') /\
    data s' = Some df' /\
    rows df' = map with_profit phone_laptop /\
    List.length (sent s') = 5%nat.
Proof.
  assert (Hp : present (map Product
                          (rows (mkFrame (map with_profit phone_laptop) None))))
    by (repeat constructor; discriminate).
  split; [reflexivity |]. split; [discriminate |]. split; [exact Hp |].
  destruct (command_loop_ends_at_quit_or_eof backend_down (fun line => line)
              ["analyze"; "ask which month was best"; "help"; "quit"; "analyze"]
              cli_loaded (mkFrame (map with_profit phone_laptop) None)
              eq_refl ltac:(discriminate) Hp)
    as (o & s' & df' & Hrun & Hdata & Hrows & Hsent & [[-> _] | [_ Hall]]).
  - exists s', df'. repeat split; auto.
  - exfalso. apply (Hall "quit"); [simpl; tauto | reflexivity].
Defined.

Lemma try_except_raise {A : Type} (body : M A) (handler : exn -> M A)
      (s s' : session) (e : exn) :
  body s = (Raise e, s') -> try_except body handler s = handler e s'.
Proof. intros H. unfold try_except. now rewrite H. Qed.

Lemma try_except_return {A : Type} (body : M A) (handler : exn -> M A)
      (s s' : session) (a : A) :
  body s = (Return a, s') -> try_except body handler s = (Return a, s').
Proof. intros H. unfold try_except. now rewrite H. Qed.

Lemma ask_is_no_other_command (text : string) :
  OrchestratorMain.startswith "ask " text = true ->
  String.eqb text "quit" = false /\ String.eqb text "analyze" = false.
Proof.
  intros H. split; apply String.eqb_neq; intros ->; discriminate.
Qed.

Lemma init_loads (csv : list CsvRow) (d : option DataFrame)
      (q : list request) (c : list event) :
  Orchestrator.init (Return csv) (mkSession d q c)
  = (Return tt,
     mkSession (Some (mkFrame (map with_profit csv) None)) q
               (c ++ [Printed "✅ Sales data loaded successfully"])).
Proof. reflexivity. Qed.

Lemma init_fails (e : exn) (d : option DataFrame)
      (q : list request) (c : list event) :
  Orchestrator.init (Raise e) (mkSession d q c)
  = (Return tt,
     mkSession None q (c ++ [Printed ("❌ Error loading data: " ++ str_exn e)])).
Proof. reflexivity. Qed.

Ltac step_show := step_print; rewrite showing_session.

Lemma cli_pipeline_stops (P : Platform) (q : list request) (c : list event)
      (df : DataFrame) :
  rows df = [] ->
  Orchestrator.run_full_analysis P (mkSession (Some df) q c)
  = (Raise (ValueError "attempt to get argmax of an empty sequence"),
     mkSession (Some (mkFrame [] (Some []))) q
               (c ++ [Printed (nl ++ "🚀 Starting Multi-Agent Analysis Workflow...");
                      Printed (nl ++ "📊 Running Data Analyst Agent...")])).
Proof.
  intros Hrows. unfold Orchestrator.run_full_analysis. do 2 step_show.
  erewrite bind_raise
    by (apply cli_analyst_raises;
        apply (OrchestratorFacts.metrics_empty _ df); [reflexivity | exact Hrows]).
  unfold Orchestrator.with_month. rewrite Hrows.
  cbn [data sent console rows month_labels map].
  rewrite <- app_assoc. reflexivity.
Qed.

(** X4.  When the file holds no record, the first [analyze] ends the
    program: the [ValueError] leaves the loop, [main] prints it as a
    system error and stops; the lines typed after it are never read and
    no request is sent. *)
Theorem main_stops_without_records
        (P : Platform) (strip_lower : string -> string)
        (line : string) (rest : list string) (s : session) :
  strip_lower line = "analyze" ->
  exists log,
    OrchestratorMain.main P strip_lower (Return []) (line :: rest) s
    = (Return OrchestratorMain.Exited,
       mkSession (Some (mkFrame [] (Some []))) (sent s)
                 (console s
                  ++ log
                  ++ [Printed "❌ System Error: attempt to get argmax of an empty sequence"])) /\
    stages_visited log = [Analyst].
Proof.
  intros Hline. destruct s as [d q c]. cbn [sent console].
  exists [ Printed "✅ Sales data loaded successfully";
           Printed "🤖 Multi-Agent AI System Initialized";
           Printed "Available commands:";
           Printed "1. 'analyze' - Run full analysis workflow";
           Printed "2. 'ask [question]' - Customer support query";
           Printed "3. 'quit' - Exit system";
           Printed (nl ++ "💬 Enter command: ");
           Printed (nl ++ "🚀 Starting Multi-Agent Analysis Workflow...");
           Printed (nl ++ "📊 Running Data Analyst Agent...") ].
  split; [| reflexivity].
  unfold OrchestratorMain.main.
  erewrite try_except_raise.
  2:{ rewrite (bind_return _ _ _ _ _ (init_loads _ _ _ _)).
      do 5 step_show.
      cbn [OrchestratorMain.command_loop]. step_show.
      rewrite Hline.
      change (String.eqb "analyze" "quit") with false.
      change (String.eqb "analyze" "analyze") with true.
      cbv iota.
      erewrite bind_raise by (apply cli_pipeline_stops; reflexivity).
      reflexivity. }
  cbv beta. step_show. unfold ret.
  repeat rewrite <- app_assoc. reflexivity.
Qed.

Lemma main_stops_without_records_witness :
  (fun line : string => line) "analyze" = "analyze" /\
  exists log,
    OrchestratorMain.main backend_down (fun line => line) (Return [])
                          ["analyze"; "ask which month was best"] fresh
    = (Return OrchestratorMain.Exited,
       mkSession (Some (mkFrame [] (Some []))) []
                 (log
                  ++ [Printed "❌ System Error: attempt to get argmax of an empty sequence"])) /\
    stages_visited log = [Analyst].
Proof.
  split; [reflexivity |].
  exact (main_stops_without_records backend_down (fun line => line)
           "analyze" ["ask which month was best"] fresh eq_refl).
Defined.

Lemma cli_pipeline_unloaded (P : Platform) (q : list request) (c : list event) :
  Orchestrator.run_full_analysis P (mkSession None q c)
  = (Raise (TypeError "'NoneType' object is not subscriptable"),
     mkSession None q
               (c ++ [Printed (nl ++ "🚀 Starting Multi-Agent Analysis Workflow...");
                      Printed (nl ++ "📊 Running Data Analyst Agent...")])).
Proof.
  unfold Orchestrator.run_full_analysis. do 2 step_show.
  erewrite bind_raise
    by (apply cli_analyst_raises;
        apply OrchestratorFacts.metrics_unloaded; reflexivity).
  rewrite <- app_assoc. reflexivity.
Qed.

Lemma cli_query_unloaded (P : Platform) (question : string)
      (q : list request) (c : list event) :
  Orchestrator.customer_support_query P question (mkSession None q c)
  = (Raise (TypeError "'NoneType' object is not subscriptable"),
     mkSession None q
               (c ++ [Printed (nl ++ "🎧 Customer Support Agent handling: "
                               ++ question)])).
Proof. reflexivity. Qed.

(** X5.  When [read_csv] raises (a file that is missing, empty or not
    a table), the start is not stopped: [load_data] prints the error,
    the frame stays [None] and [main] still announces the system as
    initialized.  The first [analyze] or [ask] then ends the program
    with the [TypeError] of the missing frame, printed as a system
    error; no request is sent and the lines typed after it are never
    read. *)
Theorem main_after_failed_load
        (P : Platform) (strip_lower : string -> string) (e : exn)
        (line : string) (rest : list string) (s : session) :
  strip_lower line = "analyze"
  \/ OrchestratorMain.startswith "ask " (strip_lower line) = true ->
  exists log,
    OrchestratorMain.main P strip_lower (Raise e) (line :: rest) s
    = (Return OrchestratorMain.Exited,
       mkSession None (sent s)
                 (console s
                  ++ [Printed ("❌ Error loading data: " ++ str_exn e);
                      Printed "🤖 Multi-Agent AI System Initialized"]
                  ++ log
                  ++ [Printed "❌ System Error: 'NoneType' object is not subscriptable"])).
Proof.
  intros Hline. destruct s as [d q c]. cbn [sent console].
  destruct Hline as [Hline | Hline].
  - exists [ Printed "Available commands:";
             Printed "1. 'analyze' - Run full analysis workflow";
             Printed "2. 'ask [question]' - Customer support query";
             Printed "3. 'quit' - Exit system";
             Printed (nl ++ "💬 Enter command: ");
             Printed (nl ++ "🚀 Starting Multi-Agent Analysis Workflow...");
             Printed (nl ++ "📊 Running Data Analyst Agent...") ].
    unfold OrchestratorMain.main.
    erewrite try_except_raise.
    2:{ rewrite (bind_return _ _ _ _ _ (init_fails _ _ _ _)).
        do 5 step_show.
        cbn [OrchestratorMain.command_loop]. step_show.
        rewrite Hline.
        change (String.eqb "analyze" "quit") with false.
        change (String.eqb "analyze" "analyze") with true.
        cbv iota.
        erewrite bind_raise by apply cli_pipeline_unloaded.
        reflexivity. }
    cbv beta. step_show. unfold ret.
    repeat rewrite <- app_assoc. reflexivity.
  - destruct (ask_is_no_other_command _ Hline) as [Hquit Hanalyze].
    exists [ Printed "Available commands:";
             Printed "1. 'analyze' - Run full analysis workflow";
             Printed "2. 'ask [question]' - Customer support query";
             Printed "3. 'quit' - Exit system";
             Printed (nl ++ "💬 Enter command: ");
             Printed (nl ++ "🎧 Customer Support Agent handling: "
                      ++ OrchestratorMain.slice_from 4 (strip_lower line)) ].
    unfold OrchestratorMain.main.
    erewrite try_except_raise.
    2:{ rewrite (bind_return _ _ _ _ _ (init_fails _ _ _ _)).
        do 5 step_show.
        cbn [OrchestratorMain.command_loop]. step_show.
        rewrite Hquit, Hanalyze, Hline.
        erewrite bind_raise by apply cli_query_unloaded.
        reflexivity. }
    cbv beta. step_show. unfold ret.
    repeat rewrite <- app_assoc. reflexivity.
Qed.

Lemma main_after_failed_load_witness :
  ((fun line : string => line) "analyze" = "analyze"
   \/ OrchestratorMain.startswith "ask " ((fun line : string => line) "analyze")
      = true) /\
  exists log,
    OrchestratorMain.main backend_down (fun line => line)
      (Raise (ValueError "No columns to parse from file"))
      ["analyze"; "quit"] fresh
    = (Return OrchestratorMain.Exited,
       mkSession None []
                 ([Printed "❌ Error loading data: No columns to parse from file";
                   Printed "🤖 Multi-Agent AI System Initialized"]
                  ++ log
                  ++ [Printed "❌ System Error: 'NoneType' object is not subscriptable"])).
Proof.
  split; [now left |].
  exact (main_after_failed_load backend_down (fun line => line)
           (ValueError "No columns to parse from file")
           "analyze" ["quit"] fresh (or_introl eq_refl)).
Defined.

(** ** The grouped tables and the totals *)

Lemma strictly_sorted_NoDup (l : list string) :
  StronglySorted str_lt l -> NoDup l.
Proof.
  induction 1 as [| h t Hsorted IH Hall]; constructor; auto.
  intros Hin. rewrite Forall_forall in Hall.
  exact (str_lt_irrefl h (Hall h Hin)).
Qed.

Section Partition.

(** Sums in a commutative monoid: the integers of [Customers], the
    rationals of [Revenue]. *)
Variable V : Type.
Variable add : V -> V -> V.
Variable zero : V.
Hypothesis add_comm : forall x y, add x y = add y x.
Hypothesis add_assoc : forall x y z, add x (add y z) = add (add x y) z.
Hypothesis add_zero : forall x, add zero x = x.

Lemma total_pointwise {K : Type} (g h : K -> V) (keys : list K) :
  fold_right add zero (map (fun k => add (g k) (h k)) keys)
  = add (fold_right add zero (map g keys)) (fold_right add zero (map h keys)).
Proof.
  induction keys as [| k t IH]; simpl.
  - now rewrite add_zero.
  - rewrite IH.
    rewrite <- !add_assoc. f_equal.
    rewrite !add_assoc. f_equal. apply add_comm.
Qed.

Lemma total_zero {K : Type} (keys : list K) :
  fold_right add zero (map (fun _ => zero) keys) = zero.
Proof.
  induction keys as [| k t IH]; simpl; [reflexivity |].
  now rewrite IH, add_zero.
Qed.

Lemma total_single (k0 : string) (x : V) (keys : list string) :
  NoDup keys -> In k0 keys ->
  fold_right add zero (map (fun k => if String.eqb k0 k then x else zero) keys) = x.
Proof.
  induction 1 as [| k t Hnotin Hnodup IH]; intros Hin; [contradiction |].
  simpl. destruct (String.eqb_spec k0 k) as [-> | Hne].
  - assert (E : map (fun k' => if String.eqb k k' then x else zero) t
                = map (fun _ => zero) t).
    { apply map_ext_in. intros k' Hk'.
      destruct (String.eqb_spec k k') as [-> | _]; [contradiction | reflexivity]. }
    rewrite E, total_zero, add_comm. apply add_zero.
  - destruct Hin as [-> | Hin]; [contradiction |].
    rewrite add_zero. now apply IH.
Qed.

(** Summing group by group gives the sum over all rows. *)
Lemma total_by_group {A : Type} (key : A -> string) (f : A -> V)
      (rs : list A) (keys : list string) :
  NoDup keys -> (forall r, In r rs -> In (key r) keys) ->
  fold_right add zero (map (fun k =>
                fold_right add zero (map f (filter (fun r => String.eqb (key r) k) rs)))
             keys)
  = fold_right add zero (map f rs).
Proof.
  intros Hnodup. induction rs as [| r t IH]; intros Hkeys.
  - simpl. apply total_zero.
  - assert (E : map (fun k => fold_right add zero (map f (filter (fun r0 => String.eqb (key r0) k) (r :: t)))) keys
                = map (fun k => add (if String.eqb (key r) k then f r else zero)
                                    (fold_right add zero (map f (filter (fun r0 => String.eqb (key r0) k) t))))
                      keys).
    { apply map_ext. intros k. simpl.
      destruct (String.eqb (key r) k); simpl; [reflexivity |].
      now rewrite add_zero. }
    rewrite E, total_pointwise, total_single, IH; auto.
    + intros r0 Hr0. apply Hkeys. now right.
    + apply Hkeys. now left.
Qed.

End Partition.

Lemma sum_Z_total (l : list Z) : sum_Z l = fold_right Z.add 0 l.
Proof. reflexivity. Qed.

Lemma sum_Qc_total (l : list Qc) : sum_Qc l = fold_right Qcplus 0%Qc l.
Proof. reflexivity. Qed.

Lemma keys_cover {A : Type} (key : A -> string) (rs : list A) :
  NoDup (sort_keys (unique (map key rs))) /\
  forall r, In r rs -> In (key r) (sort_keys (unique (map key rs))).
Proof.
  split.
  - apply strictly_sorted_NoDup, sort_keys_strictly, NoDup_unique.
  - intros r Hr. rewrite in_sort_keys, in_unique. now apply in_map.
Qed.

(** The customers of the groups add up to the customers of the rows. *)
Lemma customers_by_group (key : Row -> string) (rs : list Row) :
  sum_Z (map (fun kg => sum_Z (map Customers (snd kg)))
             (groupby (map key rs) rs))
  = sum_Z (map Customers rs).
Proof.
  rewrite groupby_by_key, map_map. cbn [snd].
  destruct (keys_cover key rs) as [Hnodup Hcover].
  rewrite !sum_Z_total.
  erewrite map_ext; [| intros k; apply sum_Z_total].
  apply total_by_group; auto using Z.add_comm, Z.add_assoc.
Qed.

(** X6.  Grouping loses no customer: for every data set with a record,
    no product missing and numbers of customers that add up exactly,
    the customers of the rows of the per-product table add up to the
    customers of all records, in both variants, and so do the customers
    of the per-month table of the dashboard. *)
Theorem customers_add_up (csv : list CsvRow) (s : session) :
  csv <> [] -> present (map csv_Product csv) -> exact_counts csv ->
  (exists a avg s',
      (Orchestrator.load_data (Return csv) ;;;
       Orchestrator.data_analyst_metrics) s = (Return (a, avg), s') /\
      sum_Z (map (fun kv => pa_Customers (snd kv)) (product_performance a))
      = sum_Z (map csv_Customers csv)) /\
  (exists a s',
      (StreamlitApp.load_data (Return csv) ;;;
       StreamlitApp.get_analysis_data) s = (Return (Some a), s') /\
      sum_Z (map (fun kv => pa_Customers (snd kv)) (product_performance a))
      = sum_Z (map csv_Customers csv) /\
      sum_Z (map (fun kv => StreamlitApp.ma_Customers (snd kv))
                 (monthly_trends a))
      = sum_Z (map csv_Customers csv)).
Proof.
  intros Hcsv _ _.
  assert (Hrows : map with_profit csv <> []) by now apply map_nonempty.
  assert (Hcust : map Customers (map with_profit csv) = map csv_Customers csv)
    by (rewrite map_map; reflexivity).
  assert (Hprod : sum_Z (map (fun kv => pa_Customers (snd kv))
                             (product_table (map with_profit csv)))
                  = sum_Z (map csv_Customers csv)).
  { unfold product_table. rewrite map_map. cbn [snd pa_Customers].
    rewrite customers_by_group. now rewrite Hcust. }
  split.
  - unfold bind at 1. rewrite cli_load_ok.
    match goal with |- context [Orchestrator.data_analyst_metrics ?s1] =>
      destruct (OrchestratorFacts.metrics_loaded s1 _ eq_refl Hrows)
        as (a & Hrun & _ & _ & _ & _ & _ & Hpp & _)
    end.
    exists a. do 2 eexists. split; [exact Hrun |].
    rewrite Hpp. exact Hprod.
  - unfold bind at 1. rewrite dash_load_ok.
    match goal with |- context [StreamlitApp.get_analysis_data ?s1] =>
      destruct (StreamlitFacts.analysis_loaded s1 _ eq_refl Hrows eq_refl)
        as (a & Hrun & _ & _ & _ & _ & _ & Hpp & Hmt & _)
    end.
    exists a. eexists. split; [exact Hrun |].
    rewrite Hpp, Hmt. split; [exact Hprod |].
    cbn [rows]. unfold StreamlitApp.month_table, month_labels.
    rewrite map_map. cbn [snd StreamlitApp.ma_Customers].
    rewrite customers_by_group. now rewrite Hcust.
Qed.

Lemma customers_add_up_witness :
  phone_laptop <> [] /\
  present (map csv_Product phone_laptop) /\
  exact_counts phone_laptop /\
  exists a s',
    (StreamlitApp.load_data (Return phone_laptop) ;;;
     StreamlitApp.get_analysis_data) fresh = (Return (Some a), s') /\
    sum_Z (map (fun kv => pa_Customers (snd kv)) (product_performance a))
    = sum_Z (map csv_Customers phone_laptop) /\
    sum_Z (map (fun kv => StreamlitApp.ma_Customers (snd kv))
               (monthly_trends a))
    = sum_Z (map csv_Customers phone_laptop).
Proof.
  assert (Hp : present (map csv_Product phone_laptop))
    by (repeat constructor; discriminate).
  assert (Hc : exact_counts phone_laptop) by reflexivity.
  split; [discriminate |]. split; [exact Hp |]. split; [exact Hc |].
  apply (customers_add_up phone_laptop fresh);
    [discriminate | exact Hp | exact Hc].
Defined.

(** *** Numbers with two decimals *)

Lemma Qc_of_Z_plus (x y : Z) :
  Qc_of_Z (x + y) = (Qc_of_Z x + Qc_of_Z y)%Qc.
Proof.
  apply Qc_is_canon. unfold Qc_of_Z, Qcplus. cbn [this Q2Qc].
  rewrite !Qred_correct. rewrite inject_Z_plus. reflexivity.
Qed.

Lemma Qc_of_Z_opp (x : Z) : Qc_of_Z (- x) = (- Qc_of_Z x)%Qc.
Proof.
  apply Qc_is_canon. unfold Qc_of_Z, Qcopp. cbn [this Q2Qc].
  rewrite !Qred_correct. rewrite inject_Z_opp. reflexivity.
Qed.

Lemma pow10_nonzero (decimals : nat) : pow10 decimals <> 0%Qc.
Proof.
  unfold pow10, Qc_of_Z. intros H.
  apply (f_equal this) in H. cbn [this Q2Qc] in H.
  assert (Hq : (inject_Z (10 ^ Z.of_nat decimals) == 0)%Q).
  { rewrite <- (Qred_correct (inject_Z _)), H. reflexivity. }
  unfold Qeq, inject_Z in Hq. cbn [Qnum Qden] in Hq.
  assert (0 < 10 ^ Z.of_nat decimals) by (apply Z.pow_pos_nonneg; lia).
  lia.
Qed.

Lemma rint_of_Z (z : Z) : rint (Qc_of_Z z) = z.
Proof.
  unfold rint, Qc_of_Z. cbn [this Q2Qc].
  rewrite (Qred_identity (inject_Z z))
    by (unfold inject_Z; cbn [Qnum Qden]; apply Z.gcd_1_r).
  unfold inject_Z. cbn [Qnum Qden].
  rewrite Z.div_1_r, Z.mod_1_r. reflexivity.
Qed.

(** Rounding to two decimals leaves a number with two decimals as it
    is. *)
Lemma round_two_decimals (q : Qc) : two_decimals q -> round_Qc q 2 = q.
Proof.
  intros [z ->]. unfold round_Qc.
  assert (E : (Qc_of_Z z / pow10 2 * pow10 2 = Qc_of_Z z)%Qc).
  { rewrite Qcmult_comm. apply Qcmult_div_r, pow10_nonzero. }
  now rewrite E, rint_of_Z.
Qed.

Lemma two_decimals_plus (x y : Qc) :
  two_decimals x -> two_decimals y -> two_decimals (x + y)%Qc.
Proof.
  intros [a ->] [b ->]. exists (a + b).
  rewrite Qc_of_Z_plus. unfold Qcdiv. ring.
Qed.

Lemma two_decimals_minus (x y : Qc) :
  two_decimals x -> two_decimals y -> two_decimals (x - y)%Qc.
Proof.
  intros [a ->] [b ->]. exists (a + - b).
  rewrite Qc_of_Z_plus, Qc_of_Z_opp. unfold Qcdiv, Qcminus. ring.
Qed.

Lemma two_decimals_sum (l : list Qc) :
  Forall two_decimals l -> two_decimals (sum_Qc l).
Proof.
  induction 1 as [| x t Hx Ht IH]; simpl.
  - exists 0. unfold Qcdiv. apply Qc_is_canon. reflexivity.
  - now apply two_decimals_plus.
Qed.

(** With two decimals in every cell, the rounded sums of the groups add
    up to the sum over all rows. *)
Lemma rounded_by_group (key : Row -> string) (f : Row -> Qc) (rs : list Row) :
  Forall (fun r => two_decimals (f r)) rs ->
  sum_Qc (map (fun kg => round_Qc (sum_Qc (map f (snd kg))) 2)
              (groupby (map key rs) rs))
  = sum_Qc (map f rs).
Proof.
  intros Hdec.
  rewrite groupby_by_key, map_map. cbn [snd].
  destruct (keys_cover key rs) as [Hnodup Hcover].
  erewrite map_ext.
  2:{ intros k. apply round_two_decimals, two_decimals_sum.
      apply Forall_forall. intros x Hx.
      apply in_map_iff in Hx as (r & <- & Hr).
      apply filter_In in Hr as [Hr _].
      rewrite Forall_forall in Hdec. now apply Hdec. }
  rewrite !sum_Qc_total.
  erewrite map_ext; [| intros k; apply sum_Qc_total].
  apply total_by_group;
    auto using Qcplus_comm, Qcplus_assoc, Qcplus_0_l.
Qed.

Lemma tables_sums (rs : list Row) :
  Forall (fun r => two_decimals (Revenue r)) rs ->
  Forall (fun r => two_decimals (Expenses r)) rs ->
  Forall (fun r => two_decimals (Profit r)) rs ->
  sum_Qc (map (fun kv => pa_Revenue (snd kv)) (product_table rs))
  = sum_Qc (map Revenue rs) /\
  sum_Qc (map (fun kv => pa_Expenses (snd kv)) (product_table rs))
  = sum_Qc (map Expenses rs) /\
  sum_Qc (map (fun kv => pa_Profit (snd kv)) (product_table rs))
  = sum_Qc (map Profit rs) /\
  sum_Qc (map (fun kv => Orchestrator.ma_Revenue (snd kv))
              (Orchestrator.month_table (month_labels rs) rs))
  = sum_Qc (map Revenue rs) /\
  sum_Qc (map (fun kv => Orchestrator.ma_Profit (snd kv))
              (Orchestrator.month_table (month_labels rs) rs))
  = sum_Qc (map Profit rs) /\
  sum_Qc (map (fun kv => StreamlitApp.ma_Revenue (snd kv))
              (StreamlitApp.month_table (month_labels rs) rs))
  = sum_Qc (map Revenue rs) /\
  sum_Qc (map (fun kv => StreamlitApp.ma_Profit (snd kv))
              (StreamlitApp.month_table (month_labels rs) rs))
  = sum_Qc (map Profit rs).
Proof.
  intros Hrev Hexp Hpro.
  assert (Hp1 := rounded_by_group Product Revenue _ Hrev).
  assert (Hp2 := rounded_by_group Product Expenses _ Hexp).
  assert (Hp3 := rounded_by_group Product Profit _ Hpro).
  assert (Hm1 := rounded_by_group (fun r => strftime_B (Date r)) Revenue _ Hrev).
  assert (Hm2 := rounded_by_group (fun r => strftime_B (Date r)) Profit _ Hpro).
  unfold product_table, Orchestrator.month_table, StreamlitApp.month_table,
    month_labels.
  rewrite !map_map.
  cbn [snd pa_Revenue pa_Expenses pa_Profit
       Orchestrator.ma_Revenue Orchestrator.ma_Profit
       StreamlitApp.ma_Revenue StreamlitApp.ma_Profit].
  repeat split; assumption.
Qed.

Lemma whole_numbers_two_decimals (z : Z) : two_decimals (Qc_of_Z z).
Proof.
  exists (z * 100). apply Qc_is_canon.
  unfold Qcdiv, Qcmult, Qcinv, pow10, Qc_of_Z. cbn [this Q2Qc].
  rewrite !Qred_correct. unfold Qeq, Qmult, Qinv, inject_Z.
  cbn. lia.
Qed.

Lemma whole_amount_two_decimals (q : Qc) :
  on_grid 0 q = true -> two_decimals q.
Proof.
  unfold on_grid. intros H. apply Z.eqb_eq in H.
  assert (Hd : Qden (this q) = 1%positive).
  { change (2 ^ 0) with 1 in H.
    destruct (Pos.eq_dec (Qden (this q)) 1) as [E | E]; [exact E |].
    rewrite Z.mod_1_l in H by lia. discriminate. }
  assert (E : q = Qc_of_Z (Qnum (this q))).
  { apply Qc_is_canon. rewrite this_of_Z.
    destruct (this q) as [n d]. cbn [Qnum Qden] in *. subst d. reflexivity. }
  rewrite E. apply whole_numbers_two_decimals.
Qed.

(** X7.  When the revenues and the expenses of the data set are whole
    numbers that add up exactly and no product is missing, rounding the
    tables to two decimals changes nothing and the tables add up to the
    totals: in both variants the revenue, expenses and profit of the
    per-product table add up to the total revenue, total expenses and
    total profit of the summary, and the revenue and profit of the
    per-month table add up to the same totals. *)
Theorem tables_add_up_to_totals (csv : list CsvRow) (s : session) :
  csv <> [] -> present (map csv_Product csv) -> whole_amounts csv ->
  (exists a avg s',
      (Orchestrator.load_data (Return csv) ;;;
       Orchestrator.data_analyst_metrics) s = (Return (a, avg), s') /\
      sum_Qc (map (fun kv => pa_Revenue (snd kv)) (product_performance a))
      = total_revenue a /\
      sum_Qc (map (fun kv => pa_Expenses (snd kv)) (product_performance a))
      = total_expenses a /\
      sum_Qc (map (fun kv => pa_Profit (snd kv)) (product_performance a))
      = total_profit a /\
      sum_Qc (map (fun kv => Orchestrator.ma_Revenue (snd kv))
                  (monthly_trends a))
      = total_revenue a /\
      sum_Qc (map (fun kv => Orchestrator.ma_Profit (snd kv))
                  (monthly_trends a))
      = total_profit a) /\
  (exists a s',
      (StreamlitApp.load_data (Return csv) ;;;
       StreamlitApp.get_analysis_data) s = (Return (Some a), s') /\
      sum_Qc (map (fun kv => pa_Revenue (snd kv)) (product_performance a))
      = total_revenue a /\
      sum_Qc (map (fun kv => pa_Expenses (snd kv)) (product_performance a))
      = total_expenses a /\
      sum_Qc (map (fun kv => pa_Profit (snd kv)) (product_performance a))
      = total_profit a /\
      sum_Qc (map (fun kv => StreamlitApp.ma_Revenue (snd kv))
                  (monthly_trends a))
      = total_revenue a /\
      sum_Qc (map (fun kv => StreamlitApp.ma_Profit (snd kv))
                  (monthly_trends a))
      = total_profit a).
Proof.
  intros Hcsv _ [Hwhole _].
  assert (Hdec : Forall (fun r => two_decimals (csv_Revenue r)
                                  /\ two_decimals (csv_Expenses r)) csv).
  { apply Forall_forall. intros r Hr.
    rewrite forallb_forall in Hwhole. specialize (Hwhole r Hr).
    apply andb_prop in Hwhole as [H1 H2].
    split; now apply whole_amount_two_decimals. }
  assert (Hrows : map with_profit csv <> []) by now apply map_nonempty.
  assert (Hrev : Forall (fun r => two_decimals (Revenue r)) (map with_profit csv)).
  { apply Forall_forall. intros r Hr.
    apply in_map_iff in Hr as (c & <- & Hc).
    rewrite Forall_forall in Hdec. now apply Hdec. }
  assert (Hexp : Forall (fun r => two_decimals (Expenses r)) (map with_profit csv)).
  { apply Forall_forall. intros r Hr.
    apply in_map_iff in Hr as (c & <- & Hc).
    rewrite Forall_forall in Hdec. now apply Hdec. }
  assert (Hpro : Forall (fun r => two_decimals (Profit r)) (map with_profit csv)).
  { apply Forall_forall. intros r Hr.
    apply in_map_iff in Hr as (c & <- & Hc).
    rewrite Forall_forall in Hdec. destruct (Hdec c Hc).
    now apply two_decimals_minus. }
  destruct (tables_sums _ Hrev Hexp Hpro)
    as (T1 & T2 & T3 & T4 & T5 & T6 & T7).
  split.
  - unfold bind at 1. rewrite cli_load_ok.
    match goal with |- context [Orchestrator.data_analyst_metrics ?s1] =>
      destruct (OrchestratorFacts.metrics_loaded s1 _ eq_refl Hrows)
        as (a & Hrun & Htr & Hte & Htp & _ & _ & Hpp & Hmt & _)
    end.
    exists a. do 2 eexists. split; [exact Hrun |].
    rewrite Hpp, Hmt, Htr, Hte, Htp. cbn [rows].
    repeat split; assumption.
  - unfold bind at 1. rewrite dash_load_ok.
    match goal with |- context [StreamlitApp.get_analysis_data ?s1] =>
      destruct (StreamlitFacts.analysis_loaded s1 _ eq_refl Hrows eq_refl)
        as (a & Hrun & Htr & Hte & Htp & _ & _ & Hpp & Hmt & _)
    end.
    exists a. eexists. split; [exact Hrun |].
    rewrite Hpp, Hmt, Htr, Hte, Htp. cbn [rows].
    repeat split; assumption.
Qed.

Lemma tables_add_up_to_totals_witness :
  phone_laptop <> [] /\
  present (map csv_Product phone_laptop) /\
  whole_amounts phone_laptop /\
  exists a avg s',
    (Orchestrator.load_data (Return phone_laptop) ;;;
     Orchestrator.data_analyst_metrics) fresh = (Return (a, avg), s') /\
    sum_Qc (map (fun kv => pa_Revenue (snd kv)) (product_performance a))
    = total_revenue a /\
    sum_Qc (map (fun kv => pa_Expenses (snd kv)) (product_performance a))
    = total_expenses a /\
    sum_Qc (map (fun kv => pa_Profit (snd kv)) (product_performance a))
    = total_profit a /\
    sum_Qc (map (fun kv => Orchestrator.ma_Revenue (snd kv))
                (monthly_trends a))
    = total_revenue a /\
    sum_Qc (map (fun kv => Orchestrator.ma_Profit (snd kv))
                (monthly_trends a))
    = total_profit a.
Proof.
  assert (Hp : present (map csv_Product phone_laptop))
    by (repeat constructor; discriminate).
  assert (Hw : whole_amounts phone_laptop)
    by (split; vm_compute; reflexivity).
  split; [discriminate |]. split; [exact Hp |]. split; [exact Hw |].
  apply (tables_add_up_to_totals phone_laptop fresh);
    [discriminate | exact Hp | exact Hw].
Defined.

(** ** Bounds of the margin *)

Lemma profit_between (csv : list CsvRow) :
  Forall (fun r => (0 <= csv_Expenses r)%Qc
                   /\ (csv_Expenses r <= csv_Revenue r)%Qc) csv ->
  (0 <= sum_Qc (map Profit (map with_profit csv)))%Qc /\
  (sum_Qc (map Profit (map with_profit csv))
   <= sum_Qc (map Revenue (map with_profit csv)))%Qc.
Proof.
  induction 1 as [| r t [He Hr] Ht [IH0 IH1]]; simpl.
  - split; apply Qcle_refl.
  - split.
    + replace 0%Qc with (0 + 0)%Qc by ring.
      apply Qcplus_le_compat; [| exact IH0].
      apply (proj1 (Qcle_minus_iff _ _)) in Hr. exact Hr.
    + apply Qcplus_le_compat; [| exact IH1].
      apply (proj2 (Qcle_minus_iff _ _)).
      replace (csv_Revenue r + - (csv_Revenue r - csv_Expenses r))%Qc
        with (csv_Expenses r) by ring.
      exact He.
Qed.

Lemma ratio_in_unit (part whole : Qc) :
  (0 <= part)%Qc -> (part <= whole)%Qc -> (0 < whole)%Qc ->
  (inject_Z 0 <= this (part / whole)%Qc)%Q /\
  (this (part / whole)%Qc <= inject_Z 1)%Q.
Proof.
  unfold Qcle, Qclt. change (this 0%Qc) with 0%Q. intros H0 H1 Hw.
  rewrite this_div. change (inject_Z 0) with 0%Q. change (inject_Z 1) with 1%Q.
  split.
  - apply Qle_shift_div_l; [exact Hw | lra].
  - apply Qle_shift_div_r; [exact Hw | lra].
Qed.

(** The margin of a profit between zero and a positive revenue: every
    operation of binary64 keeps the value between the whole numbers that
    enclose it. *)
Lemma margin_of_share (profit revenue : Qc) :
  (0 <= profit)%Qc -> (profit <= revenue)%Qc -> (0 < revenue)%Qc ->
  exists m,
    round_f64 (fmul_pos (true_divide profit revenue) (Qc_of_Z 100)) 2 = Fin m /\
    (0 <= m)%Qc /\ (m <= Qc_of_Z 100)%Qc.
Proof.
  intros H0 H1 Hw.
  assert (Hne : revenue <> 0%Qc)
    by (intros E; rewrite E in Hw; exact (Qclt_not_eq _ _ Hw eq_refl)).
  unfold true_divide. rewrite (Qc_eqb_of_neq _ _ Hne).
  destruct (ratio_in_unit profit revenue H0 H1 Hw) as [Hx0 Hx1].
  destruct (round64_between 0 1 _ ltac:(lia) ltac:(lia) Hx0 Hx1)
    as (d & Hd & Hd0 & Hd1).
  rewrite Hd. cbn [fmul_pos].
  assert (Hy0 : (inject_Z 0 <= this (d * Qc_of_Z 100)%Qc)%Q)
    by (rewrite this_mult, this_100; change (inject_Z 0) with 0%Q in *; lra).
  assert (Hy1 : (this (d * Qc_of_Z 100)%Qc <= inject_Z 100)%Q)
    by (rewrite this_mult, this_100; change (inject_Z 1) with 1%Q in *;
        change (inject_Z 100) with 100%Q; lra).
  destruct (round64_between 0 100 _ ltac:(lia) ltac:(lia) Hy0 Hy1)
    as (t & Ht & Ht0 & Ht1).
  unfold round_f64. rewrite Ht.
  assert (Hz0 : (inject_Z 0 <= this (t * pow10 2)%Qc)%Q)
    by (rewrite this_mult, this_pow10_2; change (inject_Z 0) with 0%Q in *;
        lra).
  assert (Hz1 : (this (t * pow10 2)%Qc <= inject_Z 10000)%Q)
    by (rewrite this_mult, this_pow10_2; change (inject_Z 100) with 100%Q in *;
        change (inject_Z 10000) with 10000%Q; lra).
  destruct (round64_between 0 10000 _ ltac:(lia) ltac:(lia) Hz0 Hz1)
    as (w & Hw' & Hw0 & Hw1).
  rewrite Hw'.
  pose proof (rint_within 0 10000 w Hw0 Hw1) as Hz.
  set (z := rint w) in *. clearbody z.
  assert (Hq0 : (inject_Z 0 <= this (Qc_of_Z z / pow10 2)%Qc)%Q).
  { rewrite this_div, this_of_Z, this_pow10_2.
    change (inject_Z 0) with 0%Q. apply Qle_shift_div_l; [reflexivity |].
    setoid_replace (0 * 100)%Q with (inject_Z 0) by reflexivity.
    rewrite <- Zle_Qle. lia. }
  assert (Hq1 : (this (Qc_of_Z z / pow10 2)%Qc <= inject_Z 100)%Q).
  { rewrite this_div, this_of_Z, this_pow10_2.
    apply Qle_shift_div_r; [reflexivity |].
    setoid_replace (inject_Z 100 * 100)%Q with (inject_Z 10000) by reflexivity.
    rewrite <- Zle_Qle. lia. }
  destruct (round64_between 0 100 _ ltac:(lia) ltac:(lia) Hq0 Hq1)
    as (m & Hm & Hm0 & Hm1).
  exists m. split; [exact Hm |].
  unfold Qcle. rewrite this_of_Z. auto.
Qed.

(** X8.  When the amounts add up exactly, every record has expenses
    between zero and its revenue and the total revenue is positive, the
    profit margin of the summary is a finite number between 0 and 100,
    in both variants: none of the operations of binary64 that compute it
    leaves that range. *)
Theorem margin_between_0_and_100 (csv : list CsvRow) (s : session) :
  exact_amounts csv ->
  Forall (fun r => (0 <= csv_Expenses r)%Qc
                   /\ (csv_Expenses r <= csv_Revenue r)%Qc) csv ->
  (0 < sum_Qc (map csv_Revenue csv))%Qc ->
  (exists a avg s' m,
      (Orchestrator.load_data (Return csv) ;;;
       Orchestrator.data_analyst_metrics) s = (Return (a, avg), s') /\
      profit_margin a = Fin m /\
      (0 <= m)%Qc /\ (m <= Qc_of_Z 100)%Qc) /\
  (exists a s' m,
      (StreamlitApp.load_data (Return csv) ;;;
       StreamlitApp.get_analysis_data) s = (Return (Some a), s') /\
      profit_margin a = Fin m /\
      (0 <= m)%Qc /\ (m <= Qc_of_Z 100)%Qc).
Proof.
  intros _ Hbounds Hpos.
  assert (Hcsv : csv <> []).
  { intros ->. simpl in Hpos. exact (Qclt_not_eq _ _ Hpos eq_refl). }
  assert (Hrows : map with_profit csv <> []) by now apply map_nonempty.
  assert (Hrev : map Revenue (map with_profit csv) = map csv_Revenue csv)
    by (rewrite map_map; reflexivity).
  destruct (profit_between csv Hbounds) as [Hp0 Hp1].
  rewrite Hrev in Hp1.
  set (profit := sum_Qc (map Profit (map with_profit csv))) in *.
  set (revenue := sum_Qc (map csv_Revenue csv)) in *.
  assert (Hne : revenue <> 0%Qc)
    by (intros E; rewrite E in Hpos; exact (Qclt_not_eq _ _ Hpos eq_refl)).
  assert (Hmargin :
            exists m,
              round_f64 (fmul_pos (true_divide profit revenue) (Qc_of_Z 100)) 2
              = Fin m /\ (0 <= m)%Qc /\ (m <= Qc_of_Z 100)%Qc)
    by now apply margin_of_share.
  destruct Hmargin as (m & Hm & Hm0 & Hm1).
  split.
  - unfold bind at 1. rewrite cli_load_ok.
    match goal with |- context [Orchestrator.data_analyst_metrics ?s1] =>
      destruct (OrchestratorFacts.metrics_loaded s1 _ eq_refl Hrows)
        as (a & Hrun & _ & _ & _ & Hmar & _)
    end.
    exists a. do 2 eexists. exists m. split; [exact Hrun |].
    split; [| split; assumption].
    rewrite Hmar. cbn [rows]. rewrite Hrev. exact Hm.
  - unfold bind at 1. rewrite dash_load_ok.
    match goal with |- context [StreamlitApp.get_analysis_data ?s1] =>
      destruct (StreamlitFacts.analysis_loaded s1 _ eq_refl Hrows eq_refl)
        as (a & Hrun & _ & _ & _ & Hmar & _)
    end.
    exists a. eexists. exists m. split; [exact Hrun |].
    split; [| split; assumption].
    rewrite Hmar. cbn [rows]. rewrite Hrev. exact Hm.
Qed.

Lemma margin_between_0_and_100_witness :
  exact_amounts phone_laptop /\
  Forall (fun r => (0 <= csv_Expenses r)%Qc
                   /\ (csv_Expenses r <= csv_Revenue r)%Qc) phone_laptop /\
  (0 < sum_Qc (map csv_Revenue phone_laptop))%Qc /\
  exists a avg s' m,
    (Orchestrator.load_data (Return phone_laptop) ;;;
     Orchestrator.data_analyst_metrics) fresh = (Return (a, avg), s') /\
    profit_margin a = Fin m /\
    (0 <= m)%Qc /\ (m <= Qc_of_Z 100)%Qc.
Proof.
  assert (Hb : Forall (fun r => (0 <= csv_Expenses r)%Qc
                                /\ (csv_Expenses r <= csv_Revenue r)%Qc)
                      phone_laptop).
  { repeat constructor; unfold Qcle; vm_compute; discriminate. }
  assert (Hp : (0 < sum_Qc (map csv_Revenue phone_laptop))%Qc)
    by (unfold Qclt; vm_compute; reflexivity).
  assert (He : exact_amounts phone_laptop)
    by (split; vm_compute; reflexivity).
  split; [exact He |]. split; [exact Hb |]. split; [exact Hp |].
  apply (margin_between_0_and_100 phone_laptop fresh He Hb Hp).
Defined.

(** ** The order of the records *)

Lemma sum_Qc_perm (l l' : list Qc) :
  Permutation l l' -> sum_Qc l = sum_Qc l'.
Proof.
  induction 1 as [| x l l' _ IH | x y l | l l' l'' _ IH1 _ IH2]; simpl.
  - reflexivity.
  - now rewrite IH.
  - ring.
  - now rewrite IH1.
Qed.

Lemma sum_Z_perm (l l' : list Z) :
  Permutation l l' -> sum_Z l = sum_Z l'.
Proof.
  induction 1 as [| x l l' _ IH | x y l | l l' l'' _ IH1 _ IH2]; simpl; lia.
Qed.

Lemma mean_Z_perm (l l' : list Z) :
  Permutation l l' -> mean_Z l = mean_Z l'.
Proof.
  intros H. unfold mean_Z.
  rewrite (sum_Z_perm _ _ H), (Permutation_length H).
  destruct l as [| x t], l' as [| y t']; try reflexivity.
  - apply Permutation_nil in H. discriminate.
  - apply Permutation_sym, Permutation_nil in H. discriminate.
Qed.

Lemma filter_perm {A : Type} (f : A -> bool) (l l' : list A) :
  Permutation l l' -> Permutation (filter f l) (filter f l').
Proof.
  induction 1 as [| x l l' _ IH | x y l | l l' l'' _ IH1 _ IH2]; simpl.
  - constructor.
  - destruct (f x); auto.
  - destruct (f x), (f y); auto. constructor.
  - eapply Permutation_trans; eauto.
Qed.

(** Two lists in strictly ascending order with the same elements are
    the same list. *)
Lemma strictly_sorted_unique (a b : list string) :
  StronglySorted str_lt a -> StronglySorted str_lt b ->
  (forall x, In x a <-> In x b) -> a = b.
Proof.
  intros Ha. revert b.
  induction Ha as [| x a Ha IH Hxa]; intros b Hb Hsame.
  - destruct b as [| y b]; [reflexivity |].
    destruct (proj2 (Hsame y) (or_introl eq_refl)).
  - destruct Hb as [| y b Hb Hyb].
    + destruct (proj1 (Hsame x) (or_introl eq_refl)).
    + rewrite Forall_forall in Hxa, Hyb.
      assert (Hxy : x = y).
      { destruct (proj1 (Hsame x) (or_introl eq_refl)) as [E | Hin];
          [now symmetry |].
        destruct (proj2 (Hsame y) (or_introl eq_refl)) as [E | Hin'];
          [exact E |].
        exfalso. apply (str_lt_irrefl x).
        eapply str_lt_trans; [apply Hxa, Hin' | apply Hyb, Hin]. }
      subst y. f_equal. apply IH; [exact Hb |].
      intros z. split; intros Hz.
      * destruct (proj1 (Hsame z) (or_intror Hz)) as [E | Hin]; [| exact Hin].
        subst z. exfalso. exact (str_lt_irrefl x (Hxa x Hz)).
      * destruct (proj2 (Hsame z) (or_intror Hz)) as [E | Hin]; [| exact Hin].
        subst z. exfalso. exact (str_lt_irrefl x (Hyb x Hz)).
Qed.

Lemma sorted_keys_perm (l l' : list string) :
  Permutation l l' -> sort_keys (unique l) = sort_keys (unique l').
Proof.
  intros H. apply strictly_sorted_unique.
  - apply sort_keys_strictly, NoDup_unique.
  - apply sort_keys_strictly, NoDup_unique.
  - intros x. rewrite !in_sort_keys, !in_unique.
    split; apply Permutation_in; [exact H | now apply Permutation_sym].
Qed.

(** A table of aggregates that do not depend on the order of the rows
    of a group does not depend on the order of the rows of the frame. *)
Lemma grouped_table_perm {A B : Type} (key : A -> string)
      (agg : list A -> B) (rs rs' : list A) :
  (forall l l', Permutation l l' -> agg l = agg l') ->
  Permutation rs rs' ->
  map (fun kg => (fst kg, agg (snd kg))) (groupby (map key rs) rs)
  = map (fun kg => (fst kg, agg (snd kg))) (groupby (map key rs') rs').
Proof.
  intros Hagg Hperm.
  rewrite !groupby_by_key, !map_map. cbn [fst snd].
  rewrite (sorted_keys_perm (map key rs) (map key rs'))
    by now apply Permutation_map.
  apply map_ext. intros k. f_equal.
  apply Hagg. now apply filter_perm.
Qed.

Lemma product_table_perm (rs rs' : list Row) :
  Permutation rs rs' -> product_table rs = product_table rs'.
Proof.
  intros H. unfold product_table.
  apply (grouped_table_perm Product
           (fun l => mkProductAgg (round_Qc (sum_Qc (map Revenue l)) 2)
                                  (round_Qc (sum_Qc (map Expenses l)) 2)
                                  (round_Qc (sum_Qc (map Profit l)) 2)
                                  (sum_Z (map Customers l))));
    [| exact H].
  intros l l' Hl.
  now rewrite (sum_Qc_perm _ _ (Permutation_map Revenue Hl)),
    (sum_Qc_perm _ _ (Permutation_map Expenses Hl)),
    (sum_Qc_perm _ _ (Permutation_map Profit Hl)),
    (sum_Z_perm _ _ (Permutation_map Customers Hl)).
Qed.

Lemma cli_month_table_perm (rs rs' : list Row) :
  Permutation rs rs' ->
  Orchestrator.month_table (month_labels rs) rs
  = Orchestrator.month_table (month_labels rs') rs'.
Proof.
  intros H. unfold Orchestrator.month_table, month_labels.
  apply (grouped_table_perm (fun r => strftime_B (Date r))
           (fun l => Orchestrator.mkMonthAgg
                       (round_Qc (sum_Qc (map Revenue l)) 2)
                       (round_Qc (sum_Qc (map Profit l)) 2)));
    [| exact H].
  intros l l' Hl.
  now rewrite (sum_Qc_perm _ _ (Permutation_map Revenue Hl)),
    (sum_Qc_perm _ _ (Permutation_map Profit Hl)).
Qed.

Lemma dash_month_table_perm (rs rs' : list Row) :
  Permutation rs rs' ->
  StreamlitApp.month_table (month_labels rs) rs
  = StreamlitApp.month_table (month_labels rs') rs'.
Proof.
  intros H. unfold StreamlitApp.month_table, month_labels.
  apply (grouped_table_perm (fun r => strftime_B (Date r))
           (fun l => StreamlitApp.mkMonthAgg
                       (round_Qc (sum_Qc (map Revenue l)) 2)
                       (round_Qc (sum_Qc (map Profit l)) 2)
                       (sum_Z (map Customers l))));
    [| exact H].
  intros l l' Hl.
  now rewrite (sum_Qc_perm _ _ (Permutation_map Revenue Hl)),
    (sum_Qc_perm _ _ (Permutation_map Profit Hl)),
    (sum_Z_perm _ _ (Permutation_map Customers Hl)).
Qed.

(** X9.  The summary does not depend on the order of the records: two
    files that hold the same records in different orders, with amounts
    and numbers of customers that add up exactly, give the same outcome
    of the aggregation, that is the same totals, margin, average,
    tables, best month and best product, or the same error, in both
    variants. *)
Theorem summary_ignores_record_order (csv csv' : list CsvRow) (s : session) :
  Permutation csv csv' -> exact_amounts csv -> exact_counts csv ->
  fst ((Orchestrator.load_data (Return csv) ;;;
        Orchestrator.data_analyst_metrics) s)
  = fst ((Orchestrator.load_data (Return csv') ;;;
          Orchestrator.data_analyst_metrics) s) /\
  fst ((StreamlitApp.load_data (Return csv) ;;;
        StreamlitApp.get_analysis_data) s)
  = fst ((StreamlitApp.load_data (Return csv') ;;;
          StreamlitApp.get_analysis_data) s).
Proof.
  intros Hperm _ _.
  assert (Hrows : Permutation (map with_profit csv) (map with_profit csv'))
    by now apply Permutation_map.
  set (rs := map with_profit csv) in *.
  set (rs' := map with_profit csv') in *.
  assert (E1 := sum_Qc_perm _ _ (Permutation_map Revenue Hrows)).
  assert (E2 := sum_Qc_perm _ _ (Permutation_map Expenses Hrows)).
  assert (E3 := sum_Qc_perm _ _ (Permutation_map Profit Hrows)).
  assert (E4 := mean_Z_perm _ _ (Permutation_map Customers Hrows)).
  assert (E5 := product_table_perm _ _ Hrows).
  assert (E6 := cli_month_table_perm _ _ Hrows).
  assert (E7 := dash_month_table_perm _ _ Hrows).
  split.
  - do 2 (erewrite bind_return by apply cli_load_ok). fold rs rs'.
    unfold Orchestrator.data_analyst_metrics. run_py.
    rewrite E1, E2, E3, E4, E5, E6.
    destruct (idxmax _); simpl; [| reflexivity].
    destruct (idxmax _); reflexivity.
  - do 2 (erewrite bind_return by apply dash_load_ok). fold rs rs'.
    unfold StreamlitApp.get_analysis_data. run_py.
    rewrite E1, E2, E3, E4, E5, E7.
    destruct (idxmax _); simpl; [| reflexivity].
    destruct (idxmax _); reflexivity.
Qed.

Lemma summary_ignores_record_order_witness :
  Permutation phone_laptop (rev phone_laptop) /\
  exact_amounts phone_laptop /\
  exact_counts phone_laptop /\
  fst ((Orchestrator.load_data (Return phone_laptop) ;;;
        Orchestrator.data_analyst_metrics) fresh)
  = fst ((Orchestrator.load_data (Return (rev phone_laptop)) ;;;
          Orchestrator.data_analyst_metrics) fresh).
Proof.
  assert (He : exact_amounts phone_laptop)
    by (split; vm_compute; reflexivity).
  assert (Hc : exact_counts phone_laptop) by reflexivity.
  split; [apply Permutation_rev |]. split; [exact He |]. split; [exact Hc |].
  apply (summary_ignores_record_order phone_laptop (rev phone_laptop) fresh);
    [apply Permutation_rev | exact He | exact Hc].
Defined.

(** ** What leaves the frame alone *)

Lemma keeps_ret {A : Type} (a : A) : keeps_frame (ret a).
Proof. intros s. reflexivity. Qed.

Lemma keeps_raise {A : Type} (e : exn) : keeps_frame (@raise A e).
Proof. intros s. reflexivity. Qed.

Lemma keeps_emit (ev : event) : keeps_frame (emit ev).
Proof. intros s. reflexivity. Qed.

Lemma keeps_print (line : string) : keeps_frame (print line).
Proof. intros s. reflexivity. Qed.

Lemma keeps_self_data : keeps_frame self_data.
Proof.
  intros s. unfold self_data.
  destruct (data s) eqn:E; simpl; exact E.
Qed.

Lemma keeps_chat (P : Platform) (model_id prompt : string) :
  keeps_frame (chat_completion P model_id prompt).
Proof.
  intros s. unfold chat_completion.
  destruct (client P (sent s) _); reflexivity.
Qed.

Lemma keeps_bind {A B : Type} (m : M A) (k : A -> M B) :
  keeps_frame m -> (forall a, keeps_frame (k a)) -> keeps_frame (bind m k).
Proof.
  intros Hm Hk s. unfold bind. specialize (Hm s).
  destruct (m s) as [[a | e] s1]; simpl in *.
  - now rewrite Hk.
  - exact Hm.
Qed.

Lemma keeps_try {A : Type} (body : M A) (handler : exn -> M A) :
  keeps_frame body -> (forall e, keeps_frame (handler e)) ->
  keeps_frame (try_except body handler).
Proof.
  intros Hb Hh s. unfold try_except. specialize (Hb s).
  destruct (body s) as [[a | e] s1]; simpl in *.
  - exact Hb.
  - now rewrite Hh.
Qed.

Lemma keeps_get_analysis_data : keeps_frame StreamlitApp.get_analysis_data.
Proof.
  intros s. now rewrite StreamlitFacts.get_analysis_data_frame.
Qed.

Create HintDb frame.

#[local] Hint Resolve keeps_ret keeps_raise keeps_emit keeps_print
  keeps_self_data keeps_chat keeps_get_analysis_data : frame.

Ltac keep_frame :=
  repeat first
    [ apply keeps_bind; [| intros ?]
    | apply keeps_try; [| intros ?]
    | solve [auto with frame] ].

(** X10.  Apart from the analyst of the console variant, no agent and no
    helper touches the loaded frame, whether the backend answers or
    raises and whether the operation itself returns or raises: the
    summarizer, the strategist, the email reporter, the customer-support
    agent and query and [display_results] of the console variant, and
    [get_analysis_data], the five agents and the whole full analysis of
    the dashboard variant. *)
Theorem agents_keep_frame
        (P : Platform)
        (str_dict : AnalysisData StreamlitApp.MonthAgg -> string)
        (a : AnalysisData Orchestrator.MonthAgg)
        (b : option (AnalysisData StreamlitApp.MonthAgg))
        (c c' : AnalysisData StreamlitApp.MonthAgg)
        (r : Orchestrator.results)
        (summary_output strategy_output question : string) :
  keeps_frame (Orchestrator.summarizer_agent P a) /\
  keeps_frame (Orchestrator.business_strategy_agent P summary_output) /\
  keeps_frame (Orchestrator.email_reporter_agent P summary_output
                                                 strategy_output) /\
  keeps_frame (Orchestrator.customer_support_agent P question) /\
  keeps_frame (Orchestrator.customer_support_query P question) /\
  keeps_frame (OrchestratorMain.display_results P r) /\
  keeps_frame StreamlitApp.get_analysis_data /\
  keeps_frame (StreamlitApp.data_analyst_agent P b) /\
  keeps_frame (StreamlitApp.summarizer_agent P str_dict c c') /\
  keeps_frame (StreamlitApp.business_strategy_agent P summary_output) /\
  keeps_frame (StreamlitApp.email_reporter_agent P summary_output
                                                 strategy_output) /\
  keeps_frame (StreamlitApp.customer_support_agent P question) /\
  keeps_frame (StreamlitApp.full_analysis P str_dict).
Proof.
  repeat apply conj.
  - unfold Orchestrator.summarizer_agent, Orchestrator.get_ai_insights.
    destruct (ai_insights a); keep_frame.
  - unfold Orchestrator.business_strategy_agent. keep_frame.
  - unfold Orchestrator.email_reporter_agent. keep_frame.
  - unfold Orchestrator.customer_support_agent. keep_frame.
  - unfold Orchestrator.customer_support_query,
      Orchestrator.customer_support_agent. keep_frame.
  - unfold OrchestratorMain.display_results.
    destruct (ai_insights (Orchestrator.analysis r)); keep_frame.
  - auto with frame.
  - unfold StreamlitApp.data_analyst_agent. destruct b; keep_frame.
  - unfold StreamlitApp.summarizer_agent. keep_frame.
  - unfold StreamlitApp.business_strategy_agent. keep_frame.
  - unfold StreamlitApp.email_reporter_agent. keep_frame.
  - unfold StreamlitApp.customer_support_agent. keep_frame.
  - unfold StreamlitApp.full_analysis, StreamlitApp.data_analyst_agent,
      StreamlitApp.summarizer_agent, StreamlitApp.business_strategy_agent,
      StreamlitApp.email_reporter_agent.
    keep_frame.
    match goal with |- keeps_frame (match ?x with _ => _ end) => destruct x end;
      keep_frame.
Qed.

(** ** What the user sees after an analysis *)

(** X11.  After an [analyze] on a frame with a record the console shows
    the text of every stage, generated or message of error: the
    insights, the summary, the strategy and the email are each printed
    by [display_results], whatever the backend did. *)
Theorem analyze_shows_every_text (P : Platform) (s : session) (df : DataFrame) :
  data s = Some df -> rows df <> [] ->
  exists r s1 s' insights shown,
    Orchestrator.run_full_analysis P s = (Return r, s1) /\
    (results <- Orchestrator.run_full_analysis P ;;
     OrchestratorMain.display_results P results) s = (Return tt, s') /\
    ai_insights (Orchestrator.analysis r) = Some insights /\
    console s' = (console s1 ++ shown)%list /\
    In (Printed insights) shown /\
    In (Printed (Orchestrator.summary r)) shown /\
    In (Printed (Orchestrator.strategy r)) shown /\
    In (Printed (Orchestrator.email r)) shown.
Proof.
  intros Hdata Hrows.
  destruct (cli_pipeline_state P s df Hdata Hrows)
    as (r & s1 & insights & Hrun & _ & _ & Hins).
  destruct (display_results_shows P r s1)
    as (log & Hshow & Hi & Hsum & Hstr & Hem).
  exists r, s1. eexists. exists insights, log.
  split; [exact Hrun |].
  split; [rewrite (bind_return _ _ _ _ _ Hrun); exact Hshow |].
  split; [exact Hins |].
  split; [reflexivity |].
  repeat split; auto.
Qed.

Lemma analyze_shows_every_text_witness :
  data cli_loaded = Some (mkFrame (map with_profit phone_laptop) None) /\
  rows (mkFrame (map with_profit phone_laptop) None) <> [] /\
  exists r s1 s' shown,
    Orchestrator.run_full_analysis backend_down cli_loaded = (Return r, s1) /\
    (results <- Orchestrator.run_full_analysis backend_down ;;
     OrchestratorMain.display_results backend_down results) cli_loaded
    = (Return tt, s') /\
    console s' = (console s1 ++ shown)%list /\
    In (Printed (Orchestrator.summary r)) shown /\
    In (Printed (Orchestrator.email r)) shown.
Proof.
  split; [reflexivity |]. split; [discriminate |].
  destruct (analyze_shows_every_text backend_down cli_loaded
              (mkFrame (map with_profit phone_laptop) None)
              eq_refl ltac:(discriminate))
    as (r & s1 & s' & insights & shown & Hrun & Hboth & _ & Hlog & _ & Hsum
        & _ & Hem).
  exists r, s1, s', shown. auto.
Defined.

(** ** What a failed stage hands to the next *)

Lemma append_assoc (a b c : string) : (a ++ b) ++ c = a ++ (b ++ c).
Proof. induction a as [| ch a IH]; simpl; [reflexivity | now rewrite IH]. Qed.

Lemma append_empty_r (a : string) : a ++ EmptyString = a.
Proof. induction a as [| ch a IH]; simpl; [reflexivity | now rewrite IH]. Qed.

Lemma contains_itself (text : string) : contains text text.
Proof. exists EmptyString, EmptyString. simpl. now rewrite append_empty_r. Qed.

Lemma contains_trans (a b c : string) :
  contains a b -> contains b c -> contains a c.
Proof.
  intros (p & q & ->) (p' & q' & ->).
  exists (p ++ p'), (q' ++ q).
  now rewrite !append_assoc.
Qed.

Lemma contains_left (prefix text part : string) :
  contains text part -> contains (prefix ++ text) part.
Proof.
  intros (p & q & ->). exists (prefix ++ p), q. now rewrite !append_assoc.
Qed.

Lemma contains_right (text suffix part : string) :
  contains text part -> contains (text ++ suffix) part.
Proof.
  intros (p & q & ->). exists p, (q ++ suffix). now rewrite !append_assoc.
Qed.

(** A text is in the block of which it is a line. *)
Lemma contains_line (sep : string) (lines : list string) (line part : string) :
  In line lines -> contains line part ->
  contains (String.concat sep lines) part.
Proof.
  induction lines as [| x t IH]; intros Hin Hpart; [contradiction |].
  destruct t as [| y t'].
  - destruct Hin as [-> | []]. exact Hpart.
  - change (String.concat sep (x :: y :: t'))
      with (x ++ sep ++ String.concat sep (y :: t')).
    destruct Hin as [-> | Hin].
    + now apply contains_right.
    + apply contains_left, contains_left. now apply IH.
Qed.

Lemma summarizer_prompt_contains (P : Platform)
      (a : AnalysisData Orchestrator.MonthAgg) (insights : string) :
  contains (Orchestrator.summarizer_prompt P a insights) insights.
Proof.
  unfold Orchestrator.summarizer_prompt, text_block.
  eapply contains_line with (line := "        " ++ insights).
  - cbn [In]. do 11 right. now left.
  - apply contains_left, contains_itself.
Qed.

Lemma strategy_prompt_contains (summary_output : string) :
  contains (Orchestrator.strategy_prompt summary_output) summary_output.
Proof.
  unfold Orchestrator.strategy_prompt, text_block.
  eapply contains_line with (line := "        " ++ summary_output).
  - cbn [In]. do 4 right. now left.
  - apply contains_left, contains_itself.
Qed.

Lemma email_prompt_contains (P : Platform)
      (summary_output strategy_output : string) :
  contains (Orchestrator.email_prompt P summary_output strategy_output)
           summary_output /\
  contains (Orchestrator.email_prompt P summary_output strategy_output)
           strategy_output.
Proof.
  unfold Orchestrator.email_prompt, text_block. split.
  - eapply contains_line with (line := "        " ++ summary_output).
    + cbn [In]. do 4 right. now left.
    + apply contains_left, contains_itself.
  - eapply contains_line with (line := "        " ++ strategy_output).
    + cbn [In]. do 7 right. now left.
    + apply contains_left, contains_itself.
Qed.

Lemma soft_text_failure (P : Platform) (history : list request)
      (req : request) (prefix : string) (e : exn) :
  client P history req = Failure e ->
  contains (soft_text P history req prefix) (str_exn e).
Proof.
  intros H. unfold soft_text. rewrite H.
  apply contains_left, contains_itself.
Qed.

(** X12.  In a run of the console pipeline the text of a stage is part of
    the prompts of the stages that use it, and a message of error is
    treated like a text: when the call of the analyst raises, the
    message of its exception is inside the prompt sent to the
    summarizer; when the call of the summarizer raises, its message is
    inside the prompts sent to the strategist and to the email reporter;
    when the call of the strategist raises, its message is inside the
    prompt sent to the email reporter. *)
Theorem errors_reach_next_prompts (P : Platform) (s : session) (df : DataFrame) :
  data s = Some df -> rows df <> [] ->
  exists r s' q1 p2 p3 p4,
    Orchestrator.run_full_analysis P s = (Return r, s') /\
    sent s'
    = user_request Orchestrator.model_id p4
      :: user_request Orchestrator.model_id p3
      :: user_request Orchestrator.model_id p2
      :: q1 :: sent s /\
    contains p3 (Orchestrator.summary r) /\
    contains p4 (Orchestrator.summary r) /\
    contains p4 (Orchestrator.strategy r) /\
    (forall e, client P (sent s) q1 = Failure e -> contains p2 (str_exn e)) /\
    (forall e,
        client P (q1 :: sent s) (user_request Orchestrator.model_id p2)
        = Failure e ->
        contains p3 (str_exn e) /\ contains p4 (str_exn e)) /\
    (forall e,
        client P (user_request Orchestrator.model_id p2 :: q1 :: sent s)
               (user_request Orchestrator.model_id p3)
        = Failure e ->
        contains p4 (str_exn e)).
Proof.
  intros Hdata Hrows.
  destruct (cli_pipeline P s df Hdata Hrows)
    as (r & s' & log & q1 & q2 & q3 & q4 & insights & Hrun & _ & _ & Hsent
        & _ & Hins & Hq2 & Hsum & Hq3 & Hstr & Hq4 & _).
  subst q2 q3 q4.
  exists r, s', q1. do 3 eexists.
  split; [exact Hrun |]. split; [exact Hsent |].
  destruct (email_prompt_contains P (Orchestrator.summary r)
              (Orchestrator.strategy r)) as [He1 He2].
  pose proof (strategy_prompt_contains (Orchestrator.summary r)) as Hs.
  pose proof (summarizer_prompt_contains P (Orchestrator.analysis r) insights)
    as Hi.
  split; [exact Hs |]. split; [exact He1 |]. split; [exact He2 |].
  split; [| split].
  - intros e He. eapply contains_trans; [exact Hi |].
    rewrite Hins. now apply soft_text_failure.
  - intros e He.
    assert (Hc : contains (Orchestrator.summary r) (str_exn e))
      by (rewrite Hsum; now apply soft_text_failure).
    split; [exact (contains_trans _ _ _ Hs Hc) | exact (contains_trans _ _ _ He1 Hc)].
  - intros e He.
    assert (Hc : contains (Orchestrator.strategy r) (str_exn e))
      by (rewrite Hstr; now apply soft_text_failure).
    exact (contains_trans _ _ _ He2 Hc).
Qed.

Lemma errors_reach_next_prompts_witness :
  data cli_loaded = Some (mkFrame (map with_profit phone_laptop) None) /\
  rows (mkFrame (map with_profit phone_laptop) None) <> [] /\
  exists r s' q1 p2 p3 p4,
    Orchestrator.run_full_analysis backend_down cli_loaded = (Return r, s') /\
    sent s'
    = user_request Orchestrator.model_id p4
      :: user_request Orchestrator.model_id p3
      :: user_request Orchestrator.model_id p2
      :: q1 :: sent cli_loaded /\
    contains p2 "Connection error." /\
    contains p3 "Connection error." /\
    contains p4 "Connection error.".
Proof.
  split; [reflexivity |]. split; [discriminate |].
  destruct (errors_reach_next_prompts backend_down cli_loaded
              (mkFrame (map with_profit phone_laptop) None)
              eq_refl ltac:(discriminate))
    as (r & s' & q1 & p2 & p3 & p4 & Hrun & Hsent & _ & _ & _ & H1 & H2 & H3).
  exists r, s', q1, p2, p3, p4.
  split; [exact Hrun |]. split; [exact Hsent |].
  split; [exact (H1 (APIError "Connection error.") eq_refl) |].
  split; [exact (proj1 (H2 (APIError "Connection error.") eq_refl)) |].
  exact (H3 (APIError "Connection error.") eq_refl).
Defined.

(** ** The script that tries the models *)





(** ** The two variants side by side *)

Lemma month_columns_agree (months : list string) (rs : list Row) :
  column Orchestrator.ma_Revenue (Orchestrator.month_table months rs)
  = column StreamlitApp.ma_Revenue (StreamlitApp.month_table months rs) /\
  column Orchestrator.ma_Profit (Orchestrator.month_table months rs)
  = column StreamlitApp.ma_Profit (StreamlitApp.month_table months rs).
Proof.
  unfold column, Orchestrator.month_table, StreamlitApp.month_table.
  rewrite !map_map. split; reflexivity.
Qed.

(** X14.  The console and the dashboard compute the same summary of the
    same file: when the file holds a record both return, with equal
    totals, margin, average, best month, best product and table by
    product, and with equal revenue and profit for every month (the
    table of the dashboard has the customers of the month besides); when
    the file holds no record both raise the same exception.  This holds
    whatever the two sessions were before the load. *)
Theorem variants_agree (csv : list CsvRow) (s s' : session) :
  match fst ((Orchestrator.load_data (Return csv) ;;;
              Orchestrator.data_analyst_metrics) s),
        fst ((StreamlitApp.load_data (Return csv) ;;;
              StreamlitApp.get_analysis_data) s') with
  | Return (a, avg), Return (Some b) =>
      csv <> [] /\
      total_revenue a = total_revenue b /\
      total_expenses a = total_expenses b /\
      total_profit a = total_profit b /\
      profit_margin a = profit_margin b /\
      avg_customers a = avg_customers b /\
      avg_customers a = round_f64 avg 0 /\
      best_month a = best_month b /\
      best_product a = best_product b /\
      product_performance a = product_performance b /\
      column Orchestrator.ma_Revenue (monthly_trends a)
      = column StreamlitApp.ma_Revenue (monthly_trends b) /\
      column Orchestrator.ma_Profit (monthly_trends a)
      = column StreamlitApp.ma_Profit (monthly_trends b)
  | Raise e, Raise e' => csv = [] /\ e = e'
  | _, _ => False
  end.
Proof.
  erewrite bind_return by apply cli_load_ok.
  erewrite bind_return by apply dash_load_ok.
  destruct csv as [| c csv].
  - erewrite OrchestratorFacts.metrics_empty by reflexivity.
    erewrite StreamlitFacts.analysis_empty by reflexivity.
    split; reflexivity.
  - set (rs := map with_profit (c :: csv)).
    assert (Hrs : rs <> []) by discriminate.
    match goal with
    | |- context [Orchestrator.data_analyst_metrics ?s1] =>
        destruct (OrchestratorFacts.metrics_loaded s1 (mkFrame rs None)
                    eq_refl Hrs)
          as (a & Ha & A1 & A2 & A3 & A4 & A5 & A6 & A7 & A8 & A9 & _)
    end.
    match goal with
    | |- context [StreamlitApp.get_analysis_data ?s2] =>
        destruct (StreamlitFacts.analysis_loaded s2
                    (mkFrame rs (Some (month_labels rs))) eq_refl Hrs eq_refl)
          as (b & Hb & B1 & B2 & B3 & B4 & B5 & B6 & B7 & B8 & B9 & _)
    end.
    rewrite Ha, Hb. cbn [fst rows] in *.
    destruct (month_columns_agree (month_labels rs) rs) as [Hrev Hprof].
    rewrite <- A7, <- B7 in Hrev, Hprof.
    split; [discriminate |].
    split; [congruence |]. split; [congruence |]. split; [congruence |].
    split; [congruence |]. split; [congruence |]. split; [exact A5 |].
    split; [rewrite Hrev in A8; congruence |].
    split; [congruence |]. split; [congruence |].
    split; [exact Hrev | exact Hprof].
Qed.

(** ** What a question sends to the backend *)


